(** * Que-STM32-Arsenal: the Comm serial protocol library

    A shallow embedding of [comm_protocol.c], [comm_manager.c] and [comm.c]
    (frame codec, CRC8, sequence window, send / ack / retry state machine)
    and the properties of these functions.

    Conventions of the embedding:
    - [uint8_t], [uint16_t], [uint32_t] values are [Z] with the wrap-around
      written with [mod]; a byte is a [Z] in [0, 256);
    - a [char] array is a [list Z] of the declared size, written by index
      with [<[i:=b]>]; the C string stored in it is read with [cstr];
    - an instance pointer is never [NULL] (the instance is passed by value
      and returned), so the [instance == NULL] guards have no counterpart;
    - [HAL_GetTick], [HAL_UART_Transmit], [HAL_UART_Transmit_IT] and the
      registered callbacks act on a [World]: the tick, the status each
      transport call will return, and the trace of what was emitted;
    - the build has [COMM_ENABLE_DEBUG = 0], [COMM_ENABLE_STATS = 0] and
      [COMM_ENABLE_FAST_CRC = 1] ([comm_internal.h]); debug output and
      statistics expand to nothing. *)

From Stdlib Require Import ZArith List Lia Bool String.
From stdpp Require Import base tactics list numbers.
Import ListNotations.
Local Open Scope Z_scope.

(* ===================================================================== *)
(** ** Bytes, C strings and number formatting *)
(* ===================================================================== *)

Definition is_byte (b : Z) : Prop := 0 <= b < 256.

(** A C string: the non-NUL bytes before the terminator. *)
Definition is_cstring (s : list Z) : Prop :=
  Forall (fun b => 0 < b < 256) s.

(** The string stored in a [char] array: the bytes before the first NUL. *)
Fixpoint cstr (buf : list Z) : list Z :=
  match buf with
  | [] => []
  | b :: rest => if b =? 0 then [] else b :: cstr rest
  end.

(** [strlen] of a C string value. *)
Definition strlen (s : list Z) : Z := Z.of_nat (length s).

(** Writing into a [char] array at a [uint16_t] index. *)
Definition store (buf : list Z) (i : Z) (b : Z) : list Z :=
  <[Z.to_nat i := b]> buf.

(** The array after [snprintf (buf, sizeof buf, ...)] formatted [s] into it:
    at most [sizeof buf - 1] bytes of [s], a terminator, and the old
    content behind it. The call returns [strlen s]. *)
Definition snprintf_into (buf s : list Z) : list Z :=
  let written := take (length buf - 1) s in
  take (length buf) (written ++ [0]) ++ drop (length written + 1) buf.

(** [strncpy (dst, src, n)] followed by [dst[n] = '\0'] where [dst] has
    [n + 1] bytes: at most [n] bytes of [src], then NUL padding. *)
Definition strncpy_term (n : nat) (src : list Z) : list Z :=
  take n src ++ replicate (n - length src) 0 ++ [0].

Definition COMM_FRAME_START : Z := 123.         (* '{' *)
Definition COMM_FRAME_END : Z := 125.           (* '}' *)
Definition COMM_CMD_DATA_SEPARATOR : Z := 58.   (* ':' *)
Definition COMM_FIELD_SEPARATOR : Z := 35.      (* '#' *)
Definition COMM_MAX_CMD_LENGTH : Z := 16.
Definition COMM_MAX_DATA_LENGTH : Z := 64.
Definition COMM_RX_BUFFER_SIZE : Z := 256.
Definition COMM_TX_BUFFER_SIZE : Z := 128.
Definition COMM_MAX_CALLBACKS : Z := 8.
Definition COMM_MAX_INSTANCES : Z := 8.
Definition COMM_FRAME_TIMEOUT_MS : Z := 100.
Definition COMM_CMD_ACK : list Z := [65; 67; 75].   (* "ACK" *)
Definition COMM_CMD_NAK : list Z := [78; 65; 75].   (* "NAK" *)
Definition COMM_CMD_PING : list Z := [80; 73; 78; 71].

(** One uppercase hexadecimal digit, as [printf ("%X")] prints it. *)
Definition hex_digit (n : Z) : Z :=
  if n <? 10 then 48 + n else 55 + n.

(** [printf ("%02X", v)] for a [uint8_t] argument. *)
Definition hex2 (v : Z) : list Z := [hex_digit (v / 16); hex_digit (v mod 16)].

(** *** [strtol (s, NULL, 16)] on a target with a 32-bit [long] *)

Definition LONG_MAX : Z := 2147483647.
Definition LONG_MIN : Z := -2147483648.

Definition isspace (c : Z) : bool :=
  (c =? 32) || ((9 <=? c) && (c <=? 13)).

Definition hex_value (c : Z) : option Z :=
  if (48 <=? c) && (c <=? 57) then Some (c - 48)
  else if (65 <=? c) && (c <=? 70) then Some (c - 55)
  else if (97 <=? c) && (c <=? 102) then Some (c - 87)
  else None.

Fixpoint skip_space (s : list Z) : list Z :=
  match s with
  | c :: rest => if isspace c then skip_space rest else s
  | [] => []
  end.

(** The digits are accumulated until the first byte that is not one. *)
Fixpoint hex_digits (acc : Z) (s : list Z) : Z :=
  match s with
  | c :: rest =>
      match hex_value c with
      | Some d => hex_digits (acc * 16 + d) rest
      | None => acc
      end
  | [] => acc
  end.

(** An optional [0x] / [0X] is skipped when a digit follows it. *)
Definition skip_0x (s : list Z) : list Z :=
  match s with
  | 48 :: x :: d :: rest =>
      if ((x =? 120) || (x =? 88)) && bool_decide (is_Some (hex_value d))
      then d :: rest else s
  | _ => s
  end.

Definition strtol16 (s : list Z) : Z :=
  let s1 := skip_space s in
  let '(neg, s2) :=
    match s1 with
    | 45 :: rest => (true, rest)
    | 43 :: rest => (false, rest)
    | _ => (false, s1)
    end in
  let v := hex_digits 0 (skip_0x s2) in
  if neg then Z.max LONG_MIN (- v) else Z.min LONG_MAX v.

(** The cast [(uint8_t) strtol (s, NULL, 16)]. *)
Definition strtol16_u8 (s : list Z) : Z := strtol16 s mod 256.

(* ===================================================================== *)
(** ** CRC8 *)
(* ===================================================================== *)

Definition crc8_table : list Z :=
  [ 0x00; 0x07; 0x0E; 0x09; 0x1C; 0x1B; 0x12; 0x15;
    0x38; 0x3F; 0x36; 0x31; 0x24; 0x23; 0x2A; 0x2D;
    0x70; 0x77; 0x7E; 0x79; 0x6C; 0x6B; 0x62; 0x65;
    0x48; 0x4F; 0x46; 0x41; 0x54; 0x53; 0x5A; 0x5D;
    0xE0; 0xE7; 0xEE; 0xE9; 0xFC; 0xFB; 0xF2; 0xF5;
    0xD8; 0xDF; 0xD6; 0xD1; 0xC4; 0xC3; 0xCA; 0xCD;
    0x90; 0x97; 0x9E; 0x99; 0x8C; 0x8B; 0x82; 0x85;
    0xA8; 0xAF; 0xA6; 0xA1; 0xB4; 0xB3; 0xBA; 0xBD;
    0xC7; 0xC0; 0xC9; 0xCE; 0xDB; 0xDC; 0xD5; 0xD2;
    0xFF; 0xF8; 0xF1; 0xF6; 0xE3; 0xE4; 0xED; 0xEA;
    0xB7; 0xB0; 0xB9; 0xBE; 0xAB; 0xAC; 0xA5; 0xA2;
    0x8F; 0x88; 0x81; 0x86; 0x93; 0x94; 0x9D; 0x9A;
    0x27; 0x20; 0x29; 0x2E; 0x3B; 0x3C; 0x35; 0x32;
    0x1F; 0x18; 0x11; 0x16; 0x03; 0x04; 0x0D; 0x0A;
    0x57; 0x50; 0x59; 0x5E; 0x4B; 0x4C; 0x45; 0x42;
    0x6F; 0x68; 0x61; 0x66; 0x73; 0x74; 0x7D; 0x7A;
    0x89; 0x8E; 0x87; 0x80; 0x95; 0x92; 0x9B; 0x9C;
    0xB1; 0xB6; 0xBF; 0xB8; 0xAD; 0xAA; 0xA3; 0xA4;
    0xF9; 0xFE; 0xF7; 0xF0; 0xE5; 0xE2; 0xEB; 0xEC;
    0xC1; 0xC6; 0xCF; 0xC8; 0xDD; 0xDA; 0xD3; 0xD4;
    0x69; 0x6E; 0x67; 0x60; 0x75; 0x72; 0x7B; 0x7C;
    0x51; 0x56; 0x5F; 0x58; 0x4D; 0x4A; 0x43; 0x44;
    0x19; 0x1E; 0x17; 0x10; 0x05; 0x02; 0x0B; 0x0C;
    0x21; 0x26; 0x2F; 0x28; 0x3D; 0x3A; 0x33; 0x34;
    0x4E; 0x49; 0x40; 0x47; 0x52; 0x55; 0x5C; 0x5B;
    0x76; 0x71; 0x78; 0x7F; 0x6A; 0x6D; 0x64; 0x63;
    0x3E; 0x39; 0x30; 0x37; 0x22; 0x25; 0x2C; 0x2B;
    0x06; 0x01; 0x08; 0x0F; 0x1A; 0x1D; 0x14; 0x13;
    0xAE; 0xA9; 0xA0; 0xA7; 0xB2; 0xB5; 0xBC; 0xBB;
    0x96; 0x91; 0x98; 0x9F; 0x8A; 0x8D; 0x84; 0x83;
    0xDE; 0xD9; 0xD0; 0xD7; 0xC2; 0xC5; 0xCC; 0xCB;
    0xE6; 0xE1; 0xE8; 0xEF; 0xFA; 0xFD; 0xF4; 0xF3 ].

(** The two bodies of the byte loop of [comm_crc8_calculate]. *)

(** [crc = crc8_table[crc ^ data[i]]] *)
Definition crc8_table_byte (crc d : Z) : Z :=
  nth (Z.to_nat (Z.lxor crc d)) crc8_table 0.

(** [if (crc & 0x80) crc = (crc << 1) ^ 0x07; else crc <<= 1;] on a
    [uint8_t]. *)
Definition crc8_shift (crc : Z) : Z :=
  if Z.land crc 0x80 =? 0
  then Z.shiftl crc 1 mod 256
  else Z.lxor (Z.shiftl crc 1) 0x07 mod 256.

(** [crc ^= data[i]; for (j = 0; j < 8; j++) ...] *)
Definition crc8_bitwise_byte (crc d : Z) : Z :=
  Nat.iter 8 crc8_shift (Z.lxor crc d).

(** [comm_crc8_calculate (data, length)] for either body; [None] is the
    [NULL] pointer, and the loop reads the first [length] bytes. *)
Definition crc8_with (body : Z -> Z -> Z) (data : option (list Z)) (length : Z) : Z :=
  match data with
  | None => 0
  | Some bytes =>
      if length =? 0 then 0
      else fold_left body (take (Z.to_nat length) bytes) 0
  end.

(** The build has [COMM_ENABLE_FAST_CRC = 1]. *)
Definition comm_crc8_calculate : option (list Z) -> Z -> Z :=
  crc8_with crc8_table_byte.

Definition comm_crc8_calculate_bitwise : option (list Z) -> Z -> Z :=
  crc8_with crc8_bitwise_byte.

Definition comm_crc8_verify (data : option (list Z)) (length expected_crc : Z) : bool :=
  let calculated_crc := comm_crc8_calculate data length in
  calculated_crc =? expected_crc.

(** *** CRC-8 as the remainder of a polynomial division

    The reference definition: the message bits, most significant bit of
    each byte first (no reflection), followed by eight zero bits, divided
    by [x^8 + x^2 + x + 1] ([0x107], polynomial [0x07]) over GF(2), starting
    from a zero register (initial value [0x00]); the remainder is the CRC
    (no final XOR). *)

Definition byte_bits (d : Z) : list bool :=
  map (fun i => Z.testbit d (Z.of_nat i)) [7; 6; 5; 4; 3; 2; 1; 0]%nat.

Definition message_bits (bytes : list Z) : list bool :=
  flat_map byte_bits bytes.

(** One step of the long division: bring the next bit down, subtract the
    divisor when the degree reaches 8. *)
Definition poly_div_step (r : Z) (b : bool) : Z :=
  let t := 2 * r + (if b then 1 else 0) in
  if Z.testbit t 8 then Z.lxor t 0x107 else t.

Definition poly_rem (bits : list bool) : Z := fold_left poly_div_step bits 0.

Definition crc8_reference (bytes : list Z) : Z :=
  poly_rem (message_bits bytes ++ replicate 8 false).

(* ===================================================================== *)
(** ** Data model ([comm_internal.h]) *)
(* ===================================================================== *)

Inductive HAL_StatusTypeDef := HAL_OK | HAL_ERROR | HAL_BUSY | HAL_TIMEOUT.

Inductive comm_state_t :=
  | COMM_STATE_IDLE
  | COMM_STATE_SENDING
  | COMM_STATE_WAIT_ACK
  | COMM_STATE_RETRY
  | COMM_STATE_RECEIVING
  | COMM_STATE_PROCESSING
  | COMM_STATE_ERROR.

Inductive frame_parse_state_t :=
  | FRAME_STATE_IDLE
  | FRAME_STATE_CMD
  | FRAME_STATE_WAIT_COLON
  | FRAME_STATE_DATA
  | FRAME_STATE_WAIT_HASH1
  | FRAME_STATE_SEQ
  | FRAME_STATE_WAIT_HASH2
  | FRAME_STATE_CRC
  | FRAME_STATE_WAIT_END
  | FRAME_STATE_COMPLETE
  | FRAME_STATE_ERROR.

#[global] Instance HAL_StatusTypeDef_eq_dec : EqDecision HAL_StatusTypeDef.
Proof. solve_decision. Defined.
#[global] Instance comm_state_eq_dec : EqDecision comm_state_t.
Proof. solve_decision. Defined.
#[global] Instance frame_parse_state_eq_dec : EqDecision frame_parse_state_t.
Proof. solve_decision. Defined.

(** A function pointer is the identity of the function it points to;
    [None] is [NULL]. *)
Definition comm_callback_t := nat.
Definition comm_fail_callback_t := nat.
Definition comm_state_change_callback_t := nat.

Record comm_handler_t := mk_handler {
  handler_cmd : list Z;                    (* char cmd[COMM_MAX_CMD_LENGTH + 1] *)
  handler_callback : option comm_callback_t;
  handler_is_used : bool
}.

Record comm_frame_t := mk_frame {
  frame_cmd : list Z;                      (* char cmd[COMM_MAX_CMD_LENGTH + 1] *)
  frame_data : list Z;                     (* char data[COMM_MAX_DATA_LENGTH + 1] *)
  frame_sequence : Z;
  frame_crc : Z;
  frame_is_valid : bool
}.

(** [memset (&frame, 0, sizeof (comm_frame_t))] *)
Definition frame_zero : comm_frame_t :=
  mk_frame (replicate 17 0) (replicate 65 0) 0 0 false.

Definition set_frame_cmd (v : list Z) (f : comm_frame_t) : comm_frame_t :=
  mk_frame v (frame_data f) (frame_sequence f) (frame_crc f) (frame_is_valid f).
Definition set_frame_data (v : list Z) (f : comm_frame_t) : comm_frame_t :=
  mk_frame (frame_cmd f) v (frame_sequence f) (frame_crc f) (frame_is_valid f).
Definition set_frame_sequence (v : Z) (f : comm_frame_t) : comm_frame_t :=
  mk_frame (frame_cmd f) (frame_data f) v (frame_crc f) (frame_is_valid f).
Definition set_frame_crc (v : Z) (f : comm_frame_t) : comm_frame_t :=
  mk_frame (frame_cmd f) (frame_data f) (frame_sequence f) v (frame_is_valid f).
Definition set_frame_is_valid (v : bool) (f : comm_frame_t) : comm_frame_t :=
  mk_frame (frame_cmd f) (frame_data f) (frame_sequence f) (frame_crc f) v.

(** [struct comm_instance]. The fields no function below reads ([rx_byte],
    [handler_count], [debug_enabled], [stats], [error_callback]) are left
    out. *)
Record comm_instance_t := mk_instance {
  huart : Z;                               (* UART_HandleTypeDef * *)
  state : comm_state_t;
  parse_state : frame_parse_state_t;
  tx_sequence : Z;
  rx_sequence : Z;
  expected_ack_seq : Z;
  rx_buffer : list Z;                      (* char [COMM_RX_BUFFER_SIZE] *)
  tx_buffer : list Z;                      (* char [COMM_TX_BUFFER_SIZE] *)
  rx_index : Z;
  tx_length : Z;
  new_frame_available : bool;
  pending_frame : comm_frame_t;
  frame_timeout : Z;
  handlers : list comm_handler_t;          (* [COMM_MAX_CALLBACKS] *)
  timeout_ms : Z;
  max_retry : Z;
  retry_count : Z;
  last_send_time : Z;
  current_cmd : list Z;                    (* char [COMM_MAX_CMD_LENGTH] *)
  current_data : list Z;                   (* char [COMM_MAX_DATA_LENGTH] *)
  current_sequence : Z;
  fail_callback : option comm_fail_callback_t;
  state_change_callback : option comm_state_change_callback_t
}.

(** Assignments to one field of the instance. *)
Definition set_state (v : comm_state_t) (i : comm_instance_t) : comm_instance_t :=
  mk_instance (huart i) v (parse_state i) (tx_sequence i) (rx_sequence i)
    (expected_ack_seq i) (rx_buffer i) (tx_buffer i) (rx_index i)
    (tx_length i) (new_frame_available i) (pending_frame i)
    (frame_timeout i) (handlers i) (timeout_ms i) (max_retry i)
    (retry_count i) (last_send_time i) (current_cmd i) (current_data i)
    (current_sequence i) (fail_callback i) (state_change_callback i).
Definition set_parse_state (v : frame_parse_state_t) (i : comm_instance_t) : comm_instance_t :=
  mk_instance (huart i) (state i) v (tx_sequence i) (rx_sequence i)
    (expected_ack_seq i) (rx_buffer i) (tx_buffer i) (rx_index i)
    (tx_length i) (new_frame_available i) (pending_frame i)
    (frame_timeout i) (handlers i) (timeout_ms i) (max_retry i)
    (retry_count i) (last_send_time i) (current_cmd i) (current_data i)
    (current_sequence i) (fail_callback i) (state_change_callback i).
Definition set_tx_sequence (v : Z) (i : comm_instance_t) : comm_instance_t :=
  mk_instance (huart i) (state i) (parse_state i) v (rx_sequence i)
    (expected_ack_seq i) (rx_buffer i) (tx_buffer i) (rx_index i)
    (tx_length i) (new_frame_available i) (pending_frame i)
    (frame_timeout i) (handlers i) (timeout_ms i) (max_retry i)
    (retry_count i) (last_send_time i) (current_cmd i) (current_data i)
    (current_sequence i) (fail_callback i) (state_change_callback i).
Definition set_rx_sequence (v : Z) (i : comm_instance_t) : comm_instance_t :=
  mk_instance (huart i) (state i) (parse_state i) (tx_sequence i) v
    (expected_ack_seq i) (rx_buffer i) (tx_buffer i) (rx_index i)
    (tx_length i) (new_frame_available i) (pending_frame i)
    (frame_timeout i) (handlers i) (timeout_ms i) (max_retry i)
    (retry_count i) (last_send_time i) (current_cmd i) (current_data i)
    (current_sequence i) (fail_callback i) (state_change_callback i).
Definition set_expected_ack_seq (v : Z) (i : comm_instance_t) : comm_instance_t :=
  mk_instance (huart i) (state i) (parse_state i) (tx_sequence i)
    (rx_sequence i) v (rx_buffer i) (tx_buffer i) (rx_index i) (tx_length i)
    (new_frame_available i) (pending_frame i) (frame_timeout i) (handlers i)
    (timeout_ms i) (max_retry i) (retry_count i) (last_send_time i)
    (current_cmd i) (current_data i) (current_sequence i) (fail_callback i)
    (state_change_callback i).
Definition set_rx_buffer (v : list Z) (i : comm_instance_t) : comm_instance_t :=
  mk_instance (huart i) (state i) (parse_state i) (tx_sequence i)
    (rx_sequence i) (expected_ack_seq i) v (tx_buffer i) (rx_index i)
    (tx_length i) (new_frame_available i) (pending_frame i)
    (frame_timeout i) (handlers i) (timeout_ms i) (max_retry i)
    (retry_count i) (last_send_time i) (current_cmd i) (current_data i)
    (current_sequence i) (fail_callback i) (state_change_callback i).
Definition set_tx_buffer (v : list Z) (i : comm_instance_t) : comm_instance_t :=
  mk_instance (huart i) (state i) (parse_state i) (tx_sequence i)
    (rx_sequence i) (expected_ack_seq i) (rx_buffer i) v (rx_index i)
    (tx_length i) (new_frame_available i) (pending_frame i)
    (frame_timeout i) (handlers i) (timeout_ms i) (max_retry i)
    (retry_count i) (last_send_time i) (current_cmd i) (current_data i)
    (current_sequence i) (fail_callback i) (state_change_callback i).
Definition set_rx_index (v : Z) (i : comm_instance_t) : comm_instance_t :=
  mk_instance (huart i) (state i) (parse_state i) (tx_sequence i)
    (rx_sequence i) (expected_ack_seq i) (rx_buffer i) (tx_buffer i) v
    (tx_length i) (new_frame_available i) (pending_frame i)
    (frame_timeout i) (handlers i) (timeout_ms i) (max_retry i)
    (retry_count i) (last_send_time i) (current_cmd i) (current_data i)
    (current_sequence i) (fail_callback i) (state_change_callback i).
Definition set_tx_length (v : Z) (i : comm_instance_t) : comm_instance_t :=
  mk_instance (huart i) (state i) (parse_state i) (tx_sequence i)
    (rx_sequence i) (expected_ack_seq i) (rx_buffer i) (tx_buffer i)
    (rx_index i) v (new_frame_available i) (pending_frame i)
    (frame_timeout i) (handlers i) (timeout_ms i) (max_retry i)
    (retry_count i) (last_send_time i) (current_cmd i) (current_data i)
    (current_sequence i) (fail_callback i) (state_change_callback i).
Definition set_new_frame_available (v : bool) (i : comm_instance_t) : comm_instance_t :=
  mk_instance (huart i) (state i) (parse_state i) (tx_sequence i)
    (rx_sequence i) (expected_ack_seq i) (rx_buffer i) (tx_buffer i)
    (rx_index i) (tx_length i) v (pending_frame i) (frame_timeout i)
    (handlers i) (timeout_ms i) (max_retry i) (retry_count i)
    (last_send_time i) (current_cmd i) (current_data i) (current_sequence i)
    (fail_callback i) (state_change_callback i).
Definition set_pending_frame (v : comm_frame_t) (i : comm_instance_t) : comm_instance_t :=
  mk_instance (huart i) (state i) (parse_state i) (tx_sequence i)
    (rx_sequence i) (expected_ack_seq i) (rx_buffer i) (tx_buffer i)
    (rx_index i) (tx_length i) (new_frame_available i) v (frame_timeout i)
    (handlers i) (timeout_ms i) (max_retry i) (retry_count i)
    (last_send_time i) (current_cmd i) (current_data i) (current_sequence i)
    (fail_callback i) (state_change_callback i).
Definition set_frame_timeout (v : Z) (i : comm_instance_t) : comm_instance_t :=
  mk_instance (huart i) (state i) (parse_state i) (tx_sequence i)
    (rx_sequence i) (expected_ack_seq i) (rx_buffer i) (tx_buffer i)
    (rx_index i) (tx_length i) (new_frame_available i) (pending_frame i) v
    (handlers i) (timeout_ms i) (max_retry i) (retry_count i)
    (last_send_time i) (current_cmd i) (current_data i) (current_sequence i)
    (fail_callback i) (state_change_callback i).
Definition set_retry_count (v : Z) (i : comm_instance_t) : comm_instance_t :=
  mk_instance (huart i) (state i) (parse_state i) (tx_sequence i)
    (rx_sequence i) (expected_ack_seq i) (rx_buffer i) (tx_buffer i)
    (rx_index i) (tx_length i) (new_frame_available i) (pending_frame i)
    (frame_timeout i) (handlers i) (timeout_ms i) (max_retry i) v
    (last_send_time i) (current_cmd i) (current_data i) (current_sequence i)
    (fail_callback i) (state_change_callback i).
Definition set_last_send_time (v : Z) (i : comm_instance_t) : comm_instance_t :=
  mk_instance (huart i) (state i) (parse_state i) (tx_sequence i)
    (rx_sequence i) (expected_ack_seq i) (rx_buffer i) (tx_buffer i)
    (rx_index i) (tx_length i) (new_frame_available i) (pending_frame i)
    (frame_timeout i) (handlers i) (timeout_ms i) (max_retry i)
    (retry_count i) v (current_cmd i) (current_data i) (current_sequence i)
    (fail_callback i) (state_change_callback i).
Definition set_current_cmd (v : list Z) (i : comm_instance_t) : comm_instance_t :=
  mk_instance (huart i) (state i) (parse_state i) (tx_sequence i)
    (rx_sequence i) (expected_ack_seq i) (rx_buffer i) (tx_buffer i)
    (rx_index i) (tx_length i) (new_frame_available i) (pending_frame i)
    (frame_timeout i) (handlers i) (timeout_ms i) (max_retry i)
    (retry_count i) (last_send_time i) v (current_data i)
    (current_sequence i) (fail_callback i) (state_change_callback i).
Definition set_current_data (v : list Z) (i : comm_instance_t) : comm_instance_t :=
  mk_instance (huart i) (state i) (parse_state i) (tx_sequence i)
    (rx_sequence i) (expected_ack_seq i) (rx_buffer i) (tx_buffer i)
    (rx_index i) (tx_length i) (new_frame_available i) (pending_frame i)
    (frame_timeout i) (handlers i) (timeout_ms i) (max_retry i)
    (retry_count i) (last_send_time i) (current_cmd i) v
    (current_sequence i) (fail_callback i) (state_change_callback i).
Definition set_current_sequence (v : Z) (i : comm_instance_t) : comm_instance_t :=
  mk_instance (huart i) (state i) (parse_state i) (tx_sequence i)
    (rx_sequence i) (expected_ack_seq i) (rx_buffer i) (tx_buffer i)
    (rx_index i) (tx_length i) (new_frame_available i) (pending_frame i)
    (frame_timeout i) (handlers i) (timeout_ms i) (max_retry i)
    (retry_count i) (last_send_time i) (current_cmd i) (current_data i) v
    (fail_callback i) (state_change_callback i).

Record comm_manager_t := mk_manager {
  instances : list comm_instance_t;        (* [COMM_MAX_INSTANCES] *)
  instance_count : Z
}.

(* ===================================================================== *)
(** ** The environment: clock, transport and callbacks *)
(* ===================================================================== *)

(** What the library emits: transport calls and callback invocations. *)
Inductive event :=
  | EvTransmit (uart : Z) (bytes : list Z) (timeout : Z)
      (* HAL_UART_Transmit (uart, bytes, length bytes, timeout) *)
  | EvTransmitIT (uart : Z) (bytes : list Z)
      (* HAL_UART_Transmit_IT (uart, bytes, length bytes) *)
  | EvCommand (callback : comm_callback_t) (cmd data : list Z)
  | EvFail (callback : comm_fail_callback_t) (cmd data : list Z) (reason : string)
  | EvStateChange (callback : comm_state_change_callback_t) (uart : Z)
      (from_state to_state : string) (retries : Z)
  | EvErrorOutput (uart : Z) (cmd data : list Z) (retries : Z)
      (* COMM_ERROR_OUTPUT of comm_handle_timeout *)
  | EvErrorNoInstance (uart : Z).
      (* COMM_ERROR_OUTPUT of the API functions: no instance for the handle *)

(** [w_tick] is what [HAL_GetTick] returns during the current call;
    [w_hal n] is the status of the transport call made when the trace holds
    [n] events; [w_trace] is the trace so far, oldest event first. *)
Record World := mk_world {
  w_tick : Z;
  w_hal : nat -> HAL_StatusTypeDef;
  w_trace : list event
}.

(** State monad over the world. *)
Definition M (A : Type) : Type := World -> A * World.

#[global] Instance M_ret : MRet M := fun A a w => (a, w).
#[global] Instance M_bind : MBind M :=
  fun A B k m w => let '(a, w') := m w in k a w'.

Definition emit (e : event) : M unit :=
  fun w => (tt, mk_world (w_tick w) (w_hal w) (w_trace w ++ [e])).

Definition HAL_GetTick : M Z := fun w => (w_tick w, w).

Definition hal_call (e : event) : M HAL_StatusTypeDef :=
  fun w => (w_hal w (length (w_trace w)),
            mk_world (w_tick w) (w_hal w) (w_trace w ++ [e])).

Definition HAL_UART_Transmit (uart : Z) (bytes : list Z) (timeout : Z)
  : M HAL_StatusTypeDef := hal_call (EvTransmit uart bytes timeout).

Definition HAL_UART_Transmit_IT (uart : Z) (bytes : list Z)
  : M HAL_StatusTypeDef := hal_call (EvTransmitIT uart bytes).

(** The same world at a later tick. *)
Definition at_tick (t : Z) (w : World) : World :=
  mk_world t (w_hal w) (w_trace w).

(* ===================================================================== *)
(** ** Sequence numbers ([comm_protocol.c]) *)
(* ===================================================================== *)

Definition comm_get_next_tx_sequence (instance : comm_instance_t)
  : Z * comm_instance_t :=
  let tx := (tx_sequence instance + 1) mod 256 in
  let tx := if tx =? 0 then 1 else tx in
  (tx, set_tx_sequence tx instance).

(** The difference of the two sequence numbers as the code normalises it:
    [if (diff < -128) diff += 256; else if (diff > 128) diff -= 256;] *)
Definition rx_sequence_diff (instance : comm_instance_t) (rx_seq : Z) : Z :=
  let diff := rx_seq - rx_sequence instance in
  if diff <? -128 then diff + 256
  else if diff >? 128 then diff - 256
  else diff.

Definition comm_is_valid_rx_sequence (instance : comm_instance_t) (rx_seq : Z)
  : bool :=
  let diff := rx_sequence_diff instance rx_seq in
  if (diff >=? 1) && (diff <=? 10) then true
  else if diff =? 0 then false
  else if diff <? 0 then false
  else false.

Definition comm_update_rx_sequence (instance : comm_instance_t) (rx_seq : Z)
  : comm_instance_t :=
  set_rx_sequence rx_seq instance.

(* ===================================================================== *)
(** ** Frame codec ([comm_protocol.c]) *)
(* ===================================================================== *)

(** ["%s%c%s%c%02X"] of a command, [':'], the data, ['#'] and a sequence
    number: the bytes the CRC covers. *)
Definition frame_body (cmd data : list Z) (seq : Z) : list Z :=
  cmd ++ [COMM_CMD_DATA_SEPARATOR] ++ data ++ [COMM_FIELD_SEPARATOR] ++ hex2 seq.

(** [comm_build_frame]. [cmd] and [data] are the argument strings;
    [frame_buffer] and [frame_length] are the caller's buffer and length
    variable, returned as the call leaves them, after the result. *)
Definition comm_build_frame (instance : comm_instance_t) (cmd data : list Z)
    (frame_buffer : list Z) (frame_length : Z)
  : bool * list Z * Z * comm_instance_t :=
  if (strlen cmd >? COMM_MAX_CMD_LENGTH) || (strlen data >? COMM_MAX_DATA_LENGTH)
  then (false, frame_buffer, frame_length, instance)
  else
    let '(seq, instance) :=
      if retry_count instance >? 0
      then (current_sequence instance, instance)
      else
        let '(seq, instance) := comm_get_next_tx_sequence instance in
        (seq, set_current_sequence seq instance) in
    let frame_content := COMM_FRAME_START :: frame_body cmd data seq in
    let content_len := strlen frame_content in
    if content_len >=? COMM_TX_BUFFER_SIZE
    then (false, frame_buffer, frame_length, instance)
    else
      let crc :=
        comm_crc8_calculate (Some (drop 1 frame_content))
          ((content_len - 1) mod 65536) in
      let frame :=
        frame_content ++ [COMM_FIELD_SEPARATOR] ++ hex2 crc ++ [COMM_FRAME_END] in
      let total_len := strlen frame in
      let frame_buffer := snprintf_into frame_buffer frame in
      if total_len >=? COMM_TX_BUFFER_SIZE
      then (false, frame_buffer, frame_length, instance)
      else (true, frame_buffer, total_len mod 65536,
            set_expected_ack_seq seq instance).

(** The check at the closing brace: the CRC of the string rebuilt from the
    parsed fields against the received one. [frame_for_crc] has
    [COMM_RX_BUFFER_SIZE] bytes. *)
Definition pending_crc_ok (frame : comm_frame_t) : bool :=
  let formatted :=
    frame_body (cstr (frame_cmd frame)) (cstr (frame_data frame))
      (frame_sequence frame) in
  let crc_len := strlen formatted in
  let frame_for_crc := take (Z.to_nat (COMM_RX_BUFFER_SIZE - 1)) formatted in
  (crc_len >? 0)
  && comm_crc8_verify (Some frame_for_crc) (crc_len mod 65536) (frame_crc frame).

(** [comm_process_byte_in_interrupt]; [now] is what [HAL_GetTick] returns
    when the byte arrives. *)
Definition comm_process_byte_in_interrupt (now : Z)
    (instance : comm_instance_t) (byte : Z) : comm_instance_t :=
  if new_frame_available instance then instance
  else
    match parse_state instance with
    | FRAME_STATE_IDLE =>
        if byte =? COMM_FRAME_START then
          let instance := set_parse_state FRAME_STATE_CMD instance in
          let instance := set_rx_index 0 instance in
          let instance :=
            set_frame_timeout ((now + COMM_FRAME_TIMEOUT_MS) mod 2 ^ 32) instance in
          set_pending_frame frame_zero instance
        else instance
    | FRAME_STATE_CMD =>
        let frame := pending_frame instance in
        if byte =? COMM_CMD_DATA_SEPARATOR then
          let instance :=
            set_pending_frame
              (set_frame_cmd (store (frame_cmd frame) (rx_index instance) 0) frame)
              instance in
          let instance := set_parse_state FRAME_STATE_DATA instance in
          set_rx_index 0 instance
        else if rx_index instance <? COMM_MAX_CMD_LENGTH then
          let instance :=
            set_pending_frame
              (set_frame_cmd (store (frame_cmd frame) (rx_index instance) byte) frame)
              instance in
          set_rx_index ((rx_index instance + 1) mod 65536) instance
        else set_parse_state FRAME_STATE_IDLE instance
    | FRAME_STATE_DATA =>
        let frame := pending_frame instance in
        if byte =? COMM_FIELD_SEPARATOR then
          let instance :=
            set_pending_frame
              (set_frame_data (store (frame_data frame) (rx_index instance) 0) frame)
              instance in
          let instance := set_parse_state FRAME_STATE_SEQ instance in
          set_rx_index 0 instance
        else if rx_index instance <? COMM_MAX_DATA_LENGTH then
          let instance :=
            set_pending_frame
              (set_frame_data (store (frame_data frame) (rx_index instance) byte) frame)
              instance in
          set_rx_index ((rx_index instance + 1) mod 65536) instance
        else set_parse_state FRAME_STATE_IDLE instance
    | FRAME_STATE_SEQ =>
        if byte =? COMM_FIELD_SEPARATOR then
          let instance :=
            set_rx_buffer (store (rx_buffer instance) (rx_index instance) 0) instance in
          let instance :=
            set_pending_frame
              (set_frame_sequence (strtol16_u8 (cstr (rx_buffer instance)))
                 (pending_frame instance))
              instance in
          let instance := set_parse_state FRAME_STATE_CRC instance in
          set_rx_index 0 instance
        else if rx_index instance <? 2 then
          let instance :=
            set_rx_buffer (store (rx_buffer instance) (rx_index instance) byte)
              instance in
          set_rx_index ((rx_index instance + 1) mod 65536) instance
        else set_parse_state FRAME_STATE_IDLE instance
    | FRAME_STATE_CRC =>
        if byte =? COMM_FRAME_END then
          let instance :=
            set_rx_buffer (store (rx_buffer instance) (rx_index instance) 0) instance in
          let instance :=
            set_pending_frame
              (set_frame_crc (strtol16_u8 (cstr (rx_buffer instance)))
                 (pending_frame instance))
              instance in
          let instance :=
            if pending_crc_ok (pending_frame instance) then
              let instance :=
                set_pending_frame
                  (set_frame_is_valid true (pending_frame instance)) instance in
              set_new_frame_available true instance
            else
              set_pending_frame
                (set_frame_is_valid false (pending_frame instance)) instance in
          let instance := set_parse_state FRAME_STATE_IDLE instance in
          set_rx_index 0 instance
        else if rx_index instance <? 2 then
          let instance :=
            set_rx_buffer (store (rx_buffer instance) (rx_index instance) byte)
              instance in
          set_rx_index ((rx_index instance + 1) mod 65536) instance
        else set_parse_state FRAME_STATE_IDLE instance
    | _ => set_parse_state FRAME_STATE_IDLE instance
    end.

(** The bytes of a transmission as they arrive, one call per byte;
    [clock k] is the tick at the arrival of the [k]-th byte. *)
Fixpoint receive_bytes (clock : nat -> Z) (k : nat)
    (instance : comm_instance_t) (bytes : list Z) : comm_instance_t :=
  match bytes with
  | [] => instance
  | b :: rest =>
      receive_bytes clock (S k)
        (comm_process_byte_in_interrupt (clock k) instance b) rest
  end.

(* ===================================================================== *)
(** ** Instance management, callbacks, timeout and retry ([comm_manager.c]) *)
(* ===================================================================== *)

Definition comm_state_to_string (s : comm_state_t) : string :=
  match s with
  | COMM_STATE_IDLE => "IDLE"
  | COMM_STATE_SENDING => "SENDING"
  | COMM_STATE_WAIT_ACK => "WAIT_ACK"
  | COMM_STATE_RETRY => "RETRY"
  | COMM_STATE_RECEIVING => "RECEIVING"
  | COMM_STATE_PROCESSING => "PROCESSING"
  | COMM_STATE_ERROR => "ERROR"
  end.

Definition comm_instance_init (huart timeout_ms max_retry : Z) : comm_instance_t :=
  mk_instance huart COMM_STATE_IDLE FRAME_STATE_IDLE 0 0 0
    (replicate 256 0) (replicate 128 0) 0 0 false frame_zero 0
    (replicate 8 (mk_handler (replicate 17 0) None false))
    timeout_ms max_retry 0 0 (replicate 16 0) (replicate 64 0) 0 None None.

Definition comm_instance_is_ready (instance : comm_instance_t) : bool :=
  bool_decide (state instance = COMM_STATE_IDLE).

(** The first slot with a callback whose command compares equal. *)
Definition comm_find_callback_index (instance : comm_instance_t) (cmd : list Z)
  : option nat :=
  list_find
    (fun h => is_Some (handler_callback h) /\ cstr (handler_cmd h) = cmd)
    (take (Z.to_nat COMM_MAX_CALLBACKS) (handlers instance))
  ≫= fun '(i, _) => Some i.

Definition comm_call_callback (instance : comm_instance_t) (cmd data : list Z)
  : M bool :=
  match comm_find_callback_index instance cmd with
  | Some index =>
      match handlers instance !! index ≫= handler_callback with
      | Some callback => emit (EvCommand callback cmd data);; mret true
      | None => mret false
      end
  | None => mret false
  end.

Definition comm_set_fail_callback (instance : comm_instance_t)
    (callback : option comm_fail_callback_t) : comm_instance_t :=
  mk_instance (huart instance) (state instance) (parse_state instance)
    (tx_sequence instance) (rx_sequence instance) (expected_ack_seq instance)
    (rx_buffer instance) (tx_buffer instance) (rx_index instance)
    (tx_length instance) (new_frame_available instance)
    (pending_frame instance) (frame_timeout instance) (handlers instance)
    (timeout_ms instance) (max_retry instance) (retry_count instance)
    (last_send_time instance) (current_cmd instance) (current_data instance)
    (current_sequence instance) callback (state_change_callback instance).

Definition comm_call_fail_callback (instance : comm_instance_t)
    (cmd data : list Z) (reason : string) : M unit :=
  match fail_callback instance with
  | Some callback => emit (EvFail callback cmd data reason)
  | None => mret tt
  end.

Definition comm_set_state (instance : comm_instance_t) (new_state : comm_state_t)
  : M comm_instance_t :=
  if decide (state instance <> new_state) then
    let old_state_str := comm_state_to_string (state instance) in
    let new_state_str := comm_state_to_string new_state in
    let instance := set_state new_state instance in
    match state_change_callback instance with
    | Some callback =>
        emit (EvStateChange callback (huart instance) old_state_str
                new_state_str (retry_count instance));;
        mret instance
    | None => mret instance
    end
  else mret instance.

(** [comm_send_raw (instance, data, length)]: the first [length] bytes. *)
Definition comm_send_raw (instance : comm_instance_t) (data : list Z) (length : Z)
  : M (bool * comm_instance_t) :=
  if length =? 0 then mret (false, instance)
  else
    status ← HAL_UART_Transmit (huart instance) (take (Z.to_nat length) data) 1000;
    if decide (status = HAL_OK) then
      now ← HAL_GetTick;
      mret (true, set_last_send_time now instance)
    else mret (false, instance).

Definition comm_is_timeout (instance : comm_instance_t) : M bool :=
  if decide (state instance <> COMM_STATE_WAIT_ACK) then mret false
  else
    current_time ← HAL_GetTick;
    let elapsed := (current_time - last_send_time instance) mod 2 ^ 32 in
    mret (elapsed >=? timeout_ms instance).

(** The reason handed to the failure callback. *)
Definition retry_failed_reason : string := "超时重试失败".

Definition comm_handle_timeout (instance : comm_instance_t) : M comm_instance_t :=
  if retry_count instance <? max_retry instance then
    let instance := set_retry_count ((retry_count instance + 1) mod 256) instance in
    status ← HAL_UART_Transmit_IT (huart instance)
               (take (Z.to_nat (tx_length instance)) (tx_buffer instance));
    if decide (status = HAL_OK) then
      instance ← comm_set_state instance COMM_STATE_WAIT_ACK;
      now ← HAL_GetTick;
      mret (set_last_send_time now instance)
    else
      '(sent, instance) ←
        comm_send_raw instance (tx_buffer instance) (tx_length instance);
      if (sent : bool) then comm_set_state instance COMM_STATE_WAIT_ACK
      else mret instance
  else
    emit (EvErrorOutput (huart instance) (cstr (current_cmd instance))
            (cstr (current_data instance)) (max_retry instance));;
    comm_call_fail_callback instance (cstr (current_cmd instance))
      (cstr (current_data instance)) retry_failed_reason;;
    instance ← comm_set_state instance COMM_STATE_IDLE;
    mret (set_retry_count 0 instance).

Definition comm_is_frame_timeout (instance : comm_instance_t) : M bool :=
  if decide (parse_state instance = FRAME_STATE_IDLE) then mret false
  else
    current_time ← HAL_GetTick;
    mret (current_time >=? frame_timeout instance).

Definition comm_handle_frame_timeout (instance : comm_instance_t)
  : comm_instance_t :=
  let instance := set_parse_state FRAME_STATE_IDLE instance in
  let instance := set_rx_index 0 instance in
  set_new_frame_available false instance.

(** The index of the first instance, among the [instance_count] in use,
    bound to the handle; the handle 0 is [NULL]. *)
Definition comm_find_instance (manager : comm_manager_t) (uart : Z) : option nat :=
  if uart =? 0 then None
  else
    list_find (fun i => huart i = uart)
      (take (Z.to_nat (instance_count manager)) (instances manager))
    ≫= fun '(i, _) => Some i.

(* ===================================================================== *)
(** ** Acknowledgements and the handling of a parsed frame
       ([comm_protocol.c]) *)
(* ===================================================================== *)

(** The frame [{ACK:SS#00#CC}] or [{NAK:SS#00#CC}] as the two senders
    format it; [None] when a length check fails. *)
Definition control_frame (name : list Z) (seq : Z) : option (list Z) :=
  let seq_data := hex2 seq in
  let frame_content :=
    name ++ [COMM_CMD_DATA_SEPARATOR] ++ seq_data ++ [COMM_FIELD_SEPARATOR]
    ++ [48; 48] in
  let content_len := strlen frame_content in
  if content_len >=? COMM_TX_BUFFER_SIZE then None
  else
    let crc := comm_crc8_calculate (Some frame_content) (content_len mod 65536) in
    let frame :=
      [COMM_FRAME_START] ++ frame_content ++ [COMM_FIELD_SEPARATOR]
      ++ hex2 crc ++ [COMM_FRAME_END] in
    if strlen frame >=? COMM_TX_BUFFER_SIZE then None else Some frame.

Definition comm_send_ack (instance : comm_instance_t) (ack_seq : Z) : M bool :=
  match control_frame COMM_CMD_ACK ack_seq with
  | None => mret false
  | Some ack_frame =>
      status ← HAL_UART_Transmit (huart instance) ack_frame 500;
      mret (bool_decide (status = HAL_OK))
  end.

Definition comm_send_nak (instance : comm_instance_t) (nak_seq : Z)
  : M (bool * comm_instance_t) :=
  match control_frame COMM_CMD_NAK nak_seq with
  | None => mret (false, instance)
  | Some nak_frame => comm_send_raw instance nak_frame (strlen nak_frame)
  end.

(** [comm_handle_complete_frame]. The callbacks are the application's and
    are taken not to call back into the library. *)
Definition comm_handle_complete_frame (instance : comm_instance_t)
    (frame : comm_frame_t) : M comm_instance_t :=
  if negb (frame_is_valid frame) then mret instance
  else if decide (cstr (frame_cmd frame) = COMM_CMD_ACK) then
    let ack_seq := strtol16_u8 (cstr (frame_data frame)) in
    if (ack_seq =? expected_ack_seq instance)
       && bool_decide (state instance = COMM_STATE_WAIT_ACK)
    then
      instance ← comm_set_state instance COMM_STATE_IDLE;
      mret (set_retry_count 0 instance)
    else mret instance
  else if decide (cstr (frame_cmd frame) = COMM_CMD_NAK) then
    let nak_seq := strtol16_u8 (cstr (frame_data frame)) in
    if (nak_seq =? expected_ack_seq instance)
       && bool_decide (state instance = COMM_STATE_WAIT_ACK)
    then comm_handle_timeout instance
    else mret instance
  else if comm_is_valid_rx_sequence instance (frame_sequence frame) then
    if bool_decide (state instance = COMM_STATE_WAIT_ACK)
       && (frame_sequence frame =? expected_ack_seq instance)
    then mret instance
    else
      let instance := comm_update_rx_sequence instance (frame_sequence frame) in
      comm_send_ack instance (frame_sequence frame);;
      comm_call_callback instance (cstr (frame_cmd frame))
        (cstr (frame_data frame));;
      mret instance
  else
    let diff := rx_sequence_diff instance (frame_sequence frame) in
    if diff =? 0 then
      comm_send_ack instance (frame_sequence frame);;
      mret instance
    else
      '(_, instance) ← comm_send_nak instance (frame_sequence frame);
      mret instance.

(* ===================================================================== *)
(** ** The API ([comm.c]) *)
(* ===================================================================== *)

(** The body of [comm_send_command] once [comm_find_instance] found the
    instance of the handle. *)
Definition comm_send_command_on (instance : comm_instance_t) (cmd data : list Z)
  : M (bool * comm_instance_t) :=
  if negb (comm_instance_is_ready instance) then mret (false, instance)
  else if (strlen cmd >=? COMM_MAX_CMD_LENGTH)
          || (strlen data >=? COMM_MAX_DATA_LENGTH)
  then mret (false, instance)
  else
    let instance := set_current_cmd (strncpy_term 15 cmd) instance in
    let instance := set_current_data (strncpy_term 63 data) instance in
    let instance := set_retry_count 0 instance in
    let '(built, buffer, frame_len, instance) :=
      comm_build_frame instance cmd data (tx_buffer instance) 0 in
    let instance := set_tx_buffer buffer instance in
    if negb built then mret (false, instance)
    else
      let instance := set_tx_length frame_len instance in
      let instance :=
        if strlen (cstr (frame_cmd (pending_frame instance))) >? 0
        then set_pending_frame frame_zero instance
        else instance in
      let send_copy := take (Z.to_nat frame_len) (tx_buffer instance) in
      status ← HAL_UART_Transmit (huart instance) send_copy 1000;
      if decide (status = HAL_OK) then
        instance ← comm_set_state instance COMM_STATE_WAIT_ACK;
        now ← HAL_GetTick;
        mret (true, set_last_send_time now instance)
      else mret (false, instance).

(** [comm_send_command]: look the instance up, run the body on it. *)
Definition comm_send_command (manager : comm_manager_t) (uart : Z)
    (cmd data : list Z) : M (bool * comm_manager_t) :=
  match comm_find_instance manager uart with
  | None => emit (EvErrorNoInstance uart);; mret (false, manager)
  | Some index =>
      match instances manager !! index with
      | None => emit (EvErrorNoInstance uart);; mret (false, manager)
      | Some instance =>
          '(sent, instance) ← comm_send_command_on instance cmd data;
          mret (sent, mk_manager (<[index := instance]> (instances manager))
                        (instance_count manager))
      end
  end.

(** The body of the loop of [comm_tick]. *)
Definition comm_tick_instance (instance : comm_instance_t) : M comm_instance_t :=
  timed_out ← comm_is_timeout instance;
  instance ← (if timed_out : bool then comm_handle_timeout instance
              else mret instance);
  frame_timed_out ← comm_is_frame_timeout instance;
  let instance :=
    if frame_timed_out : bool then comm_handle_frame_timeout instance
    else instance in
  if new_frame_available instance then
    instance ← comm_handle_complete_frame instance (pending_frame instance);
    let instance := set_new_frame_available false instance in
    mret (set_pending_frame frame_zero instance)
  else mret instance.

Fixpoint comm_tick_loop (todo : list comm_instance_t)
  : M (list comm_instance_t) :=
  match todo with
  | [] => mret []
  | instance :: rest =>
      instance ← comm_tick_instance instance;
      rest ← comm_tick_loop rest;
      mret (instance :: rest)
  end.

Definition comm_tick (manager : comm_manager_t) : M comm_manager_t :=
  let count := Z.to_nat (instance_count manager) in
  ticked ← comm_tick_loop (take count (instances manager));
  mret (mk_manager (ticked ++ drop count (instances manager))
          (instance_count manager)).

(* ===================================================================== *)
(** ** The receive window as the specification words it *)
(* ===================================================================== *)

(** The signed difference of two sequence numbers brought into
    (-128, 128] by adding or subtracting 256. *)
Definition normalized_difference (diff : Z) : Z :=
  if diff <=? -128 then diff + 256
  else if 128 <? diff then diff - 256
  else diff.

(* ===================================================================== *)
(** ** Frames on the wire *)
(* ===================================================================== *)

(** The complete frame for a command, data, sequence number and CRC. *)
Definition wire_frame (cmd data : list Z) (seq crc : Z) : list Z :=
  COMM_FRAME_START :: frame_body cmd data seq
  ++ [COMM_FIELD_SEPARATOR] ++ hex2 crc ++ [COMM_FRAME_END].

(** The sequence number [comm_build_frame] uses. *)
Definition build_sequence (instance : comm_instance_t) : Z :=
  if retry_count instance >? 0 then current_sequence instance
  else fst (comm_get_next_tx_sequence instance).

(** The instance once [comm_build_frame] has drawn that number. *)
Definition with_build_sequence (instance : comm_instance_t) : comm_instance_t :=
  if retry_count instance >? 0 then instance
  else
    set_current_sequence (build_sequence instance)
      (snd (comm_get_next_tx_sequence instance)).

(** The frame a send from [instance] puts on the wire: the next sequence
    number of the channel, and the CRC of the body. *)
Definition sent_frame (instance : comm_instance_t) (cmd data : list Z)
  : list Z :=
  let seq := fst (comm_get_next_tx_sequence instance) in
  let body := frame_body cmd data seq in
  wire_frame cmd data seq (comm_crc8_calculate (Some body) (strlen body)).

(** The acknowledgement and the rejection of a sequence number, on the
    wire. *)
Definition ack_frame (seq : Z) : list Z :=
  let body := frame_body COMM_CMD_ACK (hex2 seq) 0 in
  wire_frame COMM_CMD_ACK (hex2 seq) 0
    (comm_crc8_calculate (Some body) (strlen body)).

Definition nak_frame (seq : Z) : list Z :=
  let body := frame_body COMM_CMD_NAK (hex2 seq) 0 in
  wire_frame COMM_CMD_NAK (hex2 seq) 0
    (comm_crc8_calculate (Some body) (strlen body)).

(** A frame that carries a command for the application: valid CRC, and
    neither of the two reserved names. *)
Definition data_frame (frame : comm_frame_t) : Prop :=
  frame_is_valid frame = true
  /\ cstr (frame_cmd frame) <> COMM_CMD_ACK
  /\ cstr (frame_cmd frame) <> COMM_CMD_NAK.

(** A byte that is none of the four delimiters of the frame format. *)
Definition plain_byte (b : Z) : Prop :=
  b <> COMM_CMD_DATA_SEPARATOR /\ b <> COMM_FIELD_SEPARATOR
  /\ b <> COMM_FRAME_START /\ b <> COMM_FRAME_END.

(* ===================================================================== *)
(** ** Traces *)
(* ===================================================================== *)

(** The invocations of the failure callback in a trace. *)
Definition is_fail (e : event) : bool :=
  match e with
  | EvFail _ _ _ _ => true
  | _ => false
  end.

(** The transport calls in a trace. *)
Definition is_transmit (e : event) : bool :=
  match e with
  | EvTransmit _ _ _ | EvTransmitIT _ _ => true
  | _ => false
  end.

(** The command handler invocations in a trace. *)
Definition is_command (e : event) : bool :=
  match e with
  | EvCommand _ _ _ => true
  | _ => false
  end.

(** What was emitted between two worlds of one run. *)
Definition emitted (before after : World) : list event :=
  drop (length (w_trace before)) (w_trace after).

(** [after] is [before] with more events: same clock, same transport. *)
Definition extends (before after : World) (evs : list event) : Prop :=
  w_tick after = w_tick before
  /\ w_hal after = w_hal before
  /\ w_trace after = w_trace before ++ evs.

(* ===================================================================== *)
(** ** Auxiliary definitions of the CRC and number proofs *)
(* ===================================================================== *)

(** Eight more division steps on zero bits: the multiplication by [x^8]. *)
Definition poly_shift8 (r : Z) : Z :=
  fold_left poly_div_step (replicate 8 false) r.

(** What is checked of the two digits [%02X] prints, for every byte. *)
Definition hex2_check (v : Z) : bool :=
  forallb (fun b => (0 <? b) && (b <? 256) && negb (b =? COMM_FIELD_SEPARATOR)
                    && negb (b =? COMM_FRAME_END)) (hex2 v)
  && (strtol16_u8 (hex2 v) =? v).

(* ===================================================================== *)
(** ** The parser between two bytes *)
(* ===================================================================== *)

(** The parser between two bytes of a frame: which field it is filling,
    with which bytes so far, and what it has stored of the fields before. *)
Definition filling (instance : comm_instance_t) (ps : frame_parse_state_t)
    (buf sofar : list Z) : Prop :=
  new_frame_available instance = false
  /\ parse_state instance = ps
  /\ rx_index instance = Z.of_nat (length sofar)
  /\ take (length sofar) buf = sofar
  /\ (3 <= length (rx_buffer instance))%nat
  /\ length (frame_cmd (pending_frame instance)) = 17%nat
  /\ length (frame_data (pending_frame instance)) = 65%nat.

Definition at_cmd (instance : comm_instance_t) (sofar : list Z) : Prop :=
  filling instance FRAME_STATE_CMD (frame_cmd (pending_frame instance)) sofar.

Definition at_data (instance : comm_instance_t) (cmd sofar : list Z) : Prop :=
  filling instance FRAME_STATE_DATA (frame_data (pending_frame instance)) sofar
  /\ cstr (frame_cmd (pending_frame instance)) = cmd.

Definition at_seq (instance : comm_instance_t) (cmd data sofar : list Z) : Prop :=
  filling instance FRAME_STATE_SEQ (rx_buffer instance) sofar
  /\ cstr (frame_cmd (pending_frame instance)) = cmd
  /\ cstr (frame_data (pending_frame instance)) = data.

Definition at_crc (instance : comm_instance_t) (cmd data : list Z) (seq : Z)
    (sofar : list Z) : Prop :=
  filling instance FRAME_STATE_CRC (rx_buffer instance) sofar
  /\ cstr (frame_cmd (pending_frame instance)) = cmd
  /\ cstr (frame_data (pending_frame instance)) = data
  /\ frame_sequence (pending_frame instance) = seq.

(* ===================================================================== *)
(** ** Sending, waiting and timeouts in a row *)
(* ===================================================================== *)

(** What a send that was accepted leaves in the channel. Apart from what
    is listed the send changed [tx_sequence], [current_sequence],
    [tx_buffer], [tx_length] and, when a frame was pending, [pending_frame]. *)
Definition sent_from (before : comm_instance_t) (cmd data : list Z) (now : Z)
    (after : comm_instance_t) : Prop :=
  state after = COMM_STATE_WAIT_ACK
  /\ last_send_time after = now
  /\ retry_count after = 0
  /\ current_cmd after = strncpy_term 15 cmd
  /\ current_data after = strncpy_term 63 data
  /\ expected_ack_seq after = current_sequence after
  /\ huart after = huart before
  /\ max_retry after = max_retry before
  /\ timeout_ms after = timeout_ms before
  /\ fail_callback after = fail_callback before
  /\ state_change_callback after = state_change_callback before
  /\ parse_state after = parse_state before
  /\ new_frame_available after = new_frame_available before
  /\ rx_sequence after = rx_sequence before.

(** The first statement of the loop body of [comm_tick]. *)
Definition tick_send_timeout (instance : comm_instance_t) : M comm_instance_t :=
  timed_out ← comm_is_timeout instance;
  if timed_out : bool then comm_handle_timeout instance else mret instance.

(** The channel between two timeouts of the send of [cmd] and [data],
    [retries] retries into it, nothing arriving. *)
Definition awaiting_ack (retries : Z) (callback : comm_fail_callback_t)
    (cmd data : list Z) (instance : comm_instance_t) : Prop :=
  state instance = COMM_STATE_WAIT_ACK
  /\ retry_count instance = retries
  /\ max_retry instance = 3
  /\ fail_callback instance = Some callback
  /\ cstr (current_cmd instance) = cmd
  /\ cstr (current_data instance) = data
  /\ parse_state instance = FRAME_STATE_IDLE
  /\ new_frame_available instance = false.

(** [comm_tick] runs at each of the ticks, and at each of them the send
    timeout of the channel has expired; [None] when at one of the ticks it
    has not. *)
Fixpoint expire (ticks : list Z) (instance : comm_instance_t) (w : World)
  : option (comm_instance_t * World) :=
  match ticks with
  | [] => Some (instance, w)
  | t :: rest =>
      if fst (comm_is_timeout instance (at_tick t w)) then
        let '(instance, w) := comm_tick_instance instance (at_tick t w) in
        expire rest instance w
      else None
  end.

(* ===================================================================== *)
(** ** Concrete channels, frames and worlds *)
(* ===================================================================== *)

(** A channel as [comm_add_uart] creates it: timeout 1000 ms, 3 retries. *)
Definition fresh_channel (uart : Z) : comm_instance_t :=
  comm_instance_init uart 1000 3.

Definition text_PING : list Z := [80; 73; 78; 71].

Definition text_TEST : list Z := [84; 69; 83; 84].

(** A world where every transport call succeeds. *)
Definition quiet_world (tick : Z) : World :=
  mk_world tick (fun _ => HAL_OK) [].

(** A zeroed slot of the instance array, and the manager after
    [comm_init] and one [comm_add_uart]. *)
Definition zero_instance : comm_instance_t := comm_instance_init 0 0 0.

Definition one_channel (instance : comm_instance_t) : comm_manager_t :=
  mk_manager (instance :: replicate 7 zero_instance) 1.

(** A channel with three retries and a failure callback. *)
Definition monitored_channel : comm_instance_t :=
  comm_set_fail_callback (fresh_channel 1) (Some 7%nat).

(** A channel waiting for the acknowledgement of sequence number 7, whose
    peer has sent seven frames so far. *)
Definition waiting_channel : comm_instance_t :=
  set_expected_ack_seq 7
    (set_rx_sequence 7 (set_state COMM_STATE_WAIT_ACK (fresh_channel 1))).

(** The parser after the bytes [{A:#01#00]: one byte before the end of a
    frame whose CRC field, [00], is not the CRC of [A:#01]. *)
Definition bad_crc_parser : comm_instance_t :=
  receive_bytes (fun _ => 0) 0 (fresh_channel 1)
    [123; 65; 58; 35; 48; 49; 35; 48; 48].

(** The frame [{PING:TEST#07#..}] with its right CRC, as the parser of a
    fresh channel leaves it in [pending_frame]. *)
Definition looped_frame : comm_frame_t :=
  let body := frame_body text_PING text_TEST 7 in
  pending_frame
    (receive_bytes (fun _ => 0) 0 (fresh_channel 1)
       (wire_frame text_PING text_TEST 7
          (comm_crc8_calculate (Some body) (strlen body)))).

(** The frame [{ACK:07#00#..}], parsed and valid. *)
Definition ack_for_seven : comm_frame_t :=
  mk_frame (COMM_CMD_ACK ++ replicate 14 0) (hex2 7 ++ replicate 63 0) 0 0 true.

(** Sixteen bytes, [ABCDEFGHIJKLMNOP], and sixty-four bytes [A]. *)
Definition sixteen_bytes : list Z :=
  [65; 66; 67; 68; 69; 70; 71; 72; 73; 74; 75; 76; 77; 78; 79; 80].


(* ===================================================================== *)
(** ** Four properties in the wording of the specification *)
(* ===================================================================== *)

(** Retry exhaustion after [n] timeouts: the send of [cmd] and [data] is
    accepted, the timeout expires at each of the [n] ticks, and by then the
    failure callback was invoked exactly once, with the command, the data
    and the reason, the channel is idle with no retry counted, and it
    accepts the send again. *)
Definition retry_exhaustion (n : nat) (instance : comm_instance_t)
    (cmd data : list Z) (w : World) (ticks : list Z) : Prop :=
  length ticks = n
  /\ exists callback waiting w1 final w2,
       fail_callback instance = Some callback
       /\ comm_send_command_on instance cmd data w = (true, waiting, w1)
       /\ expire ticks waiting w1 = Some (final, w2)
       /\ List.filter is_fail (emitted w w2)
          = [EvFail callback cmd data retry_failed_reason]
       /\ state final = COMM_STATE_IDLE
       /\ retry_count final = 0
       /\ forall w3, w_hal w3 (length (w_trace w3)) = HAL_OK ->
            fst (fst (comm_send_command_on final cmd data w3)) = true.

(** One retry: the tick at which the send timeout has expired counts the
    retry [k], hands the stored frame to the transport again (the
    interrupt-driven transmit, and the blocking one when that is refused)
    and leaves the channel waiting; the failure callback is not called. *)
Definition retransmission (k : Z) (uart : Z) (bytes : list Z)
    (before : comm_instance_t) (w : World)
    (after : comm_instance_t) (w' : World) : Prop :=
  comm_tick_instance before w = (after, w')
  /\ retry_count before = k - 1
  /\ retry_count after = k
  /\ state after = COMM_STATE_WAIT_ACK
  /\ List.filter is_transmit (emitted w w')
     = EvTransmitIT uart bytes
       :: (if decide (w_hal w (length (w_trace w)) = HAL_OK) then []
           else [EvTransmit uart bytes 1000])
  /\ List.filter is_fail (emitted w w') = [].

(** The four timeouts of a send, one by one: the send puts the frame on
    the wire, each of the first three timeouts is a retry that puts the
    same frame on the wire again, and the fourth, which finds
    [retry_count] at [max_retry], transmits nothing and calls the failure
    callback. *)
Definition retry_schedule (instance : comm_instance_t) (cmd data : list Z)
    (w : World) (ticks : list Z) (callback : comm_fail_callback_t)
    (final : comm_instance_t) (w2 : World) : Prop :=
  let frame := sent_frame instance cmd data in
  let uart := huart instance in
  exists t1 t2 t3 t4 waiting w1 i1 x1 i2 x2 i3 x3,
    ticks = [t1; t2; t3; t4]
    /\ comm_send_command_on instance cmd data w = (true, waiting, w1)
    /\ List.filter is_transmit (emitted w w1) = [EvTransmit uart frame 1000]
    /\ retransmission 1 uart frame waiting (at_tick t1 w1) i1 x1
    /\ retransmission 2 uart frame i1 (at_tick t2 x1) i2 x2
    /\ retransmission 3 uart frame i2 (at_tick t3 x2) i3 x3
    /\ retry_count i3 = max_retry i3
    /\ comm_tick_instance i3 (at_tick t4 x3) = (final, w2)
    /\ List.filter is_transmit (emitted (at_tick t4 x3) w2) = []
    /\ List.filter is_fail (emitted (at_tick t4 x3) w2)
       = [EvFail callback cmd data retry_failed_reason].

(** C3 as the specification states it: the closing brace publishes the
    frame whether or not the CRC matches, and the parser is idle again. *)
Definition published_at_closing_brace (now : Z) (instance : comm_instance_t)
  : Prop :=
  let after := comm_process_byte_in_interrupt now instance COMM_FRAME_END in
  new_frame_available after = true /\ parse_state after = FRAME_STATE_IDLE.

(** C4 as the specification states it: the frame is ignored, nothing is
    transmitted or dispatched and the channel is as before. *)
Definition silently_ignored (instance : comm_instance_t) (frame : comm_frame_t)
    (w : World) : Prop :=
  comm_handle_complete_frame instance frame w = (instance, w).


(* ===================================================================== *)
(** ** The callback table ([comm_manager.c]) *)
(* ===================================================================== *)

Definition set_handlers (v : list comm_handler_t) (i : comm_instance_t)
  : comm_instance_t :=
  mk_instance (huart i) (state i) (parse_state i) (tx_sequence i)
    (rx_sequence i) (expected_ack_seq i) (rx_buffer i) (tx_buffer i)
    (rx_index i) (tx_length i) (new_frame_available i) (pending_frame i)
    (frame_timeout i) v (timeout_ms i) (max_retry i) (retry_count i)
    (last_send_time i) (current_cmd i) (current_data i) (current_sequence i)
    (fail_callback i) (state_change_callback i).

Definition set_state_change_callback
    (v : option comm_state_change_callback_t) (i : comm_instance_t)
  : comm_instance_t :=
  mk_instance (huart i) (state i) (parse_state i) (tx_sequence i)
    (rx_sequence i) (expected_ack_seq i) (rx_buffer i) (tx_buffer i)
    (rx_index i) (tx_length i) (new_frame_available i) (pending_frame i)
    (frame_timeout i) (handlers i) (timeout_ms i) (max_retry i)
    (retry_count i) (last_send_time i) (current_cmd i) (current_data i)
    (current_sequence i) (fail_callback i) v.

(** [handlers[i].callback = callback] *)
Definition handler_set_callback (callback : option comm_callback_t)
    (h : comm_handler_t) : comm_handler_t :=
  mk_handler (handler_cmd h) callback (handler_is_used h).

(** [strncpy (handlers[i].cmd, cmd, COMM_MAX_CMD_LENGTH - 1);
    handlers[i].cmd[COMM_MAX_CMD_LENGTH - 1] = '\0';
    handlers[i].callback = callback;]: the first 16 bytes of the 17 are
    written. *)
Definition handler_install (cmd : list Z) (callback : option comm_callback_t)
    (h : comm_handler_t) : comm_handler_t :=
  mk_handler (strncpy_term 15 cmd ++ drop 16 (handler_cmd h)) callback
    (handler_is_used h).

(** The first slot whose callback is [NULL]. *)
Definition comm_find_free_slot (instance : comm_instance_t) : option nat :=
  list_find (fun h => handler_callback h = None)
    (take (Z.to_nat COMM_MAX_CALLBACKS) (handlers instance))
  ≫= fun '(i, _) => Some i.

(** [comm_register_callback]; a [NULL] callback is [None]. *)
Definition comm_register_callback (instance : comm_instance_t) (cmd : list Z)
    (callback : option comm_callback_t) : bool * comm_instance_t :=
  match callback with
  | None => (false, instance)
  | Some _ =>
      if strlen cmd >=? COMM_MAX_CMD_LENGTH then (false, instance)
      else
        match comm_find_callback_index instance cmd with
        | Some existing_index =>
            (true,
             set_handlers
               (alter (handler_set_callback callback) existing_index
                  (handlers instance))
               instance)
        | None =>
            match comm_find_free_slot instance with
            | Some i =>
                (true,
                 set_handlers
                   (alter (handler_install cmd callback) i (handlers instance))
                   instance)
            | None => (false, instance)
            end
        end
  end.

(* ===================================================================== *)
(** ** The instance array ([comm_manager.c], [comm.c]) *)
(* ===================================================================== *)

(** What setting a channel up does besides changing the manager: the
    error line on the diagnostic port and the arming of the receive
    interrupt. *)
Inductive setup_event :=
  | SetupErrorCapacity (limit : Z)
      (* COMM_ERROR_OUTPUT of comm_create_instance *)
  | SetupReceiveIT (uart : Z).
      (* HAL_UART_Receive_IT (uart, &instance->rx_byte, 1) *)

(** [memset (&g_comm_manager, 0, sizeof (comm_manager_t))] *)
Definition comm_manager_init : comm_manager_t :=
  mk_manager (replicate (Z.to_nat COMM_MAX_INSTANCES) (comm_instance_init 0 0 0)) 0.

Definition comm_get_instance_count (manager : comm_manager_t) : Z :=
  instance_count manager.

Definition comm_get_instance_by_index (manager : comm_manager_t) (index : Z)
  : option comm_instance_t :=
  if index >=? instance_count manager then None
  else instances manager !! Z.to_nat index.

(** [comm_create_instance]: the slot of the handle, a pointer into the
    array, is its index. *)
Definition comm_create_instance (manager : comm_manager_t) (uart : Z)
  : option nat * comm_manager_t * list setup_event :=
  if uart =? 0 then (None, manager, [])
  else
    match comm_find_instance manager uart with
    | Some existing => (Some existing, manager, [])
    | None =>
        if instance_count manager >=? COMM_MAX_INSTANCES
        then (None, manager, [SetupErrorCapacity COMM_MAX_INSTANCES])
        else
          (Some (Z.to_nat (instance_count manager)),
           mk_manager (instances manager) ((instance_count manager + 1) mod 256),
           [])
    end.

(** [comm_create_uart_instance]. [comm_instance_init] fails on a [NULL]
    handle only, which is excluded before it is called. *)
Definition comm_create_uart_instance (manager : comm_manager_t)
    (uart timeout_ms max_retry : Z)
  : option nat * comm_manager_t * list setup_event :=
  if uart =? 0 then (None, manager, [])
  else
    let '(slot, manager, evs) :=
      match comm_find_instance manager uart with
      | Some found => (Some found, manager, [])
      | None => comm_create_instance manager uart
      end in
    match slot with
    | None => (None, manager, evs)
    | Some index =>
        (Some index,
         mk_manager
           (<[index := comm_instance_init uart timeout_ms max_retry]>
              (instances manager))
           (instance_count manager),
         evs)
    end.

(** [comm_add_uart]. ([debug_enabled], which it sets, is not a field of the
    embedding.) *)
Definition comm_add_uart (manager : comm_manager_t) (uart : Z)
  : bool * comm_manager_t * list setup_event :=
  if uart =? 0 then (false, manager, [])
  else
    match comm_find_instance manager uart with
    | Some _ => (true, manager, [])
    | None =>
        let '(slot, manager, evs) :=
          comm_create_uart_instance manager uart 1000 3 in
        match slot with
        | None => (false, manager, evs)
        | Some _ => (true, manager, evs ++ [SetupReceiveIT uart])
        end
    end.

(** [comm_register_command_callback] *)
Definition comm_register_command_callback (manager : comm_manager_t) (uart : Z)
    (cmd : list Z) (callback : option comm_callback_t)
  : M (bool * comm_manager_t) :=
  match comm_find_instance manager uart ≫= fun index =>
          instances manager !! index ≫= fun instance => Some (index, instance)
  with
  | None => emit (EvErrorNoInstance uart);; mret (false, manager)
  | Some (index, instance) =>
      let '(registered, instance) :=
        comm_register_callback instance cmd callback in
      mret (registered,
            mk_manager (<[index := instance]> (instances manager))
              (instance_count manager))
  end.

Definition comm_is_ready (manager : comm_manager_t) (uart : Z) : bool :=
  match comm_find_instance manager uart ≫= fun index => instances manager !! index with
  | None => false
  | Some instance => comm_instance_is_ready instance
  end.

(* ===================================================================== *)
(** ** Auxiliary definitions for the further properties *)
(* ===================================================================== *)

(** Two strings that differ in exactly one byte. *)
Definition one_byte_changed (s s' : list Z) : Prop :=
  exists before a b behind,
    s = before ++ a :: behind /\ s' = before ++ b :: behind /\ a <> b.

(** The position of a value in the CRC table. *)
Fixpoint crc8_table_index (entries : list Z) (v : Z) : Z :=
  match entries with
  | [] => 0
  | e :: rest => if e =? v then 0 else 1 + crc8_table_index rest v
  end.

(** What the parser keeps whatever bytes arrive: the arrays have their
    sizes, the parse state is one of the five the parser uses, the index
    is inside the field being filled, and a published frame is valid with
    the parser idle. *)
Definition parser_ok (instance : comm_instance_t) : Prop :=
  length (rx_buffer instance) = Z.to_nat COMM_RX_BUFFER_SIZE
  /\ length (frame_cmd (pending_frame instance)) = 17%nat
  /\ length (frame_data (pending_frame instance)) = 65%nat
  /\ match parse_state instance with
     | FRAME_STATE_IDLE => True
     | FRAME_STATE_CMD => 0 <= rx_index instance <= COMM_MAX_CMD_LENGTH
     | FRAME_STATE_DATA => 0 <= rx_index instance <= COMM_MAX_DATA_LENGTH
     | FRAME_STATE_SEQ | FRAME_STATE_CRC => 0 <= rx_index instance <= 2
     | _ => False
     end
  /\ (new_frame_available instance = true ->
      parse_state instance = FRAME_STATE_IDLE
      /\ frame_is_valid (pending_frame instance) = true).

(** The array the parser writes into in a parse state. *)
Definition parser_target (instance : comm_instance_t) : list Z :=
  match parse_state instance with
  | FRAME_STATE_CMD => frame_cmd (pending_frame instance)
  | FRAME_STATE_DATA => frame_data (pending_frame instance)
  | _ => rx_buffer instance
  end.

(** The handles of the channels in use. *)
Definition manager_handles (manager : comm_manager_t) : list Z :=
  map huart (take (Z.to_nat (instance_count manager)) (instances manager)).

(** The instance array as [comm_init] and [comm_add_uart] keep it: eight
    slots, at most eight in use, the handles in use distinct and not
    [NULL]. *)
Definition manager_ok (manager : comm_manager_t) : Prop :=
  length (instances manager) = Z.to_nat COMM_MAX_INSTANCES
  /\ 0 <= instance_count manager <= COMM_MAX_INSTANCES
  /\ NoDup (manager_handles manager)
  /\ Forall (fun h => h <> 0) (manager_handles manager).

(** The commands with a callback in the table. *)
Definition registered_commands (instance : comm_instance_t) : list (list Z) :=
  map (fun h => cstr (handler_cmd h))
    (List.filter (fun h => bool_decide (is_Some (handler_callback h)))
       (take (Z.to_nat COMM_MAX_CALLBACKS) (handlers instance))).

(** The sequence number after [tx]: [tx + 1] in [uint8_t], with 0 skipped. *)
Definition tx_successor (tx : Z) : Z :=
  let tx := (tx + 1) mod 256 in if tx =? 0 then 1 else tx.

(** [n] successive calls of [comm_get_next_tx_sequence]; the number drawn
    last and the instance after it. *)
Fixpoint nth_tx_sequence (n : nat) (instance : comm_instance_t)
  : Z * comm_instance_t :=
  match n with
  | O => (tx_sequence instance, instance)
  | S n => nth_tx_sequence n (snd (comm_get_next_tx_sequence instance))
  end.

(** A receiver whose last accepted sequence number is [rx]. *)
Definition receiver_at (rx : Z) : comm_instance_t :=
  set_rx_sequence rx zero_instance.

(** The next write of the parser, at [rx_index], is inside the array it
    goes to. *)
Definition store_in_bounds (instance : comm_instance_t) : Prop :=
  parse_state instance = FRAME_STATE_IDLE
  \/ 0 <= rx_index instance < Z.of_nat (length (parser_target instance)).

(** The callback of the first slot that passes the test of the loop of
    [comm_find_callback_index]. *)
Fixpoint first_callback (hs : list comm_handler_t) (cmd : list Z)
  : option comm_callback_t :=
  match hs with
  | [] => None
  | h :: rest =>
      if decide (is_Some (handler_callback h) /\ cstr (handler_cmd h) = cmd)
      then handler_callback h
      else first_callback rest cmd
  end.

(** Every command in the table fits the 15 bytes [comm_register_callback]
    copies. *)
Definition handlers_short (instance : comm_instance_t) : Prop :=
  Forall (fun h => (length (cstr (handler_cmd h)) <= 15)%nat)
    (handlers instance).

(** The world after one more event. *)
Definition after_event (w : World) (e : event) : World :=
  mk_world (w_tick w) (w_hal w) (w_trace w ++ [e]).

(** [comm_add_uart] for each handle of a list in turn; what the calls
    report is dropped. *)
Definition comm_add_uarts (uarts : list Z) (manager : comm_manager_t)
  : comm_manager_t :=
  fold_left (fun manager uart => (comm_add_uart manager uart).1.2) uarts manager.

(** Everything of an instance the byte parser has no business with: the
    handle, the send state machine, the sequence counters, the transmit
    buffer, the callbacks and the retained command. *)
Definition send_side (i : comm_instance_t) :=
  (huart i, state i, tx_sequence i, rx_sequence i, expected_ack_seq i,
   tx_buffer i, tx_length i, handlers i, timeout_ms i, max_retry i,
   retry_count i, last_send_time i, current_cmd i, current_data i,
   current_sequence i, fail_callback i, state_change_callback i).

(** The events of a delivery: the acknowledgement, then the handler of
    the command when one is registered. *)
Definition delivery_events (instance : comm_instance_t) (cmd data : list Z)
    (seq : Z) : list event :=
  EvTransmit (huart instance) (ack_frame seq) 500
  :: match first_callback
             (take (Z.to_nat COMM_MAX_CALLBACKS) (handlers instance)) cmd with
     | Some callback => [EvCommand callback cmd data]
     | None => []
     end.

(** A channel whose parser has published the frame [{PING:TEST#01#..}] of
    a peer, the tick not having run yet. *)
Definition channel_with_frame : comm_instance_t :=
  receive_bytes (fun _ => 0) 0 (fresh_channel 1)
    (sent_frame (fresh_channel 2) text_PING text_TEST).

(* ===================================================================== *)
(** ** The frames of the usage guide, as checks of the embedding *)
(* ===================================================================== *)

(** [{ACK:01#00#85}] *)
Example guide_ack_frame :
  ack_frame 1 = [123; 65; 67; 75; 58; 48; 49; 35; 48; 48; 35; 56; 53; 125].
Proof. vm_compute. reflexivity. Qed.

(** [{PING:TEST#04#5A}] *)
Example guide_ping_crc :
  comm_crc8_calculate (Some (frame_body text_PING text_TEST 4))
    (strlen (frame_body text_PING text_TEST 4)) = 0x5A.
Proof. vm_compute. reflexivity. Qed.

(** [{WALK:D1 V100 T5000#01#1F}] *)
Example guide_walk_crc :
  comm_crc8_calculate
    (Some (frame_body [87; 65; 76; 75]
             [68; 49; 32; 86; 49; 48; 48; 32; 84; 53; 48; 48; 48] 1))
    21 = 0x1F.
Proof. vm_compute. reflexivity. Qed.

Example crc8_of_A :
  comm_crc8_calculate (Some [65]) 1 = 0xC0 /\ crc8_reference [65] = 0xC0.
Proof. split; vm_compute; reflexivity. Qed.

Example next_tx_sequence_skips_zero :
  fst (comm_get_next_tx_sequence (set_tx_sequence 255 (fresh_channel 1))) = 1.
Proof. reflexivity. Qed.

(* ===================================================================== *)
(** ** Checking a property on every byte *)
(* ===================================================================== *)

Lemma forall_below (f : Z -> bool) (n : nat) :
  forallb f (map Z.of_nat (seq 0 n)) = true ->
  forall z, 0 <= z < Z.of_nat n -> f z = true.
Proof.
  intros Hall z Hz.
  rewrite forallb_forall in Hall. apply Hall.
  replace z with (Z.of_nat (Z.to_nat z)) by lia.
  apply in_map, in_seq. lia.
Qed.

Lemma forall_byte (f : Z -> bool) :
  forallb f (map Z.of_nat (seq 0 256)) = true ->
  forall z, is_byte z -> f z = true.
Proof. intros Hall z Hz. apply (forall_below f 256 Hall). exact Hz. Qed.

Lemma forall_byte2 (f : Z -> Z -> bool) :
  forallb (fun a => forallb (f a) (map Z.of_nat (seq 0 256)))
    (map Z.of_nat (seq 0 256)) = true ->
  forall a b, is_byte a -> is_byte b -> f a b = true.
Proof.
  intros Hall a b Ha Hb.
  apply (forall_byte (f a)); [|exact Hb].
  apply (forall_byte (fun a => forallb (f a) (map Z.of_nat (seq 0 256))) Hall a Ha).
Qed.

(* ===================================================================== *)
(** ** CRC8: the table, the bit loop and the polynomial division *)
(* ===================================================================== *)

Lemma lxor_is_byte a b : is_byte a -> is_byte b -> is_byte (Z.lxor a b).
Proof.
  intros Ha Hb.
  assert (H : ((0 <=? Z.lxor a b) && (Z.lxor a b <? 256)) = true).
  { apply (forall_byte2 (fun a b => (0 <=? Z.lxor a b) && (Z.lxor a b <? 256)));
      [vm_compute; reflexivity | exact Ha | exact Hb]. }
  unfold is_byte. apply andb_prop in H. lia.
Qed.

Lemma crc8_shift_is_byte c : is_byte (crc8_shift c).
Proof.
  unfold crc8_shift, is_byte.
  destruct (Z.land c 128 =? 0); apply Z.mod_pos_bound; lia.
Qed.

Lemma crc8_bitwise_byte_is_byte c d : is_byte (crc8_bitwise_byte c d).
Proof. unfold crc8_bitwise_byte. simpl. apply crc8_shift_is_byte. Qed.

(** Every entry of the table is the eight shifts of its index. *)
Lemma crc8_table_entry x :
  is_byte x -> nth (Z.to_nat x) crc8_table 0 = Nat.iter 8 crc8_shift x.
Proof.
  intros Hx. apply Z.eqb_eq.
  apply (forall_byte
           (fun x => nth (Z.to_nat x) crc8_table 0 =? Nat.iter 8 crc8_shift x));
    [vm_compute; reflexivity | exact Hx].
Qed.

Lemma crc8_table_byte_bitwise c d :
  is_byte c -> is_byte d -> crc8_table_byte c d = crc8_bitwise_byte c d.
Proof.
  intros Hc Hd. unfold crc8_table_byte, crc8_bitwise_byte.
  apply crc8_table_entry, lxor_is_byte; assumption.
Qed.

Lemma crc8_fold_table_bitwise bytes :
  Forall is_byte bytes ->
  forall c, is_byte c ->
    fold_left crc8_table_byte bytes c = fold_left crc8_bitwise_byte bytes c.
Proof.
  induction 1 as [|d bytes Hd _ IH]; intros c Hc; simpl; [reflexivity|].
  rewrite (crc8_table_byte_bitwise c d Hc Hd).
  apply IH, crc8_bitwise_byte_is_byte.
Qed.

Lemma poly_div_byte_is_byte r d :
  is_byte r -> is_byte d -> is_byte (fold_left poly_div_step (byte_bits d) r).
Proof.
  intros Hr Hd.
  pose (f := fun r d => let v := fold_left poly_div_step (byte_bits d) r in
                        (0 <=? v) && (v <? 256)).
  assert (H : f r d = true).
  { apply forall_byte2; [vm_compute; reflexivity | exact Hr | exact Hd]. }
  unfold f in H. cbv beta zeta in H. apply andb_prop in H. unfold is_byte. lia.
Qed.

(** Feeding a byte to the division and then shifting is the byte step of
    the bit loop on the shifted register. *)
Lemma poly_div_byte_shift8 r d :
  is_byte r -> is_byte d ->
  poly_shift8 (fold_left poly_div_step (byte_bits d) r)
  = crc8_bitwise_byte (poly_shift8 r) d.
Proof.
  intros Hr Hd. apply Z.eqb_eq.
  apply (forall_byte2
           (fun r d => poly_shift8 (fold_left poly_div_step (byte_bits d) r)
                       =? crc8_bitwise_byte (poly_shift8 r) d));
    [vm_compute; reflexivity | exact Hr | exact Hd].
Qed.

Lemma message_bits_snoc bytes d :
  message_bits (bytes ++ [d]) = message_bits bytes ++ byte_bits d.
Proof.
  unfold message_bits. rewrite flat_map_app. cbn [flat_map].
  rewrite app_nil_r. reflexivity.
Qed.

Lemma crc8_bitwise_is_division bytes :
  Forall is_byte bytes ->
  is_byte (poly_rem (message_bits bytes))
  /\ fold_left crc8_bitwise_byte bytes 0 = poly_shift8 (poly_rem (message_bits bytes)).
Proof.
  induction bytes as [|d bytes IH] using rev_ind; intros Hall.
  - split; [|reflexivity].
    change (poly_rem (message_bits [])) with 0. unfold is_byte. lia.
  - apply Forall_app in Hall as [Hbytes Hd].
    apply Forall_inv in Hd.
    destruct (IH Hbytes) as [Hrange Heq].
    rewrite message_bits_snoc. unfold poly_rem in *.
    rewrite !fold_left_app. split.
    + apply poly_div_byte_is_byte; assumption.
    + cbn [fold_left]. rewrite Heq.
      symmetry. apply poly_div_byte_shift8; assumption.
Qed.

Lemma crc8_bitwise_reference bytes :
  Forall is_byte bytes ->
  fold_left crc8_bitwise_byte bytes 0 = crc8_reference bytes.
Proof.
  intros Hall. destruct (crc8_bitwise_is_division bytes Hall) as [_ Heq].
  rewrite Heq. unfold crc8_reference, poly_rem, poly_shift8.
  rewrite fold_left_app. reflexivity.
Qed.

(** C9. For every buffer of bytes and every length within it, the
    table-driven [comm_crc8_calculate] and the bit-by-bit variant return
    the same value, and that value is the CRC-8 of the first [length]
    bytes for polynomial 0x07, initial value 0x00, no reflection and no
    final XOR (the remainder of the polynomial division); a zero length and
    a NULL pointer give 0 in both variants. *)
Theorem crc8_table_bitwise_reference (buf : list Z) (len : Z) :
  Forall is_byte buf ->
  0 <= len <= Z.of_nat (length buf) ->
  comm_crc8_calculate (Some buf) len = comm_crc8_calculate_bitwise (Some buf) len
  /\ comm_crc8_calculate (Some buf) len = crc8_reference (take (Z.to_nat len) buf)
  /\ comm_crc8_calculate (Some buf) 0 = 0
  /\ comm_crc8_calculate_bitwise (Some buf) 0 = 0
  /\ comm_crc8_calculate None len = 0
  /\ comm_crc8_calculate_bitwise None len = 0.
Proof.
  intros Hbuf Hlen.
  assert (Htake : Forall is_byte (take (Z.to_nat len) buf))
    by (apply Forall_take; exact Hbuf).
  assert (H0 : is_byte 0) by (unfold is_byte; lia).
  assert (Hagree : comm_crc8_calculate (Some buf) len
                   = comm_crc8_calculate_bitwise (Some buf) len).
  { unfold comm_crc8_calculate, comm_crc8_calculate_bitwise, crc8_with.
    destruct (len =? 0); [reflexivity|].
    apply crc8_fold_table_bitwise; assumption. }
  repeat split; try reflexivity; [exact Hagree|].
  rewrite Hagree.
  unfold comm_crc8_calculate_bitwise, crc8_with.
  destruct (len =? 0) eqn:Hz.
  - apply Z.eqb_eq in Hz. subst len. reflexivity.
  - apply crc8_bitwise_reference. exact Htake.
Qed.

Lemma crc8_table_bitwise_reference_witness :
  Forall is_byte [80; 73; 78; 71] /\ 0 <= 4 <= Z.of_nat (length [80; 73; 78; 71])
  /\ comm_crc8_calculate (Some [80; 73; 78; 71]) 4
     = crc8_reference (take (Z.to_nat 4) [80; 73; 78; 71]).
Proof.
  assert (Hb : Forall is_byte [80; 73; 78; 71])
    by (repeat constructor; unfold is_byte; lia).
  assert (Hl : 0 <= 4 <= Z.of_nat (length [80; 73; 78; 71])) by (simpl; lia).
  split; [exact Hb | split; [exact Hl|]].
  apply (crc8_table_bitwise_reference [80; 73; 78; 71] 4 Hb Hl).
Defined.

(* ===================================================================== *)
(** ** The receive window *)
(* ===================================================================== *)

Lemma normalized_difference_range rx base :
  is_byte rx -> is_byte base ->
  -128 < normalized_difference (rx - base) <= 128
  /\ (normalized_difference (rx - base) - (rx - base)) mod 256 = 0.
Proof.
  unfold is_byte, normalized_difference. intros Hrx Hbase.
  destruct (rx - base <=? -128) eqn:H1; [|destruct (128 <? rx - base) eqn:H2].
  - split; [lia|]. replace (rx - base + 256 - (rx - base)) with (1 * 256) by lia.
    apply Z.mod_mul; lia.
  - split; [lia|]. replace (rx - base - 256 - (rx - base)) with (-1 * 256) by lia.
    apply Z.mod_mul; lia.
  - split; [lia|]. replace (rx - base - (rx - base)) with (0 * 256) by lia.
    apply Z.mod_mul; lia.
Qed.

(** The code leaves a difference of -128 as it is, the window of the
    specification maps it to 128: neither is in [1, 10]. *)
Lemma rx_sequence_diff_normalized instance rx_seq :
  rx_sequence_diff instance rx_seq
  = normalized_difference (rx_seq - rx_sequence instance)
  \/ (rx_sequence_diff instance rx_seq = -128
      /\ normalized_difference (rx_seq - rx_sequence instance) = 128).
Proof.
  unfold rx_sequence_diff, normalized_difference.
  destruct (rx_seq - rx_sequence instance <? -128) eqn:H1;
    destruct (rx_seq - rx_sequence instance <=? -128) eqn:H2;
    destruct (rx_seq - rx_sequence instance >? 128) eqn:H3;
    destruct (128 <? rx_seq - rx_sequence instance) eqn:H4; lia.
Qed.

Lemma comm_is_valid_rx_sequence_window instance rx_seq :
  comm_is_valid_rx_sequence instance rx_seq = true
  <-> 1 <= rx_sequence_diff instance rx_seq <= 10.
Proof.
  unfold comm_is_valid_rx_sequence.
  destruct (rx_sequence_diff instance rx_seq >=? 1) eqn:H1;
    destruct (rx_sequence_diff instance rx_seq <=? 10) eqn:H2; simpl;
    repeat match goal with |- context [if ?c then _ else _] => destruct c end;
    split; intros; try discriminate; try reflexivity; lia.
Qed.

(** C5. For every baseline [rx_sequence] and received [rx_seq] in 0..255,
    [comm_is_valid_rx_sequence] returns true exactly when the difference
    [rx_seq - rx_sequence], normalized into (-128, 128] by adding or
    subtracting 256, lies in [1, 10]; with baseline 250 an incoming 1 has
    normalized difference 7 and is accepted, with baseline 5 an incoming
    250 is rejected. *)
Theorem rx_window_acceptance (instance : comm_instance_t) (rx_seq : Z) :
  is_byte (rx_sequence instance) ->
  is_byte rx_seq ->
  let diff := normalized_difference (rx_seq - rx_sequence instance) in
  (-128 < diff <= 128 /\ (diff - (rx_seq - rx_sequence instance)) mod 256 = 0)
  /\ (comm_is_valid_rx_sequence instance rx_seq = true <-> 1 <= diff <= 10)
  /\ (rx_sequence instance = 250 -> rx_seq = 1 ->
      diff = 7 /\ comm_is_valid_rx_sequence instance rx_seq = true)
  /\ (rx_sequence instance = 5 -> rx_seq = 250 ->
      comm_is_valid_rx_sequence instance rx_seq = false).
Proof.
  intros Hbase Hrx diff.
  assert (Hiff : comm_is_valid_rx_sequence instance rx_seq = true
                 <-> 1 <= diff <= 10).
  { rewrite comm_is_valid_rx_sequence_window. subst diff.
    destruct (rx_sequence_diff_normalized instance rx_seq) as [-> | [-> ->]];
      [reflexivity | lia]. }
  split; [apply normalized_difference_range; assumption|].
  split; [exact Hiff|]. split.
  - intros H250 H1.
    assert (Hd : diff = 7) by (subst diff; rewrite H250, H1; reflexivity).
    split; [exact Hd | apply Hiff; lia].
  - intros H5 H250.
    assert (Hd : diff = -11) by (subst diff; rewrite H5, H250; reflexivity).
    apply not_true_is_false. intros Hv. apply Hiff in Hv. lia.
Qed.

Lemma rx_window_acceptance_witness :
  is_byte (rx_sequence (set_rx_sequence 250 (comm_instance_init 1 1000 3)))
  /\ is_byte 1
  /\ comm_is_valid_rx_sequence
       (set_rx_sequence 250 (comm_instance_init 1 1000 3)) 1 = true.
Proof.
  assert (Hb : is_byte (rx_sequence (set_rx_sequence 250 (comm_instance_init 1 1000 3))))
    by (unfold is_byte; simpl; lia).
  assert (H1 : is_byte 1) by (unfold is_byte; lia).
  split; [exact Hb | split; [exact H1|]].
  apply (rx_window_acceptance
           (set_rx_sequence 250 (comm_instance_init 1 1000 3)) 1 Hb H1);
    reflexivity.
Defined.

(* ===================================================================== *)
(** ** The byte parser *)
(* ===================================================================== *)

Lemma cstr_app_nul s rest : is_cstring s -> cstr (s ++ 0 :: rest) = s.
Proof.
  induction 1 as [|b s Hb _ IH]; simpl; [reflexivity|].
  destruct (b =? 0) eqn:Hz; [lia|]. rewrite IH. reflexivity.
Qed.

Lemma length_cstr buf : (length (cstr buf) <= length buf)%nat.
Proof.
  induction buf as [|b buf IH]; simpl; [lia|].
  destruct (b =? 0); simpl; lia.
Qed.

(** Terminating the bytes stored so far gives them back as the string. *)
Lemma cstr_store_nul buf sofar :
  is_cstring sofar ->
  take (length sofar) buf = sofar ->
  (length sofar < length buf)%nat ->
  cstr (store buf (Z.of_nat (length sofar)) 0) = sofar.
Proof.
  intros Hs Htake Hlen. unfold store. rewrite Nat2Z.id.
  rewrite <- (take_drop (length sofar) buf) at 1. rewrite Htake.
  rewrite insert_app_r_alt by lia. rewrite Nat.sub_diag.
  destruct (drop (length sofar) buf) as [|x rest] eqn:Hd.
  - apply (f_equal length) in Hd. rewrite length_drop in Hd. simpl in Hd. lia.
  - simpl. apply cstr_app_nul. exact Hs.
Qed.

(** Storing one more byte behind the bytes stored so far. *)
Lemma take_store_snoc buf sofar b :
  take (length sofar) buf = sofar ->
  (length sofar < length buf)%nat ->
  take (length (sofar ++ [b])) (store buf (Z.of_nat (length sofar)) b)
  = sofar ++ [b].
Proof.
  intros Htake Hlen. unfold store. rewrite Nat2Z.id.
  rewrite length_app. simpl. rewrite Nat.add_1_r.
  rewrite (take_S_r _ _ b) by (apply list_lookup_insert_eq; exact Hlen).
  rewrite take_insert_ge by lia. rewrite Htake. reflexivity.
Qed.

Lemma length_store buf i b : length (store buf i b) = length buf.
Proof. unfold store. apply length_insert. Qed.

Ltac parser_start H :=
  destruct H as (Hflag & Hps & Hidx & Htake & Hrx & Hlc & Hld);
  unfold comm_process_byte_in_interrupt; rewrite Hflag, Hps; cbv iota.

Lemma receive_start now instance :
  new_frame_available instance = false ->
  parse_state instance = FRAME_STATE_IDLE ->
  (3 <= length (rx_buffer instance))%nat ->
  at_cmd (comm_process_byte_in_interrupt now instance COMM_FRAME_START) [].
Proof.
  intros Hflag Hps Hrx.
  unfold comm_process_byte_in_interrupt. rewrite Hflag, Hps. cbv iota.
  rewrite Z.eqb_refl. unfold at_cmd, filling. simpl.
  repeat split; assumption.
Qed.

Lemma receive_cmd_byte now instance sofar b :
  at_cmd instance sofar ->
  (length sofar < 16)%nat ->
  b <> COMM_CMD_DATA_SEPARATOR ->
  at_cmd (comm_process_byte_in_interrupt now instance b) (sofar ++ [b]).
Proof.
  intros H Hlen Hb. unfold at_cmd in *. parser_start H.
  destruct (b =? COMM_CMD_DATA_SEPARATOR) eqn:E; [apply Z.eqb_eq in E; contradiction|].
  rewrite Hidx.
  destruct (Z.of_nat (length sofar) <? COMM_MAX_CMD_LENGTH) eqn:E2;
    [|unfold COMM_MAX_CMD_LENGTH in E2; lia].
  unfold filling. simpl.
  rewrite length_store, Hlc.
  repeat split; try assumption.
  - rewrite Z.mod_small by lia. rewrite length_app. simpl. lia.
  - apply take_store_snoc; [exact Htake | lia].
Qed.

Lemma receive_cmd_end now instance cmd :
  at_cmd instance cmd ->
  is_cstring cmd ->
  (length cmd <= 16)%nat ->
  at_data (comm_process_byte_in_interrupt now instance COMM_CMD_DATA_SEPARATOR)
    cmd [].
Proof.
  intros H Hs Hlen. unfold at_cmd, at_data in *. parser_start H.
  rewrite Z.eqb_refl. rewrite Hidx. unfold filling. simpl.
  rewrite length_store, Hlc.
  repeat split; try assumption.
  apply cstr_store_nul; [exact Hs | exact Htake | lia].
Qed.

Lemma receive_data_byte now instance cmd sofar b :
  at_data instance cmd sofar ->
  (length sofar < 64)%nat ->
  b <> COMM_FIELD_SEPARATOR ->
  at_data (comm_process_byte_in_interrupt now instance b) cmd (sofar ++ [b]).
Proof.
  intros [H Hcmd] Hlen Hb. unfold at_data in *. parser_start H.
  destruct (b =? COMM_FIELD_SEPARATOR) eqn:E; [apply Z.eqb_eq in E; contradiction|].
  rewrite Hidx.
  destruct (Z.of_nat (length sofar) <? COMM_MAX_DATA_LENGTH) eqn:E2;
    [|unfold COMM_MAX_DATA_LENGTH in E2; lia].
  unfold filling. simpl.
  rewrite length_store, Hld.
  repeat split; try assumption.
  - rewrite Z.mod_small by lia. rewrite length_app. simpl. lia.
  - apply take_store_snoc; [exact Htake | lia].
Qed.

Lemma receive_data_end now instance cmd data :
  at_data instance cmd data ->
  is_cstring data ->
  (length data <= 64)%nat ->
  at_seq (comm_process_byte_in_interrupt now instance COMM_FIELD_SEPARATOR)
    cmd data [].
Proof.
  intros [H Hcmd] Hs Hlen. unfold at_seq in *. parser_start H.
  rewrite Z.eqb_refl. rewrite Hidx. unfold filling. simpl.
  rewrite length_store, Hld.
  repeat split; try assumption.
  apply cstr_store_nul; [exact Hs | exact Htake | lia].
Qed.

Lemma receive_seq_byte now instance cmd data sofar b :
  at_seq instance cmd data sofar ->
  (length sofar < 2)%nat ->
  b <> COMM_FIELD_SEPARATOR ->
  at_seq (comm_process_byte_in_interrupt now instance b) cmd data (sofar ++ [b]).
Proof.
  intros (H & Hcmd & Hdata) Hlen Hb. unfold at_seq in *. parser_start H.
  destruct (b =? COMM_FIELD_SEPARATOR) eqn:E; [apply Z.eqb_eq in E; contradiction|].
  rewrite Hidx.
  destruct (Z.of_nat (length sofar) <? 2) eqn:E2; [|lia].
  unfold filling. simpl.
  rewrite length_store.
  repeat split; try assumption.
  - rewrite Z.mod_small by lia. rewrite length_app. simpl. lia.
  - apply take_store_snoc; [exact Htake | lia].
Qed.

Lemma receive_seq_end now instance cmd data digits :
  at_seq instance cmd data digits ->
  is_cstring digits ->
  (length digits <= 2)%nat ->
  at_crc (comm_process_byte_in_interrupt now instance COMM_FIELD_SEPARATOR)
    cmd data (strtol16_u8 digits) [].
Proof.
  intros (H & Hcmd & Hdata) Hs Hlen. unfold at_crc in *. parser_start H.
  rewrite Z.eqb_refl. rewrite Hidx. unfold filling. simpl.
  rewrite length_store.
  repeat split; try assumption.
  rewrite cstr_store_nul; [reflexivity | exact Hs | exact Htake | lia].
Qed.

Lemma receive_crc_byte now instance cmd data seq sofar b :
  at_crc instance cmd data seq sofar ->
  (length sofar < 2)%nat ->
  b <> COMM_FRAME_END ->
  at_crc (comm_process_byte_in_interrupt now instance b) cmd data seq (sofar ++ [b]).
Proof.
  intros (H & Hcmd & Hdata & Hseq) Hlen Hb. unfold at_crc in *. parser_start H.
  destruct (b =? COMM_FRAME_END) eqn:E; [apply Z.eqb_eq in E; contradiction|].
  rewrite Hidx.
  destruct (Z.of_nat (length sofar) <? 2) eqn:E2; [|lia].
  unfold filling. simpl.
  rewrite length_store.
  repeat split; try assumption.
  - rewrite Z.mod_small by lia. rewrite length_app. simpl. lia.
  - apply take_store_snoc; [exact Htake | lia].
Qed.

Lemma receive_bytes_app clock bs1 : forall bs2 k instance,
  receive_bytes clock k instance (bs1 ++ bs2)
  = receive_bytes clock (k + length bs1)
      (receive_bytes clock k instance bs1) bs2.
Proof.
  induction bs1 as [|b bs1 IH]; intros bs2 k instance; simpl.
  - rewrite Nat.add_0_r. reflexivity.
  - rewrite IH. f_equal. lia.
Qed.

(** Filling a field byte by byte, up to its limit. *)
Lemma receive_field (P : comm_instance_t -> list Z -> Prop) (sep : Z) (limit : nat) :
  (forall now instance sofar b,
      P instance sofar -> (length sofar < limit)%nat -> b <> sep ->
      P (comm_process_byte_in_interrupt now instance b) (sofar ++ [b])) ->
  forall clock bs k instance sofar,
    P instance sofar ->
    (length sofar + length bs <= limit)%nat ->
    Forall (fun b => b <> sep) bs ->
    P (receive_bytes clock k instance bs) (sofar ++ bs).
Proof.
  intros Hstep clock bs.
  induction bs as [|b bs IH]; intros k instance sofar HP Hlen Hbs; simpl.
  - rewrite app_nil_r. exact HP.
  - simpl in Hlen. inversion Hbs as [|? ? Hb Hrest]; subst.
    replace (sofar ++ b :: bs) with ((sofar ++ [b]) ++ bs)
      by (rewrite <- app_assoc; reflexivity).
    apply IH; [|rewrite length_app; simpl; lia | exact Hrest].
    apply Hstep; [exact HP | lia | exact Hb].
Qed.

(** The two digits [%02X] prints hold no terminator and no separator, and
    [strtol] reads the value back. *)
Lemma hex2_facts v :
  is_byte v ->
  is_cstring (hex2 v)
  /\ Forall (fun b => b <> COMM_FIELD_SEPARATOR) (hex2 v)
  /\ Forall (fun b => b <> COMM_FRAME_END) (hex2 v)
  /\ strtol16_u8 (hex2 v) = v.
Proof.
  intros Hv.
  assert (H : hex2_check v = true)
    by (apply forall_byte; [vm_compute; reflexivity | exact Hv]).
  unfold hex2_check in H. apply andb_prop in H as [Hall Hval].
  rewrite forallb_forall in Hall.
  assert (Hin : forall b, In b (hex2 v) ->
                  0 < b < 256 /\ b <> COMM_FIELD_SEPARATOR /\ b <> COMM_FRAME_END).
  { intros b Hb. specialize (Hall b Hb).
    apply andb_prop in Hall as [Hall H4]. apply andb_prop in Hall as [Hall H3].
    apply andb_prop in Hall as [H1 H2].
    apply negb_true_iff, Z.eqb_neq in H3, H4. lia. }
  unfold is_cstring. rewrite !List.Forall_forall.
  split; [intros b Hb; apply Hin in Hb; lia|].
  split; [intros b Hb; apply Hin in Hb; tauto|].
  split; [intros b Hb; apply Hin in Hb; tauto|].
  apply Z.eqb_eq. exact Hval.
Qed.

Lemma crc8_table_is_byte i : is_byte (nth i crc8_table 0).
Proof.
  assert (Hall : Forall is_byte crc8_table)
    by (apply List.Forall_forall; intros x Hx;
        unfold is_byte; unfold crc8_table in Hx; simpl in Hx;
        repeat (destruct Hx as [<- | Hx]; [lia|]); contradiction).
  destruct (Nat.lt_ge_cases i (length crc8_table)) as [Hlt | Hge].
  - rewrite List.Forall_forall in Hall. apply Hall. apply nth_In. exact Hlt.
  - rewrite nth_overflow by exact Hge. unfold is_byte. lia.
Qed.

Lemma comm_crc8_calculate_is_byte data len :
  is_byte (comm_crc8_calculate data len).
Proof.
  unfold comm_crc8_calculate, crc8_with.
  destruct data as [bytes|]; [|unfold is_byte; lia].
  destruct (len =? 0); [unfold is_byte; lia|].
  generalize (take (Z.to_nat len) bytes). intros l.
  assert (H : forall c, is_byte c -> is_byte (fold_left crc8_table_byte l c)).
  { induction l as [|d l IH]; intros c Hc; simpl; [exact Hc|].
    apply IH. apply crc8_table_is_byte. }
  apply H. unfold is_byte. lia.
Qed.

Lemma strlen_frame_body cmd data seq :
  strlen (frame_body cmd data seq) = strlen cmd + strlen data + 4.
Proof.
  unfold strlen, frame_body, hex2. rewrite !length_app. simpl. lia.
Qed.

Lemma strlen_wire_frame cmd data seq crc :
  strlen (wire_frame cmd data seq crc) = strlen cmd + strlen data + 9.
Proof.
  unfold wire_frame. unfold strlen at 1. simpl length.
  rewrite length_app. fold (strlen (frame_body cmd data seq)).
  rewrite Nat2Z.inj_succ, Nat2Z.inj_add. fold (strlen (frame_body cmd data seq)).
  rewrite strlen_frame_body. simpl. lia.
Qed.

(** The check at the closing brace compares the CRC of the rebuilt string
    with the received one. *)
Lemma pending_crc_ok_compare frame :
  length (frame_cmd frame) = 17%nat ->
  length (frame_data frame) = 65%nat ->
  let body := frame_body (cstr (frame_cmd frame)) (cstr (frame_data frame))
                (frame_sequence frame) in
  pending_crc_ok frame
  = (comm_crc8_calculate (Some body) (strlen body) =? frame_crc frame).
Proof.
  intros Hlc Hld body. unfold pending_crc_ok. fold body.
  pose proof (length_cstr (frame_cmd frame)) as H1.
  pose proof (length_cstr (frame_data frame)) as H2.
  assert (Hlen : 4 <= strlen body <= 86).
  { subst body. rewrite strlen_frame_body. unfold strlen. lia. }
  replace (strlen body >? 0) with true by (symmetry; apply Z.gtb_lt; lia).
  rewrite Z.mod_small by lia.
  rewrite take_ge by (unfold strlen, COMM_RX_BUFFER_SIZE in *; lia).
  reflexivity.
Qed.

#[local] Arguments pending_crc_ok : simpl never.
#[local] Arguments comm_crc8_calculate : simpl never.
#[local] Arguments strtol16_u8 : simpl never.
#[local] Arguments store : simpl never.
#[local] Arguments frame_body : simpl never.

(** The closing brace, whatever the fields hold: the frame is marked valid
    and handed over when the CRC check passes, and only then. *)
Lemma receive_closing_brace now instance :
  new_frame_available instance = false ->
  parse_state instance = FRAME_STATE_CRC ->
  let received :=
    strtol16_u8 (cstr (store (rx_buffer instance) (rx_index instance) 0)) in
  let ok := pending_crc_ok (set_frame_crc received (pending_frame instance)) in
  let after := comm_process_byte_in_interrupt now instance COMM_FRAME_END in
  parse_state after = FRAME_STATE_IDLE
  /\ rx_index after = 0
  /\ new_frame_available after = ok
  /\ pending_frame after
     = set_frame_is_valid ok (set_frame_crc received (pending_frame instance)).
Proof.
  intros Hflag Hps received ok after. subst after.
  unfold comm_process_byte_in_interrupt. rewrite Hflag, Hps. cbv iota.
  rewrite Z.eqb_refl. simpl. fold received. fold ok.
  destruct ok; simpl; rewrite ?Hflag; repeat split; reflexivity.
Qed.

Lemma receive_frame_end now instance cmd data seq digits :
  at_crc instance cmd data seq digits ->
  is_cstring digits ->
  (length digits <= 2)%nat ->
  let body := frame_body cmd data seq in
  let ok := comm_crc8_calculate (Some body) (strlen body) =? strtol16_u8 digits in
  let after := comm_process_byte_in_interrupt now instance COMM_FRAME_END in
  parse_state after = FRAME_STATE_IDLE
  /\ new_frame_available after = ok
  /\ frame_is_valid (pending_frame after) = ok
  /\ cstr (frame_cmd (pending_frame after)) = cmd
  /\ cstr (frame_data (pending_frame after)) = data
  /\ frame_sequence (pending_frame after) = seq
  /\ frame_crc (pending_frame after) = strtol16_u8 digits.
Proof.
  intros ((Hflag & Hps & Hidx & Htake & Hrx & Hlc & Hld) & Hcmd & Hdata & Hseq)
    Hs Hlen body ok after.
  destruct (receive_closing_brace now instance Hflag Hps) as (H1 & H2 & H3 & H4).
  fold after in H1, H2, H3, H4.
  rewrite Hidx, cstr_store_nul in H3, H4 by (assumption || lia).
  rewrite pending_crc_ok_compare in H3, H4 by (simpl; assumption).
  simpl in H3, H4. rewrite Hcmd, Hdata, Hseq in H3, H4.
  fold body in H3, H4. fold ok in H3, H4.
  rewrite H4. simpl. repeat split; assumption.
Qed.

Lemma not_separator (sep : Z) (s : list Z) :
  Forall (fun b => b <> COMM_CMD_DATA_SEPARATOR /\ b <> COMM_FIELD_SEPARATOR
                   /\ b <> COMM_FRAME_START /\ b <> COMM_FRAME_END) s ->
  (sep = COMM_CMD_DATA_SEPARATOR \/ sep = COMM_FIELD_SEPARATOR) ->
  Forall (fun b => b <> sep) s.
Proof.
  intros H Hsep. revert H. apply List.Forall_impl.
  intros b (H1 & H2 & _). destruct Hsep; subst; assumption.
Qed.

Lemma wire_frame_fields cmd data seq crc :
  wire_frame cmd data seq crc
  = COMM_FRAME_START
    :: cmd ++ COMM_CMD_DATA_SEPARATOR
    :: data ++ COMM_FIELD_SEPARATOR
    :: hex2 seq ++ COMM_FIELD_SEPARATOR
    :: hex2 crc ++ [COMM_FRAME_END].
Proof.
  unfold wire_frame, frame_body. rewrite <- !app_assoc. reflexivity.
Qed.

Lemma receive_bytes_cons clock k instance b rest :
  receive_bytes clock k instance (b :: rest)
  = receive_bytes clock (S k)
      (comm_process_byte_in_interrupt (clock k) instance b) rest.
Proof. reflexivity. Qed.

(** A whole frame, received by an idle parser with no frame pending. *)
Lemma receive_wire_frame clock k instance cmd data seq crc :
  new_frame_available instance = false ->
  parse_state instance = FRAME_STATE_IDLE ->
  (3 <= length (rx_buffer instance))%nat ->
  is_cstring cmd -> is_cstring data ->
  (length cmd <= 16)%nat -> (length data <= 64)%nat ->
  Forall (fun b => b <> COMM_CMD_DATA_SEPARATOR) cmd ->
  Forall (fun b => b <> COMM_FIELD_SEPARATOR) data ->
  is_byte seq -> is_byte crc ->
  let body := frame_body cmd data seq in
  let ok := comm_crc8_calculate (Some body) (strlen body) =? crc in
  let after := receive_bytes clock k instance (wire_frame cmd data seq crc) in
  parse_state after = FRAME_STATE_IDLE
  /\ new_frame_available after = ok
  /\ frame_is_valid (pending_frame after) = ok
  /\ cstr (frame_cmd (pending_frame after)) = cmd
  /\ cstr (frame_data (pending_frame after)) = data
  /\ frame_sequence (pending_frame after) = seq
  /\ frame_crc (pending_frame after) = crc.
Proof.
  intros Hflag Hps Hrx Hcmd Hdata Hlc Hld Hnc Hnd Hseq Hcrc body ok after.
  destruct (hex2_facts seq Hseq) as (Hs1 & Hs2 & _ & Hs4).
  destruct (hex2_facts crc Hcrc) as (Hc1 & _ & Hc3 & Hc4).
  subst after. rewrite wire_frame_fields.
  rewrite receive_bytes_cons, receive_bytes_app, receive_bytes_cons,
    receive_bytes_app, receive_bytes_cons, receive_bytes_app,
    receive_bytes_cons, receive_bytes_app, receive_bytes_cons.
  cbn [receive_bytes].
  set (n1 := (S k + length cmd)%nat).
  set (n2 := (S n1 + length data)%nat).
  set (n3 := (S n2 + length (hex2 seq))%nat).
  set (n4 := (S n3 + length (hex2 crc))%nat).
  pose proof (receive_start (clock k) instance Hflag Hps Hrx) as A0.
  pose proof (receive_field at_cmd COMM_CMD_DATA_SEPARATOR 16
                (fun now i s b => receive_cmd_byte now i s b)
                clock cmd (S k) _ [] A0 ltac:(simpl; lia) Hnc) as A1.
  simpl app in A1.
  pose proof (receive_cmd_end (clock n1) _ cmd A1 Hcmd Hlc) as A2.
  pose proof (receive_field (fun i s => at_data i cmd s) COMM_FIELD_SEPARATOR 64
                (fun now i s b => receive_data_byte now i cmd s b)
                clock data (S n1) _ [] A2 ltac:(simpl; lia) Hnd) as A3.
  simpl app in A3.
  pose proof (receive_data_end (clock n2) _ cmd data A3 Hdata Hld) as A4.
  pose proof (receive_field (fun i s => at_seq i cmd data s) COMM_FIELD_SEPARATOR 2
                (fun now i s b => receive_seq_byte now i cmd data s b)
                clock (hex2 seq) (S n2) _ [] A4 ltac:(simpl; lia) Hs2) as A5.
  simpl app in A5.
  pose proof (receive_seq_end (clock n3) _ cmd data (hex2 seq) A5 Hs1
                ltac:(simpl; lia)) as A6.
  rewrite Hs4 in A6.
  pose proof (receive_field (fun i s => at_crc i cmd data seq s) COMM_FRAME_END 2
                (fun now i s b => receive_crc_byte now i cmd data seq s b)
                clock (hex2 crc) (S n3) _ [] A6 ltac:(simpl; lia) Hc3) as A7.
  simpl app in A7.
  pose proof (receive_frame_end (clock n4) _ cmd data seq (hex2 crc) A7 Hc1
                ltac:(simpl; lia)) as A8.
  rewrite Hc4 in A8. exact A8.
Qed.

Lemma build_sequence_is_byte sender :
  is_byte (current_sequence sender) -> is_byte (build_sequence sender).
Proof.
  intros Hcur. unfold build_sequence.
  destruct (retry_count sender >? 0); [exact Hcur|].
  unfold comm_get_next_tx_sequence, is_byte. simpl.
  pose proof (Z.mod_pos_bound (tx_sequence sender + 1) 256 ltac:(lia)).
  destruct ((tx_sequence sender + 1) mod 256 =? 0); lia.
Qed.

(** Within the length bounds [comm_build_frame] succeeds, and leaves the
    frame for [build_sequence] and the CRC of its body in the buffer. *)
Lemma comm_build_frame_ok sender cmd data frame_buffer frame_length :
  strlen cmd <= COMM_MAX_CMD_LENGTH ->
  strlen data <= COMM_MAX_DATA_LENGTH ->
  let seq := build_sequence sender in
  let body := frame_body cmd data seq in
  let crc := comm_crc8_calculate (Some body) (strlen body) in
  let frame := wire_frame cmd data seq crc in
  comm_build_frame sender cmd data frame_buffer frame_length
  = (true, snprintf_into frame_buffer frame, strlen frame,
     set_expected_ack_seq seq (with_build_sequence sender)).
Proof.
  intros Hc Hd seq body crc frame.
  unfold COMM_MAX_CMD_LENGTH, COMM_MAX_DATA_LENGTH in Hc, Hd.
  assert (Hlen0 : 0 <= strlen cmd /\ 0 <= strlen data) by (unfold strlen; lia).
  unfold comm_build_frame.
  replace (strlen cmd >? COMM_MAX_CMD_LENGTH) with false
    by (unfold COMM_MAX_CMD_LENGTH; lia).
  replace (strlen data >? COMM_MAX_DATA_LENGTH) with false
    by (unfold COMM_MAX_DATA_LENGTH; lia).
  cbn [orb].
  set (picked := if retry_count sender >? 0 then _ else _).
  assert (Hpick : picked = (seq, with_build_sequence sender)).
  { subst picked seq.
    unfold with_build_sequence, build_sequence, comm_get_next_tx_sequence.
    destruct (retry_count sender >? 0); reflexivity. }
  rewrite Hpick. clear Hpick picked.
  assert (Hcontent : strlen (COMM_FRAME_START :: body) = strlen body + 1)
    by (unfold strlen; simpl length; lia).
  assert (Hbody : strlen body = strlen cmd + strlen data + 4)
    by apply strlen_frame_body.
  fold body. rewrite Hcontent.
  replace (strlen body + 1 >=? COMM_TX_BUFFER_SIZE) with false
    by (unfold COMM_TX_BUFFER_SIZE; lia).
  replace (strlen body + 1 - 1) with (strlen body) by lia.
  rewrite (Z.mod_small (strlen body)) by lia.
  cbn [drop]. change (drop 0 body) with body. fold crc.
  change ((COMM_FRAME_START :: body)
          ++ [COMM_FIELD_SEPARATOR] ++ hex2 crc ++ [COMM_FRAME_END])
    with frame.
  assert (Hframe : strlen frame = strlen cmd + strlen data + 9)
    by apply strlen_wire_frame.
  replace (strlen frame >=? COMM_TX_BUFFER_SIZE) with false
    by (unfold COMM_TX_BUFFER_SIZE; lia).
  rewrite (Z.mod_small (strlen frame)) by lia.
  reflexivity.
Qed.

Lemma take_snprintf_into buf s :
  (length s < length buf)%nat ->
  take (Z.to_nat (strlen s)) (snprintf_into buf s) = s.
Proof.
  intros Hlen. unfold snprintf_into, strlen. rewrite Nat2Z.id.
  rewrite (take_ge s) by lia.
  rewrite (take_ge (s ++ [0])) by (rewrite length_app; simpl; lia).
  rewrite <- app_assoc. apply take_app_length.
Qed.

(** C1. Round trip of the frame codec. For every command of at most 16
    bytes and data of at most 64 bytes holding none of [:], [#], [{], [}],
    [comm_build_frame] succeeds, and feeding every byte of the frame it
    produced to [comm_process_byte_in_interrupt], on a channel whose parser
    is idle with no frame pending, publishes a frame ([new_frame_available])
    that is valid and has the command, the data and the sequence number
    that were built. *)
Theorem frame_round_trip (sender receiver : comm_instance_t)
    (cmd data frame_buffer : list Z) (frame_length : Z) (clock : nat -> Z) :
  is_cstring cmd -> is_cstring data ->
  strlen cmd <= COMM_MAX_CMD_LENGTH ->
  strlen data <= COMM_MAX_DATA_LENGTH ->
  Forall plain_byte cmd -> Forall plain_byte data ->
  is_byte (current_sequence sender) ->
  length frame_buffer = Z.to_nat COMM_TX_BUFFER_SIZE ->
  parse_state receiver = FRAME_STATE_IDLE ->
  new_frame_available receiver = false ->
  length (rx_buffer receiver) = Z.to_nat COMM_RX_BUFFER_SIZE ->
  exists buffer len sender',
    comm_build_frame sender cmd data frame_buffer frame_length
    = (true, buffer, len, sender')
    /\ expected_ack_seq sender' = build_sequence sender
    /\ let after := receive_bytes clock 0 receiver (take (Z.to_nat len) buffer) in
       new_frame_available after = true
       /\ frame_is_valid (pending_frame after) = true
       /\ cstr (frame_cmd (pending_frame after)) = cmd
       /\ cstr (frame_data (pending_frame after)) = data
       /\ frame_sequence (pending_frame after) = build_sequence sender.
Proof.
  intros Hcmd Hdata Hlc Hld Hpc Hpd Hcur Hfb Hps Hflag Hrx.
  pose proof (comm_build_frame_ok sender cmd data frame_buffer frame_length
                Hlc Hld) as Hbuild.
  cbv zeta in Hbuild.
  set (seq := build_sequence sender) in *.
  set (body := frame_body cmd data seq) in *.
  set (crc := comm_crc8_calculate (Some body) (strlen body)) in *.
  eexists _, _, _. split; [exact Hbuild|]. split; [reflexivity|].
  assert (Hlen : strlen (wire_frame cmd data seq crc) = strlen cmd + strlen data + 9)
    by apply strlen_wire_frame.
  unfold COMM_MAX_CMD_LENGTH, COMM_MAX_DATA_LENGTH in Hlc, Hld.
  rewrite take_snprintf_into
    by (rewrite Hfb; unfold strlen, COMM_TX_BUFFER_SIZE in *; lia).
  assert (Hnc : Forall (fun b => b <> COMM_CMD_DATA_SEPARATOR) cmd)
    by (apply not_separator; [exact Hpc | left; reflexivity]).
  assert (Hnd : Forall (fun b => b <> COMM_FIELD_SEPARATOR) data)
    by (apply not_separator; [exact Hpd | right; reflexivity]).
  destruct (receive_wire_frame clock 0 receiver cmd data seq crc Hflag Hps
              ltac:(rewrite Hrx; unfold COMM_RX_BUFFER_SIZE; lia) Hcmd Hdata
              ltac:(unfold strlen in Hlc; lia) ltac:(unfold strlen in Hld; lia)
              Hnc Hnd (build_sequence_is_byte sender Hcur)
              (comm_crc8_calculate_is_byte _ _))
    as (_ & H2 & H3 & H4 & H5 & H6 & _).
  fold body in H2, H3. fold crc in H2, H3. rewrite Z.eqb_refl in H2, H3.
  cbv zeta. repeat split; assumption.
Qed.

Lemma frame_round_trip_witness :
  exists buffer len sender',
    comm_build_frame (fresh_channel 1) text_PING text_TEST (replicate 128 0) 0
    = (true, buffer, len, sender')
    /\ expected_ack_seq sender' = build_sequence (fresh_channel 1)
    /\ let after := receive_bytes (fun _ => 0) 0 (fresh_channel 2)
                      (take (Z.to_nat len) buffer) in
       new_frame_available after = true
       /\ frame_is_valid (pending_frame after) = true
       /\ cstr (frame_cmd (pending_frame after)) = text_PING
       /\ cstr (frame_data (pending_frame after)) = text_TEST
       /\ frame_sequence (pending_frame after) = build_sequence (fresh_channel 1).
Proof.
  apply (frame_round_trip (fresh_channel 1) (fresh_channel 2) text_PING text_TEST
           (replicate 128 0) 0 (fun _ => 0)).
  - repeat constructor.
  - repeat constructor.
  - vm_compute. discriminate.
  - vm_compute. discriminate.
  - repeat constructor; discriminate.
  - repeat constructor; discriminate.
  - unfold is_byte. simpl. lia.
  - reflexivity.
  - reflexivity.
  - reflexivity.
  - reflexivity.
Defined.

(** C3, as stated, fails: at the closing brace of [{A:#01#00}] the parser
    is in the CRC state and does not publish the frame. *)
Lemma bad_crc_frame_not_published :
  parse_state bad_crc_parser = FRAME_STATE_CRC
  /\ new_frame_available bad_crc_parser = false
  /\ ~ published_at_closing_brace 0 bad_crc_parser.
Proof.
  split; [reflexivity | split; [reflexivity|]].
  unfold published_at_closing_brace. intros [H _].
  vm_compute in H. discriminate H.
Qed.

(** C3, amended. For every frame whose closing brace arrives while the
    parser is in the CRC state, the [valid] field of the pending frame is
    the result of comparing the CRC8 of the rebuilt [CMD:DATA#SEQHEX]
    string with the received CRC, the frame is published
    ([new_frame_available] set) exactly when that comparison succeeds, and
    the parse state returns to IDLE with [rx_index] 0. *)
Theorem closing_brace_publishes_iff_crc_matches (now : Z)
    (instance : comm_instance_t) :
  new_frame_available instance = false ->
  parse_state instance = FRAME_STATE_CRC ->
  length (frame_cmd (pending_frame instance)) = 17%nat ->
  length (frame_data (pending_frame instance)) = 65%nat ->
  let received :=
    strtol16_u8 (cstr (store (rx_buffer instance) (rx_index instance) 0)) in
  let body :=
    frame_body (cstr (frame_cmd (pending_frame instance)))
      (cstr (frame_data (pending_frame instance)))
      (frame_sequence (pending_frame instance)) in
  let matches := comm_crc8_calculate (Some body) (strlen body) =? received in
  let after := comm_process_byte_in_interrupt now instance COMM_FRAME_END in
  frame_crc (pending_frame after) = received
  /\ frame_is_valid (pending_frame after) = matches
  /\ new_frame_available after = matches
  /\ parse_state after = FRAME_STATE_IDLE
  /\ rx_index after = 0.
Proof.
  intros Hflag Hps Hlc Hld received body matches after.
  destruct (receive_closing_brace now instance Hflag Hps) as (H1 & H2 & H3 & H4).
  fold received after in H1, H2, H3, H4.
  rewrite pending_crc_ok_compare in H3, H4 by (simpl; assumption).
  simpl in H3, H4. fold body in H3, H4. fold matches in H3, H4.
  rewrite H4. simpl. repeat split; assumption.
Qed.

Lemma closing_brace_publishes_iff_crc_matches_witness :
  new_frame_available bad_crc_parser = false
  /\ parse_state bad_crc_parser = FRAME_STATE_CRC
  /\ new_frame_available
       (comm_process_byte_in_interrupt 0 bad_crc_parser COMM_FRAME_END)
     = (comm_crc8_calculate
          (Some (frame_body
                   (cstr (frame_cmd (pending_frame bad_crc_parser)))
                   (cstr (frame_data (pending_frame bad_crc_parser)))
                   (frame_sequence (pending_frame bad_crc_parser))))
          (strlen (frame_body
                     (cstr (frame_cmd (pending_frame bad_crc_parser)))
                     (cstr (frame_data (pending_frame bad_crc_parser)))
                     (frame_sequence (pending_frame bad_crc_parser))))
        =? strtol16_u8
             (cstr (store (rx_buffer bad_crc_parser) (rx_index bad_crc_parser) 0))).
Proof.
  split; [reflexivity | split; [reflexivity|]].
  apply (closing_brace_publishes_iff_crc_matches 0 bad_crc_parser);
    reflexivity.
Defined.

(* ===================================================================== *)
(** ** The send / acknowledge / retry state machine *)
(* ===================================================================== *)

Ltac munfold :=
  unfold mbind, M_bind, mret, M_ret, emit, HAL_GetTick, HAL_UART_Transmit,
    HAL_UART_Transmit_IT, hal_call in *.

Lemma emitted_extends w w' evs : extends w w' evs -> emitted w w' = evs.
Proof.
  intros (_ & _ & E). unfold emitted. rewrite E. apply drop_app_length.
Qed.

Lemma set_state_same instance :
  set_state (state instance) instance = instance.
Proof. destruct instance; reflexivity. Qed.

Lemma set_state_id instance s : state instance = s -> set_state s instance = instance.
Proof. intros <-. apply set_state_same. Qed.

Lemma set_last_send_time_same instance :
  set_last_send_time (last_send_time instance) instance = instance.
Proof. destruct instance; reflexivity. Qed.

(** [comm_set_state] assigns the state and notifies the observer of a
    change. *)
Lemma comm_set_state_run instance new_state w :
  exists evs,
    comm_set_state instance new_state w
    = (set_state new_state instance,
       mk_world (w_tick w) (w_hal w) (w_trace w ++ evs))
    /\ List.filter is_fail evs = []
    /\ List.filter is_transmit evs = []
    /\ List.filter is_command evs = []
    /\ (state instance = new_state -> evs = []).
Proof.
  unfold comm_set_state.
  destruct (decide (state instance <> new_state)) as [Hne | Heq].
  - simpl. destruct (state_change_callback instance) as [cb|]; munfold; simpl.
    + eexists [_]. repeat split; try reflexivity. intros; contradiction.
    + exists []. rewrite app_nil_r. destruct w; repeat split; reflexivity.
  - apply dec_stable in Heq. exists []. munfold. rewrite app_nil_r.
    rewrite <- Heq, set_state_same. destruct w; repeat split; reflexivity.
Qed.

(** The frames the two control senders transmit. *)
Lemma control_frame_some name seq :
  length name = 3%nat ->
  control_frame name seq
  = Some (wire_frame name (hex2 seq) 0
            (comm_crc8_calculate
               (Some (frame_body name (hex2 seq) 0))
               (strlen (frame_body name (hex2 seq) 0)))).
Proof.
  intros Hlen. unfold control_frame.
  destruct name as [|a [|b [|c [|? ?]]]]; try discriminate Hlen.
  reflexivity.
Qed.

Lemma comm_send_ack_run instance seq w :
  exists sent,
    comm_send_ack instance seq w
    = (sent, mk_world (w_tick w) (w_hal w)
               (w_trace w ++ [EvTransmit (huart instance) (ack_frame seq) 500])).
Proof.
  unfold comm_send_ack. rewrite control_frame_some by reflexivity.
  munfold. eexists. reflexivity.
Qed.

Lemma strlen_nak_frame seq : strlen (nak_frame seq) = 14.
Proof. reflexivity. Qed.

Lemma comm_send_nak_run instance seq w :
  exists sent t,
    comm_send_nak instance seq w
    = (sent, set_last_send_time t instance,
       mk_world (w_tick w) (w_hal w)
         (w_trace w ++ [EvTransmit (huart instance) (nak_frame seq) 1000])).
Proof.
  unfold comm_send_nak. rewrite control_frame_some by reflexivity.
  fold (nak_frame seq). rewrite strlen_nak_frame.
  unfold comm_send_raw. munfold. simpl.
  destruct (decide (w_hal w (length (w_trace w)) = HAL_OK)).
  - eexists _, _. reflexivity.
  - exists false, (last_send_time instance).
    rewrite set_last_send_time_same. reflexivity.
Qed.

(** A timeout, or a NAK, with retries left: one more retry is counted and
    the frame in [tx_buffer] goes out again; the failure callback is not
    called. *)
Lemma comm_handle_timeout_retry instance w :
  retry_count instance < max_retry instance ->
  state instance = COMM_STATE_WAIT_ACK ->
  exists t evs,
    comm_handle_timeout instance w
    = (set_last_send_time t
         (set_retry_count ((retry_count instance + 1) mod 256) instance),
       mk_world (w_tick w) (w_hal w) (w_trace w ++ evs))
    /\ List.filter is_fail evs = []
    /\ List.filter is_command evs = [].
Proof.
  intros Hlt Hst. unfold comm_handle_timeout.
  replace (retry_count instance <? max_retry instance) with true by lia.
  set (i1 := set_retry_count _ instance).
  assert (Hst1 : state i1 = COMM_STATE_WAIT_ACK) by exact Hst.
  munfold. cbn [w_hal w_trace w_tick].
  destruct (decide (w_hal w (length (w_trace w)) = HAL_OK)) as [Hok | Hko].
  - destruct (comm_set_state_run i1 COMM_STATE_WAIT_ACK
                (mk_world (w_tick w) (w_hal w)
                   (w_trace w ++ [EvTransmitIT (huart i1)
                      (take (Z.to_nat (tx_length i1)) (tx_buffer i1))])))
      as (evs & Hrun & _ & _ & _ & Hnil).
    rewrite Hrun. rewrite (Hnil Hst1), app_nil_r.
    replace (set_state COMM_STATE_WAIT_ACK i1) with i1
      by (symmetry; apply set_state_id; exact Hst1).
    eexists _, [_]. split; [reflexivity|]. split; reflexivity.
  - unfold comm_send_raw. munfold. cbn [w_hal w_trace w_tick].
    destruct (tx_length i1 =? 0).
    + exists (last_send_time i1), [EvTransmitIT (huart i1)
                (take (Z.to_nat (tx_length i1)) (tx_buffer i1))].
      rewrite set_last_send_time_same. repeat split; reflexivity.
    + match goal with |- context [decide ?P] => destruct (decide P) end.
      * match goal with
        | |- context [comm_set_state ?i ?s ?w0] =>
            destruct (comm_set_state_run i s w0) as (evs & Hrun & _ & _ & _ & Hnil)
        end.
        rewrite Hrun. rewrite (Hnil Hst1), app_nil_r.
        match goal with
        | |- context [set_state COMM_STATE_WAIT_ACK ?i] =>
            replace (set_state COMM_STATE_WAIT_ACK i) with i
              by (symmetry; apply set_state_id; exact Hst1)
        end.
        cbn [w_hal w_trace w_tick].
        eexists _, _. split; [rewrite <- app_assoc; reflexivity|].
        split; reflexivity.
      * exists (last_send_time i1).
        rewrite set_last_send_time_same. cbn [w_hal w_trace w_tick].
        eexists. split; [rewrite <- app_assoc; reflexivity|].
        split; reflexivity.
Qed.

(** A timeout, or a NAK, with no retry left: the failure callback gets
    the retained command and data, the channel is idle again. *)
Lemma comm_handle_timeout_exhausted instance w :
  ~ retry_count instance < max_retry instance ->
  exists evs,
    comm_handle_timeout instance w
    = (set_retry_count 0 (set_state COMM_STATE_IDLE instance),
       mk_world (w_tick w) (w_hal w) (w_trace w ++ evs))
    /\ List.filter is_fail evs
       = match fail_callback instance with
         | Some callback =>
             [EvFail callback (cstr (current_cmd instance))
                (cstr (current_data instance)) retry_failed_reason]
         | None => []
         end
    /\ List.filter is_transmit evs = []
    /\ List.filter is_command evs = [].
Proof.
  intros Hge. unfold comm_handle_timeout.
  replace (retry_count instance <? max_retry instance) with false by lia.
  unfold comm_call_fail_callback. munfold. cbn [w_hal w_trace w_tick].
  destruct (fail_callback instance) as [cb|];
    cbn [w_hal w_trace w_tick];
    match goal with
    | |- context [comm_set_state ?i ?s ?w0] =>
        destruct (comm_set_state_run i s w0) as (evs & Hrun & Hf & Ht & Hc & _)
    end;
    rewrite Hrun; cbn [w_hal w_trace w_tick];
    eexists; (split; [rewrite <- !app_assoc; reflexivity|]);
    rewrite !List.filter_app, Hf, Ht, Hc; repeat split; reflexivity.
Qed.

(** Neither outcome touches what the receive path owns. *)
Lemma comm_handle_timeout_receive_fields instance w :
  let after := fst (comm_handle_timeout instance w) in
  rx_sequence after = rx_sequence instance
  /\ parse_state after = parse_state instance
  /\ new_frame_available after = new_frame_available instance
  /\ pending_frame after = pending_frame instance
  /\ frame_timeout after = frame_timeout instance.
Proof.
  destruct (Z.lt_ge_cases (retry_count instance) (max_retry instance)) as [Hlt|Hge].
  - unfold comm_handle_timeout.
    replace (retry_count instance <? max_retry instance) with true by lia.
    munfold. unfold comm_send_raw, comm_set_state. munfold.
    cbn [w_hal w_trace w_tick].
    repeat match goal with
           | |- context [decide ?P] => destruct (decide P)
           | |- context [if ?c then _ else _] => destruct c eqn:?
           | |- context [match state_change_callback ?i with _ => _ end] =>
               destruct (state_change_callback i)
           end; simpl; repeat split; reflexivity.
  - destruct (comm_handle_timeout_exhausted instance w ltac:(lia)) as (evs & Hrun & _).
    rewrite Hrun. simpl. repeat split; reflexivity.
Qed.

(* ===================================================================== *)
(** ** Handling a parsed frame *)
(* ===================================================================== *)

(** C6. When [comm_handle_complete_frame] processes a CRC-valid frame
    with command ["ACK"]: if the sequence number in its data (for the two
    hexadecimal digits of [s], as [comm_send_ack] writes them, that is [s])
    equals [expected_ack_seq] and the channel is in WAIT_ACK, the channel
    moves to IDLE and [retry_count] becomes 0 (no other field changes,
    nothing is transmitted or dispatched); in every other case the channel
    and the world are left as they were. *)
Theorem ack_frame_handling (instance : comm_instance_t) (frame : comm_frame_t)
    (w : World) :
  frame_is_valid frame = true ->
  cstr (frame_cmd frame) = COMM_CMD_ACK ->
  let ack_seq := strtol16_u8 (cstr (frame_data frame)) in
  let after := fst (comm_handle_complete_frame instance frame w) in
  let w' := snd (comm_handle_complete_frame instance frame w) in
  (ack_seq = expected_ack_seq instance /\ state instance = COMM_STATE_WAIT_ACK ->
   after = set_retry_count 0 (set_state COMM_STATE_IDLE instance)
   /\ state after = COMM_STATE_IDLE
   /\ retry_count after = 0
   /\ List.filter is_transmit (emitted w w') = []
   /\ List.filter is_command (emitted w w') = []
   /\ List.filter is_fail (emitted w w') = [])
  /\ (~ (ack_seq = expected_ack_seq instance
         /\ state instance = COMM_STATE_WAIT_ACK) ->
      after = instance /\ w' = w)
  /\ (forall s, is_byte s -> cstr (frame_data frame) = hex2 s -> ack_seq = s).
Proof.
  intros Hvalid Hcmd ack_seq after w'.
  apply and_assoc. split;
    [|intros s Hs Hdata; subst ack_seq; rewrite Hdata; apply hex2_facts, Hs].
  subst after w'.
  unfold comm_handle_complete_frame. rewrite Hvalid. cbn [negb].
  destruct (decide (cstr (frame_cmd frame) = COMM_CMD_ACK)) as [_|Hn];
    [|contradiction].
  fold ack_seq. split.
  - intros [Hseq Hst].
    replace (ack_seq =? expected_ack_seq instance) with true by lia.
    rewrite bool_decide_eq_true_2 by exact Hst. cbn [andb].
    munfold.
    destruct (comm_set_state_run instance COMM_STATE_IDLE w)
      as (evs & Hrun & Hf & Ht & Hc & _).
    rewrite Hrun. cbn [fst snd].
    rewrite (emitted_extends w _ evs) by (repeat split; reflexivity).
    repeat split; (assumption || reflexivity).
  - intros Hnot.
    destruct ((ack_seq =? expected_ack_seq instance)
              && bool_decide (state instance = COMM_STATE_WAIT_ACK)) eqn:Hc.
    + exfalso. apply Hnot. apply andb_prop in Hc as [H1 H2].
      apply bool_decide_eq_true_1 in H2. split; [lia | exact H2].
    + split; reflexivity.
Qed.

Lemma ack_frame_handling_witness :
  fst (comm_handle_complete_frame waiting_channel ack_for_seven (quiet_world 5))
  = set_retry_count 0 (set_state COMM_STATE_IDLE waiting_channel).
Proof.
  assert (Hv : frame_is_valid ack_for_seven = true) by reflexivity.
  assert (Hc : cstr (frame_cmd ack_for_seven) = COMM_CMD_ACK) by reflexivity.
  apply (ack_frame_handling waiting_channel ack_for_seven (quiet_world 5) Hv Hc).
  split; reflexivity.
Defined.

(** C4 fails on the code. The channel waits for the acknowledgement of 7
    and its receive baseline is 7 too, so the window does not accept 7; the
    valid data frame with sequence 7, its own frame looped back, does not
    reach the anti-loopback test and is answered with an ACK on the
    duplicate path. Looped back in turn, that ACK is taken for the
    acknowledgement of the peer and ends the wait. *)
Lemma loopback_frame_acknowledged :
  state waiting_channel = COMM_STATE_WAIT_ACK
  /\ data_frame looped_frame
  /\ frame_sequence looped_frame = expected_ack_seq waiting_channel
  /\ emitted (quiet_world 5)
       (snd (comm_handle_complete_frame waiting_channel looped_frame
               (quiet_world 5)))
     = [EvTransmit 1 (ack_frame 7) 500]
  /\ ~ silently_ignored waiting_channel looped_frame (quiet_world 5)
  /\ state
       (fst (comm_handle_complete_frame waiting_channel
               (pending_frame
                  (receive_bytes (fun _ => 0) 0 (fresh_channel 1) (ack_frame 7)))
               (quiet_world 5)))
     = COMM_STATE_IDLE.
Proof.
  split; [reflexivity|].
  split; [split; [reflexivity | split; vm_compute; discriminate]|].
  split; [reflexivity|].
  split; [vm_compute; reflexivity|].
  split; [|vm_compute; reflexivity].
  unfold silently_ignored. intros H.
  apply (f_equal (fun r => length (w_trace (snd r)))) in H.
  vm_compute in H. discriminate H.
Qed.

(** A data frame that carries the sequence number the channel awaits the
    acknowledgement of, whatever the receive window says of it. *)
Lemma comm_handle_complete_frame_awaited instance frame w :
  state instance = COMM_STATE_WAIT_ACK ->
  data_frame frame ->
  frame_sequence frame = expected_ack_seq instance ->
  let seq := frame_sequence frame in
  (comm_is_valid_rx_sequence instance seq = true
   /\ comm_handle_complete_frame instance frame w = (instance, w))
  \/ (comm_is_valid_rx_sequence instance seq = false
      /\ exists after e,
           comm_handle_complete_frame instance frame w
           = (after, mk_world (w_tick w) (w_hal w) (w_trace w ++ [e]))
           /\ is_transmit e = true
           /\ (after = instance
               \/ exists t, after = set_last_send_time t instance)).
Proof.
  intros Hst (Hvalid & Hack & Hnak) Hseq seq. subst seq.
  unfold comm_handle_complete_frame. rewrite Hvalid. cbn [negb].
  destruct (decide (cstr (frame_cmd frame) = COMM_CMD_ACK)); [contradiction|].
  destruct (decide (cstr (frame_cmd frame) = COMM_CMD_NAK)); [contradiction|].
  destruct (comm_is_valid_rx_sequence instance (frame_sequence frame)).
  - left. split; [reflexivity|].
    rewrite bool_decide_eq_true_2 by exact Hst.
    rewrite Hseq, Z.eqb_refl. reflexivity.
  - right. split; [reflexivity|].
    destruct (rx_sequence_diff instance (frame_sequence frame) =? 0); munfold.
    + destruct (comm_send_ack_run instance (frame_sequence frame) w) as (sent & ->).
      eexists _, _. split; [reflexivity|]. split; [reflexivity|]. left. reflexivity.
    + destruct (comm_send_nak_run instance (frame_sequence frame) w)
        as (sent & t & ->).
      eexists _, _. split; [reflexivity|]. split; [reflexivity|].
      right. exists t. reflexivity.
Qed.





(* ===================================================================== *)
(** ** Sending *)
(* ===================================================================== *)


(** From IDLE, with both strings shorter than their retained copies, the
    frame is built and handed to the transport; when the transport takes
    it the channel waits for the acknowledgement. *)
Lemma comm_send_command_on_accepted instance cmd data w :
  state instance = COMM_STATE_IDLE ->
  strlen cmd < COMM_MAX_CMD_LENGTH ->
  strlen data < COMM_MAX_DATA_LENGTH ->
  w_hal w (length (w_trace w)) = HAL_OK ->
  exists after evs,
    comm_send_command_on instance cmd data w
    = (true, after,
       mk_world (w_tick w) (w_hal w)
         (w_trace w
          ++ EvTransmit (huart instance)
               (take (Z.to_nat (strlen (sent_frame instance cmd data)))
                  (snprintf_into (tx_buffer instance)
                     (sent_frame instance cmd data))) 1000
          :: evs))
    /\ sent_from instance cmd data (w_tick w) after
    /\ expected_ack_seq after = fst (comm_get_next_tx_sequence instance)
    /\ List.filter is_fail evs = []
    /\ List.filter is_transmit evs = []
    /\ List.filter is_command evs = [].
Proof.
  intros Hidle Hc Hd Hok.
  unfold comm_send_command_on, comm_instance_is_ready.
  rewrite bool_decide_eq_true_2 by exact Hidle. cbn [negb].
  replace ((strlen cmd >=? COMM_MAX_CMD_LENGTH)
           || (strlen data >=? COMM_MAX_DATA_LENGTH)) with false
    by (symmetry; apply orb_false_iff; split; lia).
  rewrite comm_build_frame_ok by lia.
  cbn [negb]. munfold. cbn [w_hal w_trace w_tick].
  match goal with
  | |- context [EvTransmit (huart ?i) (take _ (tx_buffer ?i)) _] => set (i3 := i)
  end.
  assert (Hhuart : huart i3 = huart instance)
    by (subst i3; destruct (_ >? 0); reflexivity).
  assert (Hbuf : tx_buffer i3
                 = snprintf_into (tx_buffer instance) (sent_frame instance cmd data))
    by (subst i3; destruct (_ >? 0); reflexivity).
  rewrite Hhuart, Hbuf, Hok.
  destruct (decide (HAL_OK = HAL_OK)) as [_|]; [|contradiction].
  match goal with
  | |- context [comm_set_state ?i ?s ?w0] =>
      destruct (comm_set_state_run i s w0) as (evs & Hrun & Hf & Ht & Hcm & _)
  end.
  rewrite Hrun. cbn [w_hal w_trace w_tick].
  eexists _, evs. split; [rewrite <- app_assoc; reflexivity|].
  split; [|split; [|repeat split; assumption]].
  - subst i3. unfold sent_from, with_build_sequence.
    destruct (_ >? 0); simpl; repeat split; reflexivity.
  - subst i3. destruct (_ >? 0); reflexivity.
Qed.

(** [comm_send_command] on a handle that has a channel: the body runs on
    the instance, in place. *)
Lemma comm_send_command_found manager uart index instance cmd data w :
  comm_find_instance manager uart = Some index ->
  instances manager !! index = Some instance ->
  comm_send_command manager uart cmd data w
  = let '(sent, after, w') := comm_send_command_on instance cmd data w in
    (sent,
     mk_manager (<[index := after]> (instances manager)) (instance_count manager),
     w').
Proof.
  intros Hfind Hlook. unfold comm_send_command. rewrite Hfind, Hlook.
  munfold. destruct (comm_send_command_on instance cmd data w) as [[sent after] w'].
  reflexivity.
Qed.





(* ===================================================================== *)
(** ** The periodic tick *)
(* ===================================================================== *)

Ltac split_run :=
  match goal with
  | |- context [match ?e with _ => _ end] =>
      lazymatch type of e with
      | prod _ World => destruct e as [? ?] eqn:?
      end
  end.

Lemma comm_is_timeout_world instance w : snd (comm_is_timeout instance w) = w.
Proof.
  unfold comm_is_timeout.
  destruct (decide (state instance <> COMM_STATE_WAIT_ACK)); reflexivity.
Qed.

Lemma comm_is_frame_timeout_idle instance w :
  parse_state instance = FRAME_STATE_IDLE ->
  comm_is_frame_timeout instance w = (false, w).
Proof.
  intros Hps. unfold comm_is_frame_timeout.
  destruct (decide (parse_state instance = FRAME_STATE_IDLE)); [reflexivity|].
  contradiction.
Qed.

(** With the parser idle and no frame pending a tick is the check of the
    send timeout. *)
Lemma comm_tick_instance_no_frame instance w :
  parse_state instance = FRAME_STATE_IDLE ->
  new_frame_available instance = false ->
  comm_tick_instance instance w = tick_send_timeout instance w.
Proof.
  intros Hps Hflag. unfold comm_tick_instance, tick_send_timeout. munfold.
  destruct (comm_is_timeout instance w) as [timed_out w1].
  destruct timed_out.
  - pose proof (comm_handle_timeout_receive_fields instance w1)
      as (_ & Hps' & Hflag' & _).
    destruct (comm_handle_timeout instance w1) as [i1 w2]. simpl in Hps', Hflag'.
    cbv beta iota.
    rewrite comm_is_frame_timeout_idle by congruence.
    rewrite Hflag', Hflag. reflexivity.
  - cbv beta iota. rewrite comm_is_frame_timeout_idle by exact Hps.
    rewrite Hflag. reflexivity.
Qed.

Lemma tick_send_timeout_receive_fields instance w :
  let after := fst (tick_send_timeout instance w) in
  parse_state after = parse_state instance
  /\ new_frame_available after = new_frame_available instance
  /\ pending_frame after = pending_frame instance.
Proof.
  unfold tick_send_timeout. munfold.
  destruct (comm_is_timeout instance w) as [timed_out w1].
  destruct timed_out; [|repeat split; reflexivity].
  pose proof (comm_handle_timeout_receive_fields instance w1) as (_ & H1 & H2 & H3 & _).
  repeat split; assumption.
Qed.

(** After the body of the loop ran on an instance, its flag is clear. *)
Lemma comm_tick_instance_clears_flag instance w :
  new_frame_available (fst (comm_tick_instance instance w)) = false.
Proof.
  unfold comm_tick_instance. munfold.
  repeat split_run.
  match goal with
  | |- context [if new_frame_available ?i then _ else _] =>
      destruct (new_frame_available i) eqn:Hnew
  end.
  - split_run. reflexivity.
  - simpl. exact Hnew.
Qed.

(** The loop of [comm_tick] runs the body on each instance, in place. *)
Lemma comm_tick_loop_lookup todo : forall w index before,
  todo !! index = Some before ->
  exists w0, fst (comm_tick_loop todo w) !! index
             = Some (fst (comm_tick_instance before w0)).
Proof.
  induction todo as [|first rest IH]; intros w index before Hlook;
    [discriminate Hlook|].
  cbn [comm_tick_loop]. munfold.
  destruct (comm_tick_instance first w) as [first' w1] eqn:Hfirst.
  destruct (comm_tick_loop rest w1) as [rest' w2] eqn:Hrest.
  destruct index as [|index]; simpl in *.
  - injection Hlook as <-. exists w. rewrite Hfirst. reflexivity.
  - destruct (IH w1 index before Hlook) as (w0 & Hw0).
    rewrite Hrest in Hw0. exists w0. exact Hw0.
Qed.

Lemma comm_tick_lookup manager w index before :
  (index < Z.to_nat (instance_count manager))%nat ->
  instances manager !! index = Some before ->
  exists w0, instances (fst (comm_tick manager w)) !! index
             = Some (fst (comm_tick_instance before w0)).
Proof.
  intros Hidx Hlook. unfold comm_tick. munfold.
  assert (Htodo : take (Z.to_nat (instance_count manager)) (instances manager)
                  !! index = Some before)
    by (rewrite lookup_take_lt by exact Hidx; exact Hlook).
  destruct (comm_tick_loop_lookup _ w index before Htodo) as (w0 & Hw0).
  destruct (comm_tick_loop _ w) as [ticked w1]. cbn [fst instances] in *.
  exists w0. rewrite lookup_app_l; [exact Hw0|].
  apply lookup_lt_Some in Hw0. exact Hw0.
Qed.

Lemma comm_tick_loop_app first : forall rest w,
  comm_tick_loop (first ++ rest) w
  = let '(ticked1, w1) := comm_tick_loop first w in
    let '(ticked2, w2) := comm_tick_loop rest w1 in
    (ticked1 ++ ticked2, w2).
Proof.
  induction first as [|instance first IH]; intros rest w.
  - cbn [app comm_tick_loop]. munfold.
    destruct (comm_tick_loop rest w) as [ticked2 w2]. reflexivity.
  - cbn [app comm_tick_loop]. munfold.
    destruct (comm_tick_instance instance w) as [instance' w1].
    rewrite IH.
    destruct (comm_tick_loop first w1) as [ticked1 w2].
    destruct (comm_tick_loop rest w2) as [ticked2 w3]. reflexivity.
Qed.

Lemma comm_tick_loop_length todo : forall w,
  length (fst (comm_tick_loop todo w)) = length todo.
Proof.
  induction todo as [|instance todo IH]; intros w; [reflexivity|].
  cbn [comm_tick_loop]. munfold.
  destruct (comm_tick_instance instance w) as [instance' w1].
  specialize (IH w1). destruct (comm_tick_loop todo w1) as [ticked w2].
  simpl in *. rewrite IH. reflexivity.
Qed.

(** [comm_tick] at one slot: the loop has run over the slots before it,
    runs its body on the instance there, puts the result back in place and
    goes on with the slots after it. *)
Lemma comm_tick_slot manager w index before :
  (index < Z.to_nat (instance_count manager))%nat ->
  instances manager !! index = Some before ->
  let todo := take (Z.to_nat (instance_count manager)) (instances manager) in
  let w0 := snd (comm_tick_loop (take index (instances manager)) w) in
  instances (fst (comm_tick manager w)) !! index
  = Some (fst (comm_tick_instance before w0))
  /\ snd (comm_tick manager w)
     = snd (comm_tick_loop (drop (S index) todo)
              (snd (comm_tick_instance before w0))).
Proof.
  intros Hidx Hlook todo w0.
  assert (Htodo : todo !! index = Some before)
    by (unfold todo; rewrite lookup_take_lt by exact Hidx; exact Hlook).
  assert (Hsplit : todo = take index (instances manager)
                          ++ before :: drop (S index) todo).
  { rewrite <- (take_drop_middle todo index before Htodo) at 1.
    unfold todo. rewrite take_take. f_equal. f_equal. lia. }
  unfold comm_tick. munfold. fold todo.
  set (rest := drop (S index) todo) in *. clearbody rest.
  rewrite Hsplit. rewrite comm_tick_loop_app.
  pose proof (comm_tick_loop_length (take index (instances manager)) w) as Hlen.
  subst w0.
  destruct (comm_tick_loop (take index (instances manager)) w) as [ticked1 w1].
  cbn [fst snd] in *. cbn [comm_tick_loop]. munfold.
  destruct (comm_tick_instance before w1) as [after w2]. cbn [fst snd].
  destruct (comm_tick_loop rest w2) as [ticked2 w3].
  cbn [fst snd instances].
  split; [|reflexivity].
  assert (Hlen' : length ticked1 = index)
    by (rewrite Hlen, length_take; apply lookup_lt_Some in Hlook; lia).
  rewrite <- app_assoc. rewrite lookup_app_r by lia.
  replace (index - length ticked1)%nat with 0%nat by lia. reflexivity.
Qed.

(** With a frame published and the parser idle, the body of the loop is
    the send timeout, the hand-over of the frame, and the release of the
    slot. *)
Lemma comm_tick_instance_pending instance w :
  new_frame_available instance = true ->
  parse_state instance = FRAME_STATE_IDLE ->
  comm_tick_instance instance w
  = let '(i1, w1) := tick_send_timeout instance w in
    let '(i2, w2) :=
      comm_handle_complete_frame i1 (pending_frame instance) w1 in
    (set_pending_frame frame_zero (set_new_frame_available false i2), w2).
Proof.
  intros Hflag Hps.
  pose proof (tick_send_timeout_receive_fields instance w) as (H1 & H2 & H3).
  unfold comm_tick_instance. unfold tick_send_timeout in *. munfold.
  destruct (comm_is_timeout instance w) as [timed_out w1].
  destruct timed_out.
  - destruct (comm_handle_timeout instance w1) as [i1 w2].
    simpl in H1, H2, H3. cbv beta iota.
    rewrite comm_is_frame_timeout_idle by congruence.
    rewrite H2, Hflag, H3. reflexivity.
  - cbv beta iota. rewrite comm_is_frame_timeout_idle by exact Hps.
    rewrite Hflag. reflexivity.
Qed.

(** Handling a frame leaves the parse state alone. *)
Lemma comm_handle_complete_frame_parse_state instance frame w :
  parse_state (fst (comm_handle_complete_frame instance frame w))
  = parse_state instance.
Proof.
  unfold comm_handle_complete_frame.
  destruct (negb (frame_is_valid frame)); [reflexivity|].
  destruct (decide (cstr (frame_cmd frame) = COMM_CMD_ACK)).
  { destruct (_ && _); [|reflexivity]. munfold.
    destruct (comm_set_state_run instance COMM_STATE_IDLE w) as (evs & -> & _).
    reflexivity. }
  destruct (decide (cstr (frame_cmd frame) = COMM_CMD_NAK)).
  { destruct (_ && _); [|reflexivity].
    apply (comm_handle_timeout_receive_fields instance w). }
  destruct (comm_is_valid_rx_sequence instance (frame_sequence frame)).
  { destruct (_ && _); [reflexivity|]. munfold.
    repeat split_run. reflexivity. }
  destruct (rx_sequence_diff instance (frame_sequence frame) =? 0); munfold.
  - split_run. reflexivity.
  - destruct (comm_send_nak_run instance (frame_sequence frame) w)
      as (sent & t & ->). reflexivity.
Qed.

(** C10. While the [new_frame_available] flag of a channel is set,
    [comm_process_byte_in_interrupt] discards every incoming byte, whatever
    it is, and leaves every field of the instance as it was; this lasts
    until [comm_tick] runs. [comm_tick], when its loop reaches the slot of
    the channel, checks the send timeout, hands the pending frame to
    [comm_handle_complete_frame], clears the flag and zeroes the frame, and
    puts the instance so handled back into the slot, the events of the
    handling going into the world the rest of the loop starts from; the
    next opening brace then starts a frame again. (The parser is idle
    whenever it has set the flag.) *)
Theorem pending_frame_blocks_parser (instance : comm_instance_t) :
  new_frame_available instance = true ->
  (forall now byte, comm_process_byte_in_interrupt now instance byte = instance)
  /\ (forall clock k bytes, receive_bytes clock k instance bytes = instance)
  /\ (forall w, new_frame_available (fst (comm_tick_instance instance w)) = false)
  /\ (forall w,
        parse_state instance = FRAME_STATE_IDLE ->
        comm_tick_instance instance w
        = let '(i1, w1) := tick_send_timeout instance w in
          let '(i2, w2) :=
            comm_handle_complete_frame i1 (pending_frame instance) w1 in
          (set_pending_frame frame_zero (set_new_frame_available false i2), w2))
  /\ (forall manager index w,
        (index < Z.to_nat (instance_count manager))%nat ->
        instances manager !! index = Some instance ->
        exists after,
          instances (fst (comm_tick manager w)) !! index = Some after
          /\ new_frame_available after = false)
  /\ (forall manager index w,
        (index < Z.to_nat (instance_count manager))%nat ->
        instances manager !! index = Some instance ->
        parse_state instance = FRAME_STATE_IDLE ->
        let w0 := snd (comm_tick_loop (take index (instances manager)) w) in
        let '(i1, w1) := tick_send_timeout instance w0 in
        let '(i2, w2) :=
          comm_handle_complete_frame i1 (pending_frame instance) w1 in
        instances (fst (comm_tick manager w)) !! index
        = Some (set_pending_frame frame_zero (set_new_frame_available false i2))
        /\ snd (comm_tick manager w)
           = snd (comm_tick_loop
                    (drop (S index)
                       (take (Z.to_nat (instance_count manager))
                          (instances manager))) w2))
  /\ (forall w,
        parse_state instance = FRAME_STATE_IDLE ->
        let '(i1, w1) := tick_send_timeout instance w in
        let '(i2, w2) :=
          comm_handle_complete_frame i1 (pending_frame instance) w1 in
        comm_tick (one_channel instance) w
        = (one_channel
             (set_pending_frame frame_zero (set_new_frame_available false i2)),
           w2))
  /\ (forall w now,
        parse_state instance = FRAME_STATE_IDLE ->
        (3 <= length (rx_buffer instance))%nat ->
        parse_state
          (comm_process_byte_in_interrupt now
             (fst (comm_tick_instance instance w)) COMM_FRAME_START)
        = FRAME_STATE_CMD)
  /\ (forall now before byte,
        new_frame_available before = false ->
        comm_process_byte_in_interrupt now before byte = instance ->
        parse_state instance = FRAME_STATE_IDLE).
Proof.
  intros Hflag.
  assert (Hbyte : forall now byte,
             comm_process_byte_in_interrupt now instance byte = instance).
  { intros now byte. unfold comm_process_byte_in_interrupt.
    rewrite Hflag. reflexivity. }
  split; [exact Hbyte|].
  split; [|split; [|split; [|split; [|split; [|split; [|split]]]]]].
  - intros clock k bytes. revert k.
    induction bytes as [|b bytes IH]; intros k; simpl; [reflexivity|].
    rewrite Hbyte. apply IH.
  - intros w. apply comm_tick_instance_clears_flag.
  - intros w Hps. apply comm_tick_instance_pending; assumption.
  - intros manager index w Hidx Hlook.
    destruct (comm_tick_lookup manager w index instance Hidx Hlook) as (w0 & Hw0).
    eexists. split; [exact Hw0 | apply comm_tick_instance_clears_flag].
  - intros manager index w Hidx Hlook Hps w0.
    destruct (comm_tick_slot manager w index instance Hidx Hlook) as [Hslot Hworld].
    fold w0 in Hslot, Hworld.
    rewrite (comm_tick_instance_pending instance w0 Hflag Hps) in Hslot, Hworld.
    destruct (tick_send_timeout instance w0) as [i1 w1].
    destruct (comm_handle_complete_frame i1 (pending_frame instance) w1) as [i2 w2].
    split; [exact Hslot | exact Hworld].
  - intros w Hps.
    pose proof (comm_tick_instance_pending instance w Hflag Hps) as Hrun.
    destruct (tick_send_timeout instance w) as [i1 w1].
    destruct (comm_handle_complete_frame i1 (pending_frame instance) w1) as [i2 w2].
    unfold comm_tick, one_channel. munfold.
    cbn [instance_count instances].
    change (Z.to_nat 1) with 1%nat.
    cbn [take drop comm_tick_loop app]. munfold.
    rewrite Hrun. reflexivity.
  - intros w now Hps Hrx.
    rewrite (comm_tick_instance_pending instance w Hflag Hps).
    pose proof (tick_send_timeout_receive_fields instance w) as (Hps1 & _).
    cbv zeta in Hps1.
    destruct (tick_send_timeout instance w) as [i1 w1]. cbn [fst] in Hps1.
    pose proof (comm_handle_complete_frame_parse_state i1 (pending_frame instance) w1)
      as Hps2.
    destruct (comm_handle_complete_frame i1 (pending_frame instance) w1) as [i2 w2].
    cbn [fst] in Hps2 |- *.
    unfold comm_process_byte_in_interrupt.
    cbn [new_frame_available set_pending_frame set_new_frame_available parse_state].
    rewrite Hps2, Hps1, Hps. rewrite Z.eqb_refl. reflexivity.
  - intros now before byte Hclear Hstep. subst instance.
    unfold comm_process_byte_in_interrupt in *. rewrite Hclear in *.
    destruct (parse_state before) eqn:Hps;
      repeat match type of Hflag with
             | context [if ?c then _ else _] => destruct c
             end;
      simpl in Hflag |- *; congruence.
Qed.

Lemma pending_frame_blocks_parser_witness :
  comm_process_byte_in_interrupt 0
    (set_new_frame_available true (fresh_channel 1)) COMM_FRAME_START
  = set_new_frame_available true (fresh_channel 1).
Proof.
  apply (pending_frame_blocks_parser
           (set_new_frame_available true (fresh_channel 1))).
  reflexivity.
Defined.

Lemma emitted_app w evs :
  emitted w (mk_world (w_tick w) (w_hal w) (w_trace w ++ evs)) = evs.
Proof. apply emitted_extends. repeat split; reflexivity. Qed.

(** A retry puts the stored frame on the wire again: first through the
    interrupt-driven transmit and, when that is refused, through the
    blocking one. *)
Lemma comm_handle_timeout_retransmits instance w :
  retry_count instance < max_retry instance ->
  let frame := take (Z.to_nat (tx_length instance)) (tx_buffer instance) in
  let after := fst (comm_handle_timeout instance w) in
  let w' := snd (comm_handle_timeout instance w) in
  List.filter is_transmit (emitted w w')
  = EvTransmitIT (huart instance) frame
    :: (if decide (w_hal w (length (w_trace w)) = HAL_OK) then []
        else if tx_length instance =? 0 then []
             else [EvTransmit (huart instance) frame 1000])
  /\ List.filter is_command (emitted w w') = []
  /\ List.filter is_fail (emitted w w') = []
  /\ retry_count after = (retry_count instance + 1) mod 256
  /\ expected_ack_seq after = expected_ack_seq instance
  /\ current_sequence after = current_sequence instance
  /\ tx_sequence after = tx_sequence instance
  /\ tx_buffer after = tx_buffer instance
  /\ tx_length after = tx_length instance.
Proof.
  intros Hlt frame after w'. subst frame after w'.
  unfold comm_handle_timeout.
  replace (retry_count instance <? max_retry instance) with true by lia.
  munfold. unfold comm_send_raw, comm_set_state. munfold.
  cbn [w_hal w_trace w_tick huart tx_length tx_buffer set_retry_count].
  destruct (decide (w_hal w (length (w_trace w)) = HAL_OK)) as [Hok|Hko].
  - repeat match goal with
           | |- context [decide ?P] => destruct (decide P)
           | |- context [match state_change_callback ?i with _ => _ end] =>
               destruct (state_change_callback i)
           end;
      cbn [fst snd w_trace w_tick w_hal]; rewrite <- ?app_assoc, emitted_app;
      repeat split; reflexivity.
  - destruct (tx_length instance =? 0) eqn:Hlen;
      repeat match goal with
             | |- context [decide ?P] => destruct (decide P)
             | |- context [match state_change_callback ?i with _ => _ end] =>
                 destruct (state_change_callback i)
             end;
      cbn [fst snd w_trace w_tick w_hal]; rewrite <- ?app_assoc, emitted_app;
      repeat split; reflexivity.
Qed.

(** What [comm_send_command] does to the instance once the checks have
    passed, whether the transport takes the frame or not. *)
Lemma comm_send_command_on_run instance cmd data w :
  state instance = COMM_STATE_IDLE ->
  strlen cmd < COMM_MAX_CMD_LENGTH ->
  strlen data < COMM_MAX_DATA_LENGTH ->
  let seq := fst (comm_get_next_tx_sequence instance) in
  let frame := sent_frame instance cmd data in
  let taken := bool_decide (w_hal w (length (w_trace w)) = HAL_OK) in
  exists after evs,
    comm_send_command_on instance cmd data w
    = (taken, after,
       mk_world (w_tick w) (w_hal w)
         (w_trace w
          ++ EvTransmit (huart instance)
               (take (Z.to_nat (strlen frame))
                  (snprintf_into (tx_buffer instance) frame)) 1000
          :: evs))
    /\ List.filter is_transmit evs = []
    /\ List.filter is_command evs = []
    /\ List.filter is_fail evs = []
    /\ (taken = false -> evs = [])
    /\ state after = (if taken then COMM_STATE_WAIT_ACK else COMM_STATE_IDLE)
    /\ (taken = true -> last_send_time after = w_tick w)
    /\ tx_buffer after = snprintf_into (tx_buffer instance) frame
    /\ tx_length after = strlen frame
    /\ tx_sequence after = seq
    /\ expected_ack_seq after = seq
    /\ current_sequence after = seq
    /\ retry_count after = 0
    /\ huart after = huart instance
    /\ max_retry after = max_retry instance
    /\ new_frame_available after = new_frame_available instance
    /\ parse_state after = parse_state instance
    /\ pending_frame after
       = (if strlen (cstr (frame_cmd (pending_frame instance))) >? 0
          then frame_zero else pending_frame instance)
    /\ rx_sequence after = rx_sequence instance.
Proof.
  intros Hidle Hc Hd seq frame taken. subst seq frame taken.
  unfold comm_send_command_on, comm_instance_is_ready.
  rewrite bool_decide_eq_true_2 by exact Hidle. cbn [negb].
  replace ((strlen cmd >=? COMM_MAX_CMD_LENGTH)
           || (strlen data >=? COMM_MAX_DATA_LENGTH)) with false
    by (symmetry; apply orb_false_iff; split; lia).
  rewrite comm_build_frame_ok by lia.
  cbn [negb]. munfold. cbn [w_hal w_trace w_tick].
  match goal with
  | |- context [EvTransmit (huart ?i) (take _ (tx_buffer ?i)) _] => set (i3 := i)
  end.
  assert (Hfields :
    huart i3 = huart instance
    /\ tx_buffer i3 = snprintf_into (tx_buffer instance) (sent_frame instance cmd data)
    /\ state i3 = COMM_STATE_IDLE
    /\ tx_length i3 = strlen (sent_frame instance cmd data)
    /\ tx_sequence i3 = fst (comm_get_next_tx_sequence instance)
    /\ expected_ack_seq i3 = fst (comm_get_next_tx_sequence instance)
    /\ current_sequence i3 = fst (comm_get_next_tx_sequence instance)
    /\ retry_count i3 = 0
    /\ max_retry i3 = max_retry instance
    /\ new_frame_available i3 = new_frame_available instance
    /\ parse_state i3 = parse_state instance
    /\ pending_frame i3
       = (if strlen (cstr (frame_cmd (pending_frame instance))) >? 0
          then frame_zero else pending_frame instance)
    /\ rx_sequence i3 = rx_sequence instance).
  { subst i3. unfold with_build_sequence. simpl.
    destruct (_ >? 0); simpl; repeat split; try reflexivity; exact Hidle. }
  destruct Hfields as (Hhuart & Hbuf & Hst & Hlen & Htx & Hexp & Hcur & Hretry
                       & Hmax & Hflag & Hps & Hpf & Hrs).
  rewrite Hhuart, Hbuf.
  destruct (decide (w_hal w (length (w_trace w)) = HAL_OK)) as [Hok|Hko].
  - rewrite bool_decide_eq_true_2 by exact Hok.
    match goal with
    | |- context [comm_set_state ?i ?s ?w0] =>
        destruct (comm_set_state_run i s w0) as (evs & Hrun & Hf & Ht & Hcm & _)
    end.
    rewrite Hrun. cbn [w_hal w_trace w_tick].
    eexists _, evs. split; [rewrite <- app_assoc; reflexivity|].
    cbn. rewrite <- Hbuf.
    repeat split; try assumption; try reflexivity; discriminate.
  - rewrite bool_decide_eq_false_2 by exact Hko.
    eexists i3, []. rewrite <- Hbuf.
    repeat split; try assumption; try reflexivity; discriminate.
Qed.

(* ===================================================================== *)
(** ** Retry exhaustion *)
(* ===================================================================== *)

Lemma replicate_nul_end n : replicate n 0 ++ [0] = 0 :: replicate n 0.
Proof. induction n as [|n IH]; simpl; [reflexivity | rewrite IH; reflexivity]. Qed.

(** The retained copy reads back as the string that was sent. *)
Lemma cstr_strncpy_term n s :
  is_cstring s -> (length s <= n)%nat -> cstr (strncpy_term n s) = s.
Proof.
  intros Hs Hlen. unfold strncpy_term.
  rewrite take_ge by exact Hlen. rewrite replicate_nul_end.
  apply cstr_app_nul. exact Hs.
Qed.

Lemma sent_from_awaiting_ack before cmd data now after callback :
  sent_from before cmd data now after ->
  max_retry before = 3 ->
  fail_callback before = Some callback ->
  parse_state before = FRAME_STATE_IDLE ->
  new_frame_available before = false ->
  is_cstring cmd -> is_cstring data ->
  strlen cmd < COMM_MAX_CMD_LENGTH -> strlen data < COMM_MAX_DATA_LENGTH ->
  awaiting_ack 0 callback cmd data after.
Proof.
  intros (H1 & H2 & H3 & H4 & H5 & H6 & H7 & H8 & H9 & H10 & H11 & H12 & H13 & H14)
    Hmax Hcb Hps Hflag Hcmd Hdata Hlc Hld.
  unfold COMM_MAX_CMD_LENGTH, COMM_MAX_DATA_LENGTH, strlen in *.
  unfold awaiting_ack. rewrite H4, H5.
  rewrite !cstr_strncpy_term by (assumption || lia).
  repeat split; congruence.
Qed.

(** A timeout with retries left. *)
Lemma expire_retry t rest instance w retries callback cmd data final w2 :
  awaiting_ack retries callback cmd data instance ->
  0 <= retries < 3 ->
  expire (t :: rest) instance w = Some (final, w2) ->
  exists after evs,
    awaiting_ack (retries + 1) callback cmd data after
    /\ List.filter is_fail evs = []
    /\ expire rest after (mk_world t (w_hal w) (w_trace w ++ evs))
       = Some (final, w2).
Proof.
  intros (Hst & Hrc & Hmax & Hcb & Hcmd & Hdata & Hps & Hflag) Hk Hexp.
  cbn [expire] in Hexp.
  pose proof (comm_is_timeout_world instance (at_tick t w)) as Hw.
  destruct (comm_is_timeout instance (at_tick t w)) as [timed_out w1] eqn:Hto.
  simpl in Hw. subst w1. cbn [fst] in Hexp.
  destruct timed_out; [|discriminate Hexp].
  rewrite comm_tick_instance_no_frame in Hexp by assumption.
  unfold tick_send_timeout in Hexp. munfold. rewrite Hto in Hexp.
  destruct (comm_handle_timeout_retry instance (at_tick t w)
              ltac:(lia) Hst) as (t' & evs & Hrun & Hf & _).
  rewrite Hrun in Hexp. cbn [at_tick w_tick w_hal w_trace] in Hexp.
  eexists _, evs. split; [|split; [exact Hf | exact Hexp]].
  unfold awaiting_ack. simpl.
  rewrite Hrc, Z.mod_small by lia.
  repeat split; assumption || reflexivity.
Qed.

(** A timeout with no retry left. *)
Lemma expire_exhausted t instance w callback cmd data final w2 :
  awaiting_ack 3 callback cmd data instance ->
  expire [t] instance w = Some (final, w2) ->
  final = set_retry_count 0 (set_state COMM_STATE_IDLE instance)
  /\ exists evs,
       w2 = mk_world t (w_hal w) (w_trace w ++ evs)
       /\ List.filter is_fail evs
          = [EvFail callback cmd data retry_failed_reason].
Proof.
  intros (Hst & Hrc & Hmax & Hcb & Hcmd & Hdata & Hps & Hflag) Hexp.
  cbn [expire] in Hexp.
  pose proof (comm_is_timeout_world instance (at_tick t w)) as Hw.
  destruct (comm_is_timeout instance (at_tick t w)) as [timed_out w1] eqn:Hto.
  simpl in Hw. subst w1. cbn [fst] in Hexp.
  destruct timed_out; [|discriminate Hexp].
  rewrite comm_tick_instance_no_frame in Hexp by assumption.
  unfold tick_send_timeout in Hexp. munfold. rewrite Hto in Hexp.
  destruct (comm_handle_timeout_exhausted instance (at_tick t w)
              ltac:(lia)) as (evs & Hrun & Hf & _).
  rewrite Hrun in Hexp. cbn [at_tick w_tick w_hal w_trace] in Hexp.
  injection Hexp as <- <-.
  split; [reflexivity|]. exists evs. split; [reflexivity|].
  rewrite Hf, Hcb, Hcmd, Hdata. reflexivity.
Qed.

(** C2, as stated, fails: with [max_retry = 3], after the send of
    [PING:TEST] at tick 0 the timeouts at ticks 1000, 2000 and 3000 are
    the three retries; the channel still waits, with three retries
    counted, and the failure callback was not called. *)
Lemma three_timeouts_do_not_exhaust :
  max_retry monitored_channel = 3
  /\ (exists waiting w1 final w2,
        comm_send_command_on monitored_channel text_PING text_TEST (quiet_world 0)
        = (true, waiting, w1)
        /\ expire [1000; 2000; 3000] waiting w1 = Some (final, w2)
        /\ state final = COMM_STATE_WAIT_ACK
        /\ retry_count final = 3
        /\ List.filter is_fail (emitted (quiet_world 0) w2) = [])
  /\ ~ retry_exhaustion 3 monitored_channel text_PING text_TEST (quiet_world 0)
         [1000; 2000; 3000].
Proof.
  split; [reflexivity|]. split.
  - eexists _, _, _, _.
    split; [vm_compute; reflexivity|].
    split; [vm_compute; reflexivity|].
    repeat split; reflexivity.
  - intros (_ & cb & waiting & w1 & final & w2 & _ & Hsend & Hexp & _ & Hst & _).
    vm_compute in Hsend. injection Hsend as <- <-.
    vm_compute in Hexp. injection Hexp as <- <-.
    discriminate Hst.
Qed.

(** Four timeouts after a send: one call of the failure callback, and the
    channel is idle again and takes the next send. *)
Lemma four_timeouts_fail_once (instance : comm_instance_t)
    (cmd data : list Z) (w : World) (ticks : list Z)
    (callback : comm_fail_callback_t) (final : comm_instance_t) (w2 : World) :
  state instance = COMM_STATE_IDLE ->
  max_retry instance = 3 ->
  fail_callback instance = Some callback ->
  parse_state instance = FRAME_STATE_IDLE ->
  new_frame_available instance = false ->
  is_cstring cmd -> is_cstring data ->
  strlen cmd < COMM_MAX_CMD_LENGTH -> strlen data < COMM_MAX_DATA_LENGTH ->
  w_hal w (length (w_trace w)) = HAL_OK ->
  length ticks = 4%nat ->
  expire ticks (snd (fst (comm_send_command_on instance cmd data w)))
    (snd (comm_send_command_on instance cmd data w)) = Some (final, w2) ->
  retry_exhaustion 4 instance cmd data w ticks.
Proof.
  intros Hidle Hmax Hcb Hps Hflag Hcmd Hdata Hlc Hld Hok Hlen Hexp.
  destruct (comm_send_command_on_accepted instance cmd data w Hidle Hlc Hld Hok)
    as (waiting & evs0 & Hsend & Hsent & _ & Hf0 & _).
  rewrite Hsend in Hexp. cbn [fst snd] in Hexp.
  pose proof (sent_from_awaiting_ack instance cmd data (w_tick w) waiting callback
                Hsent Hmax Hcb Hps Hflag Hcmd Hdata Hlc Hld) as Hwait.
  destruct ticks as [|t1 [|t2 [|t3 [|t4 [|? ?]]]]]; try discriminate Hlen.
  destruct (expire_retry _ _ _ _ 0 callback cmd data final w2 Hwait ltac:(lia) Hexp)
    as (i1 & evs1 & Hwait1 & Hf1 & Hexp1).
  destruct (expire_retry _ _ _ _ 1 callback cmd data final w2 Hwait1 ltac:(lia) Hexp1)
    as (i2 & evs2 & Hwait2 & Hf2 & Hexp2).
  destruct (expire_retry _ _ _ _ 2 callback cmd data final w2 Hwait2 ltac:(lia) Hexp2)
    as (i3 & evs3 & Hwait3 & Hf3 & Hexp3).
  destruct (expire_exhausted _ _ _ callback cmd data final w2 Hwait3 Hexp3)
    as (Hfinal & evs4 & Hw2 & Hf4).
  cbn [w_hal w_trace] in Hw2.
  split; [reflexivity|].
  eexists callback, waiting, _, final, w2.
  split; [exact Hcb|]. split; [exact Hsend|]. split; [exact Hexp|].
  split.
  { unfold emitted. rewrite Hw2. cbn [w_trace].
    rewrite <- !app_assoc. rewrite drop_app_length.
    rewrite !List.filter_app. cbn [List.filter is_fail].
    rewrite Hf0, Hf1, Hf2, Hf3, Hf4. reflexivity. }
  assert (Hfidle : state final = COMM_STATE_IDLE) by (rewrite Hfinal; reflexivity).
  split; [exact Hfidle|]. split; [rewrite Hfinal; reflexivity|].
  intros w3 Hok3.
  destruct (comm_send_command_on_accepted final cmd data w3 Hfidle Hlc Hld Hok3)
    as (again & evs' & Hagain & _).
  rewrite Hagain. reflexivity.
Qed.

(** A timeout with retries left, seen from the wire. *)
Lemma expire_retransmits t rest instance w retries callback cmd data final w2
    uart bytes :
  awaiting_ack retries callback cmd data instance ->
  0 <= retries < 3 ->
  huart instance = uart ->
  take (Z.to_nat (tx_length instance)) (tx_buffer instance) = bytes ->
  tx_length instance <> 0 ->
  expire (t :: rest) instance w = Some (final, w2) ->
  exists after w',
    retransmission (retries + 1) uart bytes instance (at_tick t w) after w'
    /\ awaiting_ack (retries + 1) callback cmd data after
    /\ huart after = uart
    /\ take (Z.to_nat (tx_length after)) (tx_buffer after) = bytes
    /\ tx_length after <> 0
    /\ expire rest after w' = Some (final, w2).
Proof.
  intros Hwait Hk Hhu Hbytes Hlen Hexp.
  pose proof Hwait as (Hst & Hrc & Hmax & Hcb & Hcmd & Hdata & Hps & Hflag).
  cbn [expire] in Hexp.
  pose proof (comm_is_timeout_world instance (at_tick t w)) as Hw.
  destruct (comm_is_timeout instance (at_tick t w)) as [timed_out w1] eqn:Hto.
  simpl in Hw. subst w1. cbn [fst] in Hexp.
  destruct timed_out; [|discriminate Hexp].
  assert (Hlt : retry_count instance < max_retry instance) by lia.
  pose proof (comm_handle_timeout_retransmits instance (at_tick t w) Hlt)
    as (Htr & _ & Hfail & Hrc1 & _ & _ & _ & Htb & Htl).
  destruct (comm_handle_timeout_retry instance (at_tick t w) Hlt Hst)
    as (t' & evs & Hrun & _).
  assert (Htick : comm_tick_instance instance (at_tick t w)
                  = comm_handle_timeout instance (at_tick t w)).
  { rewrite comm_tick_instance_no_frame by assumption.
    unfold tick_send_timeout. munfold. rewrite Hto. reflexivity. }
  rewrite Htick in Hexp.
  destruct (comm_handle_timeout instance (at_tick t w)) as [after w'] eqn:Hrun'.
  cbn [fst snd] in Htr, Hfail, Hrc1, Htb, Htl.
  injection Hrun as Hafter Hw'.
  exists after, w'.
  assert (Hnext : awaiting_ack (retries + 1) callback cmd data after).
  { rewrite Hafter. unfold awaiting_ack. simpl.
    rewrite Hrc, Z.mod_small by lia.
    repeat split; assumption || reflexivity. }
  split; [|split; [exact Hnext|]].
  - unfold retransmission. rewrite Htick.
    split; [reflexivity|]. split; [lia|].
    split; [apply Hnext|]. split; [apply Hnext|].
    split; [|exact Hfail].
    rewrite Htr, Hhu, Hbytes.
    destruct (decide (w_hal (at_tick t w) (length (w_trace (at_tick t w))) = HAL_OK));
      [reflexivity|].
    destruct (Z.eqb_spec (tx_length instance) 0); [contradiction | reflexivity].
  - rewrite Hafter in *. cbn [huart tx_length tx_buffer set_last_send_time
                             set_retry_count] in *.
    repeat split; assumption.
Qed.

(** The timeout that finds the retries used up, seen from the wire. *)
Lemma expire_gives_up t instance w callback cmd data final w2 :
  awaiting_ack 3 callback cmd data instance ->
  expire [t] instance w = Some (final, w2) ->
  retry_count instance = max_retry instance
  /\ comm_tick_instance instance (at_tick t w) = (final, w2)
  /\ List.filter is_transmit (emitted (at_tick t w) w2) = []
  /\ List.filter is_fail (emitted (at_tick t w) w2)
     = [EvFail callback cmd data retry_failed_reason].
Proof.
  intros (Hst & Hrc & Hmax & Hcb & Hcmd & Hdata & Hps & Hflag) Hexp.
  cbn [expire] in Hexp.
  pose proof (comm_is_timeout_world instance (at_tick t w)) as Hw.
  destruct (comm_is_timeout instance (at_tick t w)) as [timed_out w1] eqn:Hto.
  simpl in Hw. subst w1. cbn [fst] in Hexp.
  destruct timed_out; [|discriminate Hexp].
  assert (Htick : comm_tick_instance instance (at_tick t w)
                  = comm_handle_timeout instance (at_tick t w)).
  { rewrite comm_tick_instance_no_frame by assumption.
    unfold tick_send_timeout. munfold. rewrite Hto. reflexivity. }
  rewrite Htick in Hexp |- *.
  destruct (comm_handle_timeout_exhausted instance (at_tick t w)
              ltac:(lia)) as (evs & Hrun & Hf & Htr & _).
  rewrite Hrun in Hexp |- *. injection Hexp as <- <-.
  split; [lia|]. split; [reflexivity|].
  match goal with
  | |- context [emitted ?a ?b] =>
      assert (Hem : emitted a b = evs)
        by (apply emitted_extends; repeat split; reflexivity)
  end.
  rewrite Hem, Htr, Hf, Hcb, Hcmd, Hdata. split; reflexivity.
Qed.

(** C2, amended. With [max_retry = 3], after a successful send from IDLE,
    four consecutive timeout expirations with no frame arriving result in
    exactly one invocation of the registered failure callback, carrying the
    retained command and data and the reason string of the code, after
    which the channel is IDLE, [retry_count] is 0, and a new send is
    accepted. Of the four, each of the first three counts one retry (1, 2,
    3) and puts the frame that was sent on the wire again, the channel
    still waiting and no failure reported; the fourth finds [retry_count]
    at [max_retry], transmits nothing and calls the failure callback. *)
Theorem four_timeouts_exhaust_the_retries (instance : comm_instance_t)
    (cmd data : list Z) (w : World) (ticks : list Z)
    (callback : comm_fail_callback_t) (final : comm_instance_t) (w2 : World) :
  state instance = COMM_STATE_IDLE ->
  max_retry instance = 3 ->
  fail_callback instance = Some callback ->
  parse_state instance = FRAME_STATE_IDLE ->
  new_frame_available instance = false ->
  length (tx_buffer instance) = Z.to_nat COMM_TX_BUFFER_SIZE ->
  is_cstring cmd -> is_cstring data ->
  strlen cmd < COMM_MAX_CMD_LENGTH -> strlen data < COMM_MAX_DATA_LENGTH ->
  w_hal w (length (w_trace w)) = HAL_OK ->
  length ticks = 4%nat ->
  expire ticks (snd (fst (comm_send_command_on instance cmd data w)))
    (snd (comm_send_command_on instance cmd data w)) = Some (final, w2) ->
  retry_exhaustion 4 instance cmd data w ticks
  /\ retry_schedule instance cmd data w ticks callback final w2.
Proof.
  intros Hidle Hmax Hcb Hps Hflag Hbuf Hcmd Hdata Hlc Hld Hok Hlen Hexp.
  split.
  { exact (four_timeouts_fail_once instance cmd data w ticks callback final w2
             Hidle Hmax Hcb Hps Hflag Hcmd Hdata Hlc Hld Hok Hlen Hexp). }
  destruct (comm_send_command_on_accepted instance cmd data w Hidle Hlc Hld Hok)
    as (waiting & evs0 & Hsend & Hsent & _ & _ & Ht0 & _).
  destruct (comm_send_command_on_run instance cmd data w Hidle Hlc Hld)
    as (waiting' & evs0' & Hsend' & _ & _ & _ & _ & _ & _ & Htb & Htl & _ & _ & _
        & _ & Hhu & _).
  rewrite Hsend in Hsend'. rewrite bool_decide_eq_true_2 in Hsend' by exact Hok.
  injection Hsend' as <- Hevs.
  rewrite Hsend in Hexp. cbn [fst snd] in Hexp.
  pose proof (sent_from_awaiting_ack instance cmd data (w_tick w) waiting callback
                Hsent Hmax Hcb Hps Hflag Hcmd Hdata Hlc Hld) as Hwait.
  set (frame := sent_frame instance cmd data) in *.
  assert (Hframe : take (Z.to_nat (strlen frame))
                     (snprintf_into (tx_buffer instance) frame) = frame).
  { apply take_snprintf_into. rewrite Hbuf.
    assert (Hfl : strlen frame = strlen cmd + strlen data + 9)
      by apply strlen_wire_frame.
    unfold strlen, COMM_TX_BUFFER_SIZE, COMM_MAX_CMD_LENGTH, COMM_MAX_DATA_LENGTH in *.
    lia. }
  assert (Hbytes : take (Z.to_nat (tx_length waiting)) (tx_buffer waiting) = frame)
    by (rewrite Htb, Htl; exact Hframe).
  assert (Hnz : tx_length waiting <> 0).
  { rewrite Htl.
    assert (Hfl : strlen frame = strlen cmd + strlen data + 9)
      by apply strlen_wire_frame.
    unfold strlen in *. lia. }
  destruct ticks as [|t1 [|t2 [|t3 [|t4 [|? ?]]]]]; try discriminate Hlen.
  destruct (expire_retransmits _ _ _ _ 0 callback cmd data final w2 _ frame
              Hwait ltac:(lia) Hhu Hbytes Hnz Hexp)
    as (i1 & x1 & Hr1 & Hwait1 & Hhu1 & Hb1 & Hn1 & Hexp1).
  destruct (expire_retransmits _ _ _ _ 1 callback cmd data final w2 _ frame
              Hwait1 ltac:(lia) Hhu1 Hb1 Hn1 Hexp1)
    as (i2 & x2 & Hr2 & Hwait2 & Hhu2 & Hb2 & Hn2 & Hexp2).
  destruct (expire_retransmits _ _ _ _ 2 callback cmd data final w2 _ frame
              Hwait2 ltac:(lia) Hhu2 Hb2 Hn2 Hexp2)
    as (i3 & x3 & Hr3 & Hwait3 & _ & _ & _ & Hexp3).
  destruct (expire_gives_up _ _ _ callback cmd data final w2 Hwait3 Hexp3)
    as (Hfull & Hlast & Htr4 & Hf4).
  unfold retry_schedule. fold frame.
  eexists t1, t2, t3, t4, waiting, _, i1, x1, i2, x2, i3, x3.
  split; [reflexivity|]. split; [exact Hsend|].
  split.
  { rewrite emitted_app, Hframe. cbn [List.filter is_transmit].
    rewrite Ht0. reflexivity. }
  split; [exact Hr1|]. split; [exact Hr2|]. split; [exact Hr3|].
  repeat split; assumption.
Qed.

Lemma four_timeouts_exhaust_the_retries_witness :
  exists final w2,
    retry_exhaustion 4 monitored_channel text_PING text_TEST (quiet_world 0)
      [1000; 2000; 3000; 4000]
    /\ retry_schedule monitored_channel text_PING text_TEST (quiet_world 0)
         [1000; 2000; 3000; 4000] 7%nat final w2.
Proof.
  eexists _, _.
  eapply (four_timeouts_exhaust_the_retries monitored_channel text_PING
            text_TEST (quiet_world 0) [1000; 2000; 3000; 4000] 7%nat).
  - reflexivity.
  - reflexivity.
  - reflexivity.
  - reflexivity.
  - reflexivity.
  - reflexivity.
  - repeat constructor.
  - repeat constructor.
  - vm_compute. reflexivity.
  - vm_compute. reflexivity.
  - reflexivity.
  - reflexivity.
  - vm_compute. reflexivity.
Defined.

(* ===================================================================== *)
(** * Further properties of the code *)
(* ===================================================================== *)

(* ===================================================================== *)
(** ** Sequence numbers *)
(* ===================================================================== *)

Lemma tx_successor_range tx : 1 <= tx_successor tx <= 255.
Proof.
  unfold tx_successor.
  pose proof (Z.mod_pos_bound (tx + 1) 256 eq_refl).
  destruct ((tx + 1) mod 256 =? 0) eqn:E; lia.
Qed.

Lemma nth_tx_sequence_iter n instance :
  fst (nth_tx_sequence n instance) = Nat.iter n tx_successor (tx_sequence instance).
Proof.
  revert instance. induction n as [|n IH]; intros instance; [reflexivity|].
  cbn [nth_tx_sequence]. rewrite IH.
  change (tx_sequence (snd (comm_get_next_tx_sequence instance)))
    with (tx_successor (tx_sequence instance)).
  symmetry. apply Nat.iter_succ_r.
Qed.

Lemma comm_is_valid_rx_sequence_receiver instance rx_seq :
  comm_is_valid_rx_sequence instance rx_seq
  = comm_is_valid_rx_sequence (receiver_at (rx_sequence instance)) rx_seq.
Proof. reflexivity. Qed.

(** X1. [comm_get_next_tx_sequence] never hands out 0: the number drawn is
    between 1 and 255 whatever the counter was, it is what the counter
    holds afterwards, and for a counter in range it is the counter plus
    one, except after 255, which is followed by 1. *)
Theorem next_tx_sequence_never_zero (instance : comm_instance_t) :
  let '(seq, after) := comm_get_next_tx_sequence instance in
  1 <= seq <= 255
  /\ tx_sequence after = seq
  /\ set_tx_sequence (tx_sequence instance) after = instance
  /\ (0 <= tx_sequence instance < 255 -> seq = tx_sequence instance + 1)
  /\ (tx_sequence instance = 255 -> seq = 1).
Proof.
  unfold comm_get_next_tx_sequence. cbv zeta.
  pose proof (tx_successor_range (tx_sequence instance)) as Hr.
  unfold tx_successor in Hr. cbv zeta in Hr.
  split; [exact Hr|]. split; [reflexivity|]. split; [now destruct instance|].
  split.
  - intros Hlt. rewrite Z.mod_small by lia.
    destruct (tx_sequence instance + 1 =? 0) eqn:E; lia.
  - intros ->. reflexivity.
Qed.

(** X2. Sender and receiver stay in step: when the receiver's last accepted
    sequence number is the sender's counter, each of the next nine numbers
    the sender draws is accepted by the receive window, so up to eight
    frames in a row may be lost, also across the wrap from 255 to 1. *)
Theorem successive_sequences_accepted (sender receiver : comm_instance_t)
    (n : nat) :
  is_byte (tx_sequence sender) ->
  rx_sequence receiver = tx_sequence sender ->
  (1 <= n <= 9)%nat ->
  comm_is_valid_rx_sequence receiver (fst (nth_tx_sequence n sender)) = true.
Proof.
  intros Hbyte Hsync Hn.
  rewrite nth_tx_sequence_iter, comm_is_valid_rx_sequence_receiver, Hsync.
  generalize dependent (tx_sequence sender). intros tx Hbyte _.
  pose (check := fun tx =>
    forallb (fun k => comm_is_valid_rx_sequence (receiver_at tx)
                        (Nat.iter k tx_successor tx)) (seq 1 9)).
  assert (Hall : check tx = true).
  { apply forall_byte; [vm_compute; reflexivity | exact Hbyte]. }
  unfold check in Hall. rewrite forallb_forall in Hall.
  apply Hall, in_seq. lia.
Qed.

Lemma successive_sequences_accepted_witness :
  comm_is_valid_rx_sequence (receiver_at 250)
    (fst (nth_tx_sequence 9 (set_tx_sequence 250 zero_instance))) = true.
Proof.
  apply successive_sequences_accepted;
    [unfold is_byte; simpl; lia | reflexivity | lia].
Defined.

(* ===================================================================== *)
(** ** Error detection *)
(* ===================================================================== *)

(** The table is a permutation of the bytes: every entry is found at its
    own position. *)
Lemma crc8_table_index_entry x :
  is_byte x -> crc8_table_index crc8_table (nth (Z.to_nat x) crc8_table 0) = x.
Proof.
  intros Hx. apply Z.eqb_eq.
  apply (forall_byte
           (fun x => crc8_table_index crc8_table (nth (Z.to_nat x) crc8_table 0) =? x));
    [vm_compute; reflexivity | exact Hx].
Qed.

Lemma lxor_cancel_r a b d : Z.lxor a d = Z.lxor b d -> a = b.
Proof.
  intros H.
  assert (Hback : forall x, Z.lxor (Z.lxor x d) d = x)
    by (intros x; rewrite Z.lxor_assoc, Z.lxor_nilpotent, Z.lxor_0_r; reflexivity).
  rewrite <- (Hback a), H. apply Hback.
Qed.

Lemma lxor_cancel_l c a b : Z.lxor c a = Z.lxor c b -> a = b.
Proof. rewrite !(Z.lxor_comm c). apply lxor_cancel_r. Qed.

Lemma crc8_table_byte_inj_crc c c' d :
  is_byte c -> is_byte c' -> is_byte d ->
  crc8_table_byte c d = crc8_table_byte c' d -> c = c'.
Proof.
  intros Hc Hc' Hd H. unfold crc8_table_byte in H.
  apply (f_equal (crc8_table_index crc8_table)) in H.
  rewrite !crc8_table_index_entry in H by (apply lxor_is_byte; assumption).
  exact (lxor_cancel_r _ _ _ H).
Qed.

Lemma crc8_table_byte_inj_data c a b :
  is_byte c -> is_byte a -> is_byte b ->
  crc8_table_byte c a = crc8_table_byte c b -> a = b.
Proof.
  intros Hc Ha Hb H. unfold crc8_table_byte in H.
  apply (f_equal (crc8_table_index crc8_table)) in H.
  rewrite !crc8_table_index_entry in H by (apply lxor_is_byte; assumption).
  exact (lxor_cancel_l _ _ _ H).
Qed.

Lemma crc8_fold_is_byte bytes c :
  is_byte c -> is_byte (fold_left crc8_table_byte bytes c).
Proof.
  revert c. induction bytes as [|d bytes IH]; intros c Hc; simpl; [exact Hc|].
  apply IH, crc8_table_is_byte.
Qed.

Lemma crc8_fold_inj bytes c c' :
  Forall is_byte bytes -> is_byte c -> is_byte c' ->
  fold_left crc8_table_byte bytes c = fold_left crc8_table_byte bytes c' ->
  c = c'.
Proof.
  intros Hbytes. revert c c'.
  induction Hbytes as [|d bytes Hd _ IH]; intros c c' Hc Hc' H; simpl in H;
    [exact H|].
  apply IH in H; try apply crc8_table_is_byte.
  exact (crc8_table_byte_inj_crc c c' d Hc Hc' Hd H).
Qed.

Lemma comm_crc8_calculate_whole bytes :
  comm_crc8_calculate (Some bytes) (strlen bytes)
  = fold_left crc8_table_byte bytes 0.
Proof.
  unfold comm_crc8_calculate, crc8_with, strlen.
  destruct bytes as [|b bytes]; [reflexivity|].
  destruct (Z.of_nat (length (b :: bytes)) =? 0) eqn:E;
    [apply Z.eqb_eq in E; simpl in E; lia|].
  rewrite Nat2Z.id, take_ge by lia. reflexivity.
Qed.

Lemma crc8_one_byte_changed s s' :
  Forall is_byte s -> Forall is_byte s' -> one_byte_changed s s' ->
  comm_crc8_calculate (Some s) (strlen s)
  <> comm_crc8_calculate (Some s') (strlen s').
Proof.
  intros Hs Hs' (before & a & b & behind & -> & -> & Hab) Heq.
  rewrite !comm_crc8_calculate_whole in Heq.
  apply Forall_app in Hs as [Hbefore Hs]. apply Forall_cons_1 in Hs as [Ha Hbehind].
  apply Forall_app in Hs' as [_ Hs']. apply Forall_cons_1 in Hs' as [Hb _].
  rewrite !fold_left_app in Heq. cbn [fold_left] in Heq.
  assert (Hc : is_byte (fold_left crc8_table_byte before 0))
    by (apply crc8_fold_is_byte; unfold is_byte; lia).
  apply crc8_fold_inj in Heq;
    [|exact Hbehind | apply crc8_table_is_byte | apply crc8_table_is_byte].
  apply crc8_table_byte_inj_data in Heq; [contradiction|assumption..].
Qed.



(* ===================================================================== *)
(** ** The parser on damaged and foreign input *)
(* ===================================================================== *)

Lemma frame_body_is_byte cmd data seq :
  is_cstring cmd -> is_cstring data -> is_byte seq ->
  Forall is_byte (frame_body cmd data seq).
Proof.
  intros Hcmd Hdata Hseq. unfold frame_body.
  assert (Hc : forall s, is_cstring s -> Forall is_byte s).
  { intros s. unfold is_cstring. apply List.Forall_impl.
    intros b Hb. unfold is_byte. lia. }
  destruct (hex2_facts seq Hseq) as (Hhex & _).
  rewrite !Forall_app. repeat split; try (apply Hc; assumption);
    repeat constructor;
    unfold COMM_CMD_DATA_SEPARATOR, COMM_FIELD_SEPARATOR; lia.
Qed.

(** X4. A frame damaged in transit is dropped by the parser: when the
    body of a well-formed frame differs in exactly one byte from the body
    its CRC field was computed for, the closing brace publishes nothing,
    marks the frame invalid and leaves the parser idle. *)
Theorem corrupted_frame_dropped (clock : nat -> Z) (k : nat)
    (instance : comm_instance_t) (cmd data cmd' data' : list Z) (seq seq' : Z) :
  new_frame_available instance = false ->
  parse_state instance = FRAME_STATE_IDLE ->
  (3 <= length (rx_buffer instance))%nat ->
  is_cstring cmd -> is_cstring data -> is_byte seq ->
  is_cstring cmd' -> is_cstring data' -> is_byte seq' ->
  (length cmd' <= 16)%nat -> (length data' <= 64)%nat ->
  Forall (fun b => b <> COMM_CMD_DATA_SEPARATOR) cmd' ->
  Forall (fun b => b <> COMM_FIELD_SEPARATOR) data' ->
  one_byte_changed (frame_body cmd data seq) (frame_body cmd' data' seq') ->
  let body := frame_body cmd data seq in
  let crc := comm_crc8_calculate (Some body) (strlen body) in
  let after := receive_bytes clock k instance (wire_frame cmd' data' seq' crc) in
  new_frame_available after = false
  /\ frame_is_valid (pending_frame after) = false
  /\ parse_state after = FRAME_STATE_IDLE.
Proof.
  intros Hflag Hps Hrx Hcmd Hdata Hseq Hcmd' Hdata' Hseq' Hlc Hld Hnc Hnd Hchanged
    body crc after.
  destruct (receive_wire_frame clock k instance cmd' data' seq' crc
              Hflag Hps Hrx Hcmd' Hdata' Hlc Hld Hnc Hnd Hseq'
              (comm_crc8_calculate_is_byte _ _))
    as (H1 & H2 & H3 & _).
  fold after in H1, H2, H3.
  assert (Hne : (comm_crc8_calculate (Some (frame_body cmd' data' seq'))
                   (strlen (frame_body cmd' data' seq')) =? crc) = false).
  { apply Z.eqb_neq. intros Heq. symmetry in Heq. revert Heq.
    apply crc8_one_byte_changed; [| |exact Hchanged];
      apply frame_body_is_byte; assumption. }
  rewrite Hne in H2, H3. repeat split; assumption.
Qed.

Lemma corrupted_frame_dropped_witness :
  new_frame_available
    (receive_bytes (fun _ => 0) 0 (fresh_channel 1)
       (wire_frame text_PING [84; 69; 83; 85] 4
          (comm_crc8_calculate (Some (frame_body text_PING text_TEST 4))
             (strlen (frame_body text_PING text_TEST 4))))) = false.
Proof.
  refine (proj1 (corrupted_frame_dropped (fun _ => 0) 0 (fresh_channel 1)
            text_PING text_TEST text_PING [84; 69; 83; 85] 4 4
            _ _ _ _ _ _ _ _ _ _ _ _ _ _));
    try reflexivity;
    try (simpl; lia);
    try (unfold is_byte; lia);
    try (repeat constructor; unfold COMM_CMD_DATA_SEPARATOR, COMM_FIELD_SEPARATOR; lia).
  exists [80; 73; 78; 71; 58; 84; 69; 83], 84, 85, [35; 48; 52].
  repeat split; lia.
Defined.

Lemma idle_ignores_byte now instance b :
  parse_state instance = FRAME_STATE_IDLE -> b <> COMM_FRAME_START ->
  comm_process_byte_in_interrupt now instance b = instance.
Proof.
  intros Hps Hb. unfold comm_process_byte_in_interrupt. rewrite Hps.
  destruct (new_frame_available instance); [reflexivity|]. cbv iota.
  destruct (b =? COMM_FRAME_START) eqn:E; [apply Z.eqb_eq in E; contradiction|].
  reflexivity.
Qed.

(** X5. Between frames the parser discards everything up to the next
    opening brace: bytes other than ['{'] leave an idle instance exactly as
    it was, so a frame that follows line noise is received as if the noise
    had not been there. *)
Theorem idle_parser_skips_noise (clock : nat -> Z) (k : nat)
    (instance : comm_instance_t) (noise rest : list Z) :
  parse_state instance = FRAME_STATE_IDLE ->
  Forall (fun b => b <> COMM_FRAME_START) noise ->
  receive_bytes clock k instance noise = instance
  /\ receive_bytes clock k instance (noise ++ rest)
     = receive_bytes clock (k + length noise) instance rest.
Proof.
  intros Hps Hnoise.
  assert (H : forall k, receive_bytes clock k instance noise = instance).
  { clear k. induction Hnoise as [|b noise Hb _ IH]; intros k; [reflexivity|].
    cbn [receive_bytes]. rewrite idle_ignores_byte by assumption. apply IH. }
  split; [apply H|]. rewrite receive_bytes_app, H. reflexivity.
Qed.

Lemma idle_parser_skips_noise_witness :
  receive_bytes (fun _ => 0) 0 (fresh_channel 1) [13; 10; 125; 35] = fresh_channel 1.
Proof.
  refine (proj1 (idle_parser_skips_noise (fun _ => 0) 0 (fresh_channel 1)
                   [13; 10; 125; 35] [] _ _)).
  - reflexivity.
  - repeat constructor; unfold COMM_FRAME_START; lia.
Defined.

Lemma parser_ok_step now instance b :
  parser_ok instance ->
  parser_ok (comm_process_byte_in_interrupt now instance b).
Proof.
  intros Hok. pose proof Hok as (Hrx & Hlc & Hld & Hidx & Hpub).
  unfold comm_process_byte_in_interrupt.
  destruct (new_frame_available instance) eqn:Hflag; [exact Hok|].
  unfold parser_ok.
  destruct (parse_state instance) eqn:Hps; try contradiction; cbv iota.
  - destruct (b =? COMM_FRAME_START); [|exact Hok].
    simpl. rewrite Hflag. unfold COMM_MAX_CMD_LENGTH.
    repeat split; try assumption; try lia; try discriminate.
  - destruct (b =? COMM_CMD_DATA_SEPARATOR);
      [|destruct (Z.ltb_spec (rx_index instance) COMM_MAX_CMD_LENGTH)];
      simpl; rewrite ?length_store, ?Hflag, ?Hps;
      unfold COMM_MAX_CMD_LENGTH, COMM_MAX_DATA_LENGTH in *;
      rewrite ?Z.mod_small by lia;
      repeat split; try assumption; try lia; try discriminate.
  - destruct (b =? COMM_FIELD_SEPARATOR);
      [|destruct (Z.ltb_spec (rx_index instance) COMM_MAX_DATA_LENGTH)];
      simpl; rewrite ?length_store, ?Hflag, ?Hps;
      unfold COMM_MAX_CMD_LENGTH, COMM_MAX_DATA_LENGTH in *;
      rewrite ?Z.mod_small by lia;
      repeat split; try assumption; try lia; try discriminate.
  - destruct (b =? COMM_FIELD_SEPARATOR);
      [|destruct (Z.ltb_spec (rx_index instance) 2)];
      simpl; rewrite ?length_store, ?Hflag, ?Hps;
      rewrite ?Z.mod_small by lia;
      repeat split; try assumption; try lia; try discriminate.
  - destruct (b =? COMM_FRAME_END);
      [|destruct (Z.ltb_spec (rx_index instance) 2)].
    + match goal with |- context [pending_crc_ok ?f] =>
        destruct (pending_crc_ok f) end;
        simpl; rewrite ?length_store, ?Hflag, ?Hps;
        repeat split; try assumption; try lia; try discriminate.
    + simpl. rewrite ?length_store, ?Hflag, ?Hps, ?Z.mod_small by lia.
      repeat split; try assumption; try lia; try discriminate.
    + simpl. rewrite ?Hflag. repeat split; try assumption; try lia; try discriminate.
Qed.

Lemma parser_ok_in_bounds instance : parser_ok instance -> store_in_bounds instance.
Proof.
  intros (Hrx & Hlc & Hld & Hidx & _). unfold store_in_bounds, parser_target.
  unfold COMM_MAX_CMD_LENGTH, COMM_MAX_DATA_LENGTH, COMM_RX_BUFFER_SIZE in *.
  destruct (parse_state instance); try contradiction;
    [left; reflexivity | right; lia ..].
Qed.

(** X7. The parser never writes outside its arrays, whatever bytes
    arrive: an instance whose arrays have their sizes, whose parse state is
    one of the five in use and whose index is within the field being
    filled keeps all this after any byte sequence, the next write at
    [rx_index] is inside the array it goes to, and a frame is only ever
    published valid and with the parser idle. *)
Theorem parser_stays_in_bounds (clock : nat -> Z) (k : nat)
    (instance : comm_instance_t) (bytes : list Z) :
  parser_ok instance ->
  parser_ok (receive_bytes clock k instance bytes)
  /\ store_in_bounds (receive_bytes clock k instance bytes).
Proof.
  intros Hok.
  assert (H : parser_ok (receive_bytes clock k instance bytes)).
  { revert k instance Hok.
    induction bytes as [|b bytes IH]; intros k instance Hok; [exact Hok|].
    cbn [receive_bytes]. apply IH, parser_ok_step, Hok. }
  split; [exact H | apply parser_ok_in_bounds, H].
Qed.

Lemma parser_ok_init uart timeout retries :
  parser_ok (comm_instance_init uart timeout retries).
Proof.
  unfold parser_ok. simpl. repeat split; try reflexivity; discriminate.
Qed.

Lemma parser_stays_in_bounds_witness :
  parser_ok (receive_bytes (fun _ => 0) 0 (fresh_channel 1)
               [123; 65; 66; 67; 68; 58; 35; 49; 50; 51; 52])
  /\ store_in_bounds (receive_bytes (fun _ => 0) 0 (fresh_channel 1)
                        [123; 65; 66; 67; 68; 58; 35; 49; 50; 51; 52]).
Proof.
  apply parser_stays_in_bounds.
  unfold parser_ok. simpl. repeat split; try reflexivity; discriminate.
Defined.

(* ===================================================================== *)
(** ** Deadlines *)
(* ===================================================================== *)

(** A send timeout leaves the receive side of the instance and the clock
    alone. *)
Lemma comm_handle_timeout_parser instance w :
  let after := fst (comm_handle_timeout instance w) in
  parse_state after = parse_state instance
  /\ rx_index after = rx_index instance
  /\ rx_buffer after = rx_buffer instance
  /\ new_frame_available after = new_frame_available instance
  /\ pending_frame after = pending_frame instance
  /\ frame_timeout after = frame_timeout instance
  /\ handlers after = handlers instance
  /\ w_tick (snd (comm_handle_timeout instance w)) = w_tick w.
Proof.
  unfold comm_handle_timeout, comm_call_fail_callback.
  munfold. unfold comm_send_raw, comm_set_state. munfold.
  cbn [w_hal w_trace w_tick].
  repeat match goal with
         | |- context [decide ?P] => destruct (decide P)
         | |- context [if ?c then _ else _] => destruct c eqn:?
         | |- context [match state_change_callback ?i with _ => _ end] =>
             destruct (state_change_callback i)
         | |- context [match fail_callback ?i with _ => _ end] =>
             destruct (fail_callback i)
         end; simpl; repeat split; reflexivity.
Qed.

Lemma tick_send_timeout_parser instance w :
  let after := fst (tick_send_timeout instance w) in
  parse_state after = parse_state instance
  /\ rx_index after = rx_index instance
  /\ rx_buffer after = rx_buffer instance
  /\ new_frame_available after = new_frame_available instance
  /\ pending_frame after = pending_frame instance
  /\ frame_timeout after = frame_timeout instance
  /\ handlers after = handlers instance
  /\ w_tick (snd (tick_send_timeout instance w)) = w_tick w.
Proof.
  unfold tick_send_timeout. munfold.
  pose proof (comm_is_timeout_world instance w) as Hw.
  destruct (comm_is_timeout instance w) as [timed_out w1]. simpl in Hw. subst w1.
  destruct timed_out; [|repeat split; reflexivity].
  exact (comm_handle_timeout_parser instance w).
Qed.

(** A tick with the parser in the middle of a frame: the send timeout,
    then the check of the frame deadline. *)
Lemma comm_tick_instance_mid_frame instance w :
  parse_state instance <> FRAME_STATE_IDLE ->
  new_frame_available instance = false ->
  let checked := fst (tick_send_timeout instance w) in
  fst (comm_tick_instance instance w)
  = if w_tick w >=? frame_timeout instance
    then comm_handle_frame_timeout checked
    else checked.
Proof.
  intros Hps Hflag checked. subst checked.
  unfold comm_tick_instance, tick_send_timeout. munfold.
  pose proof (comm_is_timeout_world instance w) as Hw.
  destruct (comm_is_timeout instance w) as [timed_out w1]. simpl in Hw. subst w1.
  destruct timed_out.
  - pose proof (comm_handle_timeout_parser instance w)
      as (Hps' & _ & _ & Hflag' & _ & Hft & _ & Htick).
    destruct (comm_handle_timeout instance w) as [i1 w2].
    simpl in Hps', Hflag', Hft, Htick. cbv beta iota.
    unfold comm_is_frame_timeout. munfold.
    destruct (decide (parse_state i1 = FRAME_STATE_IDLE)) as [Hidle|_];
      [congruence|].
    rewrite Htick, Hft. cbn [fst].
    destruct (w_tick w >=? frame_timeout instance); [reflexivity|].
    rewrite Hflag', Hflag. reflexivity.
  - cbv beta iota. unfold comm_is_frame_timeout. munfold.
    destruct (decide (parse_state instance = FRAME_STATE_IDLE)) as [Hidle|_];
      [congruence|].
    cbn [fst].
    destruct (w_tick w >=? frame_timeout instance); [reflexivity|].
    rewrite Hflag. reflexivity.
Qed.

(** X8. The frame deadline is fixed when the frame starts: the opening
    brace, taken by an idle parser with no frame pending at tick [now],
    sets the deadline to [now + 100] (in [uint32_t]), and no byte that
    arrives while the parser is inside a frame moves it. *)
Theorem frame_deadline_fixed_at_start (now : Z) (instance : comm_instance_t)
    (b : Z) :
  new_frame_available instance = false ->
  let after := comm_process_byte_in_interrupt now instance b in
  (parse_state instance = FRAME_STATE_IDLE -> b = COMM_FRAME_START ->
   parse_state after = FRAME_STATE_CMD
   /\ frame_timeout after = (now + COMM_FRAME_TIMEOUT_MS) mod 2 ^ 32)
  /\ (parse_state instance <> FRAME_STATE_IDLE ->
      frame_timeout after = frame_timeout instance).
Proof.
  intros Hflag after. subst after.
  unfold comm_process_byte_in_interrupt. rewrite Hflag. split.
  - intros -> ->. rewrite Z.eqb_refl. split; reflexivity.
  - intros Hps. destruct (parse_state instance); try contradiction; cbv iota;
      repeat match goal with
             | |- context [if ?c then _ else _] => destruct c
             end; reflexivity.
Qed.

Lemma frame_deadline_fixed_at_start_witness :
  parse_state (comm_process_byte_in_interrupt 4294967290 (fresh_channel 1) 123)
  = FRAME_STATE_CMD
  /\ frame_timeout (comm_process_byte_in_interrupt 4294967290 (fresh_channel 1) 123)
     = 94.
Proof.
  refine (proj1 (frame_deadline_fixed_at_start 4294967290 (fresh_channel 1) 123 _)
            _ _); reflexivity.
Defined.

(** X9. A frame that stalls is abandoned: a tick that finds the parser
    inside a frame at or after the frame deadline puts it back to idle
    with the index at 0 and nothing published; a tick before the deadline
    leaves parse state, index, receive buffer and the fields parsed so far
    as they are. *)
Theorem stalled_frame_abandoned (instance : comm_instance_t) (w : World) :
  parse_state instance <> FRAME_STATE_IDLE ->
  new_frame_available instance = false ->
  let after := fst (comm_tick_instance instance w) in
  (frame_timeout instance <= w_tick w ->
   parse_state after = FRAME_STATE_IDLE
   /\ rx_index after = 0
   /\ new_frame_available after = false)
  /\ (w_tick w < frame_timeout instance ->
      parse_state after = parse_state instance
      /\ rx_index after = rx_index instance
      /\ rx_buffer after = rx_buffer instance
      /\ pending_frame after = pending_frame instance).
Proof.
  intros Hps Hflag after. subst after.
  rewrite comm_tick_instance_mid_frame by assumption.
  pose proof (tick_send_timeout_parser instance w)
    as (Hps' & Hidx & Hrx & _ & Hpf & _).
  cbv zeta in Hps', Hidx, Hrx, Hpf.
  split; intros Ht.
  - replace (w_tick w >=? frame_timeout instance) with true by lia.
    repeat split; reflexivity.
  - replace (w_tick w >=? frame_timeout instance) with false by lia.
    repeat split; assumption.
Qed.

Lemma stalled_frame_abandoned_witness :
  parse_state
    (fst (comm_tick_instance
            (comm_process_byte_in_interrupt 50 (fresh_channel 1) 123)
            (quiet_world 150)))
  = FRAME_STATE_IDLE.
Proof.
  refine (proj1 (proj1 (stalled_frame_abandoned
            (comm_process_byte_in_interrupt 50 (fresh_channel 1) 123)
            (quiet_world 150) _ _) _)).
  - discriminate.
  - reflexivity.
  - vm_compute. discriminate.
Defined.

(** X10. The frame deadline is compared without regard to the wrap of the
    tick counter: a tick at [t], not before the opening brace at [now] and
    before the counter wraps, leaves the frame alone exactly when it
    started more than 100 ms before the wrap and fewer than 100 ms have
    passed; a frame that starts in the last 100 ms before the wrap is
    abandoned by every such tick. *)
Theorem frame_deadline_near_wrap (now : Z) (instance : comm_instance_t)
    (w : World) :
  new_frame_available instance = false ->
  parse_state instance = FRAME_STATE_IDLE ->
  0 <= now <= w_tick w -> w_tick w < 2 ^ 32 ->
  let started := comm_process_byte_in_interrupt now instance COMM_FRAME_START in
  parse_state (fst (comm_tick_instance started w))
  = if (now <? 2 ^ 32 - COMM_FRAME_TIMEOUT_MS)
       && (w_tick w <? now + COMM_FRAME_TIMEOUT_MS)
    then FRAME_STATE_CMD
    else FRAME_STATE_IDLE.
Proof.
  intros Hflag Hps Hnow Ht started.
  assert (Hst : parse_state started = FRAME_STATE_CMD
                /\ frame_timeout started = (now + COMM_FRAME_TIMEOUT_MS) mod 2 ^ 32
                /\ new_frame_available started = false).
  { subst started. unfold comm_process_byte_in_interrupt.
    rewrite Hflag, Hps. cbv iota. rewrite Z.eqb_refl.
    repeat split; try reflexivity. simpl. exact Hflag. }
  destruct Hst as (Hps1 & Hft & Hflag1).
  rewrite comm_tick_instance_mid_frame by (congruence || assumption).
  pose proof (tick_send_timeout_parser started w) as (Hps' & _).
  cbv zeta in Hps'. rewrite Hft. unfold COMM_FRAME_TIMEOUT_MS in *.
  change (2 ^ 32) with 4294967296 in *.
  destruct (Z.ltb_spec now (4294967296 - 100)) as [Hearly|Hlate].
  - rewrite Z.mod_small by lia. cbn [andb].
    destruct (Z.ltb_spec (w_tick w) (now + 100)).
    + replace (w_tick w >=? now + 100) with false by lia. congruence.
    + replace (w_tick w >=? now + 100) with true by lia. reflexivity.
  - cbn [andb].
    replace ((now + 100) mod 4294967296) with (now + 100 - 4294967296)
      by (apply Z.mod_unique_pos with (q := 1); lia).
    replace (w_tick w >=? now + 100 - 4294967296) with true by lia.
    reflexivity.
Qed.

Lemma frame_deadline_near_wrap_witness :
  parse_state
    (fst (comm_tick_instance
            (comm_process_byte_in_interrupt 4294967290 (fresh_channel 1)
               COMM_FRAME_START)
            (quiet_world 4294967290)))
  = FRAME_STATE_IDLE.
Proof.
  apply (frame_deadline_near_wrap 4294967290 (fresh_channel 1)
           (quiet_world 4294967290));
    try reflexivity; simpl; lia.
Defined.

(** X11. The send timeout is measured across the wrap of the tick
    counter: for a channel waiting for an acknowledgement, [elapsed]
    milliseconds after the send (less than 2^32) [comm_is_timeout] answers
    whether [elapsed] has reached [timeout_ms], also when the counter has
    wrapped in between; it reads the clock and changes nothing. *)
Theorem send_timeout_across_wrap (instance : comm_instance_t) (w : World)
    (elapsed : Z) :
  state instance = COMM_STATE_WAIT_ACK ->
  0 <= last_send_time instance < 2 ^ 32 ->
  0 <= elapsed < 2 ^ 32 ->
  w_tick w = (last_send_time instance + elapsed) mod 2 ^ 32 ->
  comm_is_timeout instance w = (elapsed >=? timeout_ms instance, w).
Proof.
  intros Hstate Hlast Helapsed Htick.
  unfold comm_is_timeout. munfold.
  destruct (decide (state instance <> COMM_STATE_WAIT_ACK)); [contradiction|].
  rewrite Htick. f_equal. f_equal.
  rewrite Zminus_mod_idemp_l.
  replace (last_send_time instance + elapsed - last_send_time instance)
    with elapsed by lia.
  apply Z.mod_small. exact Helapsed.
Qed.

Lemma send_timeout_across_wrap_witness :
  comm_is_timeout
    (set_last_send_time 4294967000 (set_state COMM_STATE_WAIT_ACK (fresh_channel 1)))
    (quiet_world 704)
  = (true, quiet_world 704).
Proof.
  apply (send_timeout_across_wrap
           (set_last_send_time 4294967000
              (set_state COMM_STATE_WAIT_ACK (fresh_channel 1)))
           (quiet_world 704) 1000);
    try reflexivity; simpl; lia.
Defined.

Lemma receive_overflow now instance ps buf sofar limit b sep :
  filling instance ps buf sofar ->
  match ps with
  | FRAME_STATE_CMD => limit = COMM_MAX_CMD_LENGTH /\ sep = COMM_CMD_DATA_SEPARATOR
  | FRAME_STATE_DATA => limit = COMM_MAX_DATA_LENGTH /\ sep = COMM_FIELD_SEPARATOR
  | _ => False
  end ->
  Z.of_nat (length sofar) = limit -> b <> sep ->
  let after := comm_process_byte_in_interrupt now instance b in
  parse_state after = FRAME_STATE_IDLE /\ new_frame_available after = false.
Proof.
  intros H Hcase Hlen Hb after. subst after. parser_start H.
  destruct ps; try contradiction; destruct Hcase as [-> ->]; cbv iota;
    (match goal with
     | |- context [b =? ?s] => destruct (Z.eqb_spec b s) as [Heq|_]
     end; [contradiction|]);
    rewrite Hidx, Hlen, Z.ltb_irrefl; (split; simpl; [reflexivity | exact Hflag]).
Qed.

(** X6. A field that is too long aborts the frame: after the opening
    brace, a seventeenth command byte that is not [':'], or after a
    command of at most 16 bytes and the colon a sixty-fifth data byte that
    is not ['#'], puts the parser back to idle with nothing published. *)
Theorem oversized_field_aborts_frame (clock : nat -> Z) (k : nat)
    (instance : comm_instance_t) (cmd data : list Z) (extra : Z) :
  new_frame_available instance = false ->
  parse_state instance = FRAME_STATE_IDLE ->
  (3 <= length (rx_buffer instance))%nat ->
  Forall (fun b => b <> COMM_CMD_DATA_SEPARATOR) cmd ->
  Forall (fun b => b <> COMM_FIELD_SEPARATOR) data ->
  let long_cmd := receive_bytes clock k instance (COMM_FRAME_START :: cmd ++ [extra]) in
  let long_data :=
    receive_bytes clock k instance
      (COMM_FRAME_START :: cmd ++ COMM_CMD_DATA_SEPARATOR :: data ++ [extra]) in
  (length cmd = 16%nat -> extra <> COMM_CMD_DATA_SEPARATOR ->
   parse_state long_cmd = FRAME_STATE_IDLE
   /\ new_frame_available long_cmd = false)
  /\ (is_cstring cmd -> (length cmd <= 16)%nat -> length data = 64%nat ->
      extra <> COMM_FIELD_SEPARATOR ->
      parse_state long_data = FRAME_STATE_IDLE
      /\ new_frame_available long_data = false).
Proof.
  intros Hflag Hps Hrx Hnc Hnd long_cmd long_data.
  pose proof (receive_start (clock k) instance Hflag Hps Hrx) as Hstart.
  split.
  - intros Hlen Hextra. subst long_cmd.
    rewrite receive_bytes_cons, receive_bytes_app.
    pose proof (receive_field at_cmd COMM_CMD_DATA_SEPARATOR 16 receive_cmd_byte
                  clock cmd (S k) _ [] Hstart ltac:(simpl; lia) Hnc) as Hat.
    cbn [app] in Hat. cbn [receive_bytes].
    refine (receive_overflow _ _ FRAME_STATE_CMD _ cmd _ _ _ Hat _ _ Hextra).
    + split; reflexivity.
    + rewrite Hlen. reflexivity.
  - intros Hcmd Hlc Hlen Hextra. subst long_data.
    rewrite receive_bytes_cons, receive_bytes_app, receive_bytes_cons,
      receive_bytes_app.
    pose proof (receive_field at_cmd COMM_CMD_DATA_SEPARATOR 16 receive_cmd_byte
                  clock cmd (S k) _ [] Hstart ltac:(simpl; lia) Hnc) as Hat.
    cbn [app] in Hat.
    pose proof (receive_cmd_end (clock (S k + length cmd)%nat) _ cmd Hat Hcmd Hlc)
      as Hend.
    pose proof (receive_field (fun i sofar => at_data i cmd sofar)
                  COMM_FIELD_SEPARATOR 64
                  (fun now i sofar b => receive_data_byte now i cmd sofar b)
                  clock data (S (S k + length cmd)) _ [] Hend
                  ltac:(simpl; lia) Hnd) as [Hat2 _].
    cbn [app] in Hat2. cbn [receive_bytes].
    refine (receive_overflow _ _ FRAME_STATE_DATA _ data _ _ _ Hat2 _ _ Hextra).
    + split; reflexivity.
    + rewrite Hlen. reflexivity.
Qed.

Lemma oversized_field_aborts_frame_witness :
  parse_state
    (receive_bytes (fun _ => 0) 0 (fresh_channel 1)
       (COMM_FRAME_START :: sixteen_bytes ++ [66])) = FRAME_STATE_IDLE.
Proof.
  refine (proj1 (proj1 (oversized_field_aborts_frame (fun _ => 0) 0
            (fresh_channel 1) sixteen_bytes [] 66 _ _ _ _ _) _ _));
    try reflexivity; try (simpl; lia);
    try (repeat constructor; unfold COMM_CMD_DATA_SEPARATOR; lia).
Defined.

(* ===================================================================== *)
(** ** The callback table *)
(* ===================================================================== *)

Lemma list_find_first_callback cmd hs :
  match list_find (fun h => is_Some (handler_callback h) /\ cstr (handler_cmd h) = cmd) hs with
  | Some (i, h) =>
      hs !! i = Some h /\ is_Some (handler_callback h)
      /\ first_callback hs cmd = handler_callback h
  | None => first_callback hs cmd = None
  end.
Proof.
  induction hs as [|x hs IH]; [reflexivity|].
  cbn [list_find first_callback].
  destruct (decide (is_Some (handler_callback x) /\ cstr (handler_cmd x) = cmd))
    as [Hx|Hx].
  - repeat split; try reflexivity; apply Hx.
  - destruct (list_find _ hs) as [[i h]|]; simpl; exact IH.
Qed.

(** Dispatch is the invocation of the first callback registered for the
    command. *)
Lemma comm_call_callback_first instance cmd data w :
  comm_call_callback instance cmd data w
  = match first_callback (take (Z.to_nat COMM_MAX_CALLBACKS) (handlers instance)) cmd with
    | Some callback => (true, after_event w (EvCommand callback cmd data))
    | None => (false, w)
    end.
Proof.
  unfold comm_call_callback, comm_find_callback_index.
  pose proof (list_find_first_callback cmd
                (take (Z.to_nat COMM_MAX_CALLBACKS) (handlers instance))) as H.
  destruct (list_find _ _) as [[i h]|]; simpl.
  - destruct H as (Hi & [callback Hcb] & Hfirst).
    apply lookup_take_Some in Hi as [Hi _].
    rewrite Hi, Hfirst. simpl. rewrite Hcb. reflexivity.
  - rewrite H. reflexivity.
Qed.

Lemma first_callback_replace cmd callback hs i h :
  list_find (fun h => is_Some (handler_callback h) /\ cstr (handler_cmd h) = cmd) hs
  = Some (i, h) ->
  first_callback (alter (handler_set_callback (Some callback)) i hs) cmd
  = Some callback.
Proof.
  revert i. induction hs as [|x hs IH]; intros i; [discriminate|].
  cbn [list_find].
  destruct (decide (is_Some (handler_callback x) /\ cstr (handler_cmd x) = cmd))
    as [Hx|Hx].
  - intros [= <- <-]. cbn [alter list_alter first_callback handler_set_callback
                            handler_callback handler_cmd].
    destruct (decide (is_Some (Some callback) /\ cstr (handler_cmd x) = cmd))
      as [_|Hno]; [reflexivity|].
    exfalso. apply Hno. split; [eexists; reflexivity | apply Hx].
  - destruct (list_find _ hs) as [[j y]|] eqn:Hfind; [|discriminate].
    intros [= <- <-]. cbn [alter list_alter first_callback].
    fold (alter (handler_set_callback (Some callback)) j hs).
    destruct (decide (is_Some (handler_callback x) /\ cstr (handler_cmd x) = cmd))
      as [Hyes|_]; [contradiction|].
    apply (IH j). reflexivity.
Qed.

Lemma cstr_handler_install cmd callback h :
  is_cstring cmd -> (length cmd <= 15)%nat ->
  cstr (handler_cmd (handler_install cmd callback h)) = cmd.
Proof.
  intros Hs Hlen. unfold handler_install, strncpy_term. cbn [handler_cmd].
  rewrite take_ge by exact Hlen. rewrite replicate_nul_end.
  rewrite <- app_assoc. cbn [app]. apply cstr_app_nul. exact Hs.
Qed.

Lemma first_callback_install cmd callback hs i h :
  is_cstring cmd -> (length cmd <= 15)%nat ->
  first_callback hs cmd = None ->
  list_find (fun h => handler_callback h = None) hs = Some (i, h) ->
  first_callback (alter (handler_install cmd (Some callback)) i hs) cmd
  = Some callback.
Proof.
  intros Hs Hlen. revert i. induction hs as [|x hs IH]; intros i; [discriminate|].
  cbn [list_find first_callback].
  destruct (decide (is_Some (handler_callback x) /\ cstr (handler_cmd x) = cmd))
    as [[[c Hc] _]|Hx].
  - intros Hsome. rewrite Hc in Hsome. discriminate.
  - intros Hnone. destruct (decide (handler_callback x = None)) as [Hfree|Hused].
    + intros [= <- <-]. cbn [alter list_alter first_callback].
      destruct (decide (is_Some (handler_callback (handler_install cmd (Some callback) x))
                        /\ cstr (handler_cmd (handler_install cmd (Some callback) x)) = cmd))
        as [_|Hno]; [reflexivity|].
      exfalso. apply Hno.
      split; [eexists; reflexivity | apply cstr_handler_install; assumption].
    + destruct (list_find _ hs) as [[j y]|] eqn:Hfind; [|discriminate].
      intros [= <- <-]. cbn [alter list_alter first_callback].
      fold (alter (handler_install cmd (Some callback)) j hs).
      destruct (decide (is_Some (handler_callback x) /\ cstr (handler_cmd x) = cmd))
        as [Hyes|_]; [contradiction|].
      apply (IH j); [exact Hnone | reflexivity].
Qed.

Lemma first_callback_alter_other cmd f hs : forall i,
  (forall h, hs !! i = Some h ->
     ~ (is_Some (handler_callback h) /\ cstr (handler_cmd h) = cmd)
     /\ ~ (is_Some (handler_callback (f h)) /\ cstr (handler_cmd (f h)) = cmd)) ->
  first_callback (alter f i hs) cmd = first_callback hs cmd.
Proof.
  induction hs as [|x hs IH]; intros i Hi; [reflexivity|].
  destruct i as [|i]; cbn [alter list_alter first_callback].
  - destruct (Hi x eq_refl) as [Hbefore Hafter].
    destruct (decide (is_Some (handler_callback (f x)) /\ cstr (handler_cmd (f x)) = cmd));
      [contradiction|].
    destruct (decide (is_Some (handler_callback x) /\ cstr (handler_cmd x) = cmd));
      [contradiction|].
    reflexivity.
  - fold (alter f i hs). rewrite (IH i) by (intros h Hh; apply Hi; exact Hh).
    reflexivity.
Qed.

Lemma list_find_index_lt {A} (P : A -> Prop) `{forall x, Decision (P x)} l i x n :
  list_find P (take n l) = Some (i, x) -> (i < n)%nat.
Proof.
  intros Hfind. apply list_find_Some in Hfind as (Hi & _).
  apply lookup_take_Some in Hi as [_ Hlt]. exact Hlt.
Qed.

(** The three ways [comm_register_callback] ends. *)
Lemma comm_register_callback_cases instance cmd callback :
  let hs := take (Z.to_nat COMM_MAX_CALLBACKS) (handlers instance) in
  (comm_register_callback instance cmd callback = (false, instance)
   /\ (callback = None \/ COMM_MAX_CMD_LENGTH <= strlen cmd
       \/ (comm_find_callback_index instance cmd = None
           /\ Forall (fun h => is_Some (handler_callback h)) hs)))
  \/ (exists i h,
        callback <> None /\ strlen cmd < COMM_MAX_CMD_LENGTH
        /\ list_find (fun h => is_Some (handler_callback h)
                               /\ cstr (handler_cmd h) = cmd) hs = Some (i, h)
        /\ comm_register_callback instance cmd callback
           = (true, set_handlers
                      (alter (handler_set_callback callback) i (handlers instance))
                      instance))
  \/ (exists i h,
        callback <> None /\ strlen cmd < COMM_MAX_CMD_LENGTH
        /\ list_find (fun h => is_Some (handler_callback h)
                               /\ cstr (handler_cmd h) = cmd) hs = None
        /\ list_find (fun h => handler_callback h = None) hs = Some (i, h)
        /\ comm_register_callback instance cmd callback
           = (true, set_handlers
                      (alter (handler_install cmd callback) i (handlers instance))
                      instance)).
Proof.
  intros hs. unfold comm_register_callback.
  destruct callback as [cb|]; [|left; split; [reflexivity | left; reflexivity]].
  destruct (Z.geb_spec (strlen cmd) COMM_MAX_CMD_LENGTH) as [Hlong|Hshort];
    [left; split; [reflexivity | right; left; lia]|].
  unfold comm_find_callback_index, comm_find_free_slot. fold hs.
  destruct (list_find (fun h => is_Some (handler_callback h)
                                /\ cstr (handler_cmd h) = cmd) hs)
    as [[i h]|] eqn:Hfind; simpl.
  - right; left. exists i, h. repeat split; (discriminate || assumption || reflexivity).
  - destruct (list_find (fun h => handler_callback h = None) hs)
      as [[i h]|] eqn:Hfree; simpl.
    + right; right. exists i, h.
      repeat split; (discriminate || assumption || reflexivity).
    + left. split; [reflexivity|]. right; right. split; [reflexivity|].
      apply list_find_None in Hfree. revert Hfree. apply List.Forall_impl.
      intros a Ha. destruct (handler_callback a); [eexists; reflexivity | contradiction].
Qed.

(** X12. A registered callback is the one dispatched: after
    [comm_register_callback] has accepted a callback for a command, be it
    new or a replacement, [comm_call_callback] for that command invokes
    exactly this callback with the command and the data, and the instance
    differs from the one before in its table only. *)
Theorem registered_callback_is_dispatched (instance after : comm_instance_t)
    (cmd : list Z) (callback : comm_callback_t) :
  is_cstring cmd ->
  comm_register_callback instance cmd (Some callback) = (true, after) ->
  (forall data w,
      comm_call_callback after cmd data w
      = (true, after_event w (EvCommand callback cmd data)))
  /\ set_handlers (handlers instance) after = instance.
Proof.
  intros Hs Hreg.
  destruct (comm_register_callback_cases instance cmd (Some callback))
    as [[Hfail _] | [(i & h & _ & Hlen & Hfind & Hrun)
                    | (i & h & _ & Hlen & Hnone & Hfree & Hrun)]];
    rewrite Hreg in *; try discriminate;
    injection Hrun as ->; (split; [|destruct instance; reflexivity]);
    intros data w; rewrite comm_call_callback_first; cbn [handlers set_handlers].
  - rewrite take_alter_lt by (eapply list_find_index_lt; exact Hfind).
    rewrite (first_callback_replace cmd callback _ i h Hfind). reflexivity.
  - rewrite take_alter_lt by (eapply list_find_index_lt; exact Hfree).
    rewrite (first_callback_install cmd callback _ i h Hs); try reflexivity.
    + unfold strlen, COMM_MAX_CMD_LENGTH in Hlen. lia.
    + pose proof (list_find_first_callback cmd
                    (take (Z.to_nat COMM_MAX_CALLBACKS) (handlers instance))) as H.
      rewrite Hnone in H. exact H.
    + exact Hfree.
Qed.

Lemma registered_callback_is_dispatched_witness :
  comm_call_callback
    (snd (comm_register_callback (fresh_channel 1) text_PING (Some 5%nat)))
    text_PING text_TEST (quiet_world 0)
  = (true, after_event (quiet_world 0) (EvCommand 5%nat text_PING text_TEST)).
Proof.
  refine (proj1 (registered_callback_is_dispatched (fresh_channel 1) _
                   text_PING 5%nat _ _) text_TEST (quiet_world 0)).
  - repeat constructor; lia.
  - reflexivity.
Defined.

(** X13. Registering a command leaves the dispatch of every other command
    as it was, whether the registration is accepted or refused. *)
Theorem registration_keeps_other_commands (instance : comm_instance_t)
    (cmd other : list Z) (callback : option comm_callback_t) :
  is_cstring cmd -> other <> cmd ->
  forall data w,
    comm_call_callback (snd (comm_register_callback instance cmd callback))
      other data w
    = comm_call_callback instance other data w.
Proof.
  intros Hs Hother data w.
  destruct (comm_register_callback_cases instance cmd callback)
    as [[Hfail _] | [(i & h & _ & Hlen & Hfind & Hrun)
                    | (i & h & _ & Hlen & Hnone & Hfree & Hrun)]];
    [rewrite Hfail; reflexivity | |];
    rewrite Hrun, !comm_call_callback_first; cbn [snd handlers set_handlers].
  - pose proof (list_find_index_lt _ _ _ _ _ Hfind) as Hlt.
    rewrite take_alter_lt by exact Hlt.
    apply list_find_Some in Hfind as (Hi & [_ Hcmd] & _).
    rewrite first_callback_alter_other; [reflexivity|].
    intros h' Hh'. rewrite Hi in Hh'. injection Hh' as <-.
    cbn [handler_set_callback handler_cmd]. split; intros [_ Heq]; congruence.
  - pose proof (list_find_index_lt _ _ _ _ _ Hfree) as Hlt.
    rewrite take_alter_lt by exact Hlt.
    apply list_find_Some in Hfree as (Hi & Hcb & _).
    rewrite first_callback_alter_other; [reflexivity|].
    intros h' Hh'. rewrite Hi in Hh'. injection Hh' as <-. split.
    + intros [[c Hc] _]. congruence.
    + intros [_ Heq]. rewrite cstr_handler_install in Heq; [congruence | exact Hs |].
      unfold strlen, COMM_MAX_CMD_LENGTH in Hlen. lia.
Qed.

Lemma registration_keeps_other_commands_witness :
  comm_call_callback
    (snd (comm_register_callback
            (snd (comm_register_callback (fresh_channel 1) text_PING (Some 5%nat)))
            text_TEST (Some 6%nat)))
    text_PING [] (quiet_world 0)
  = comm_call_callback
      (snd (comm_register_callback (fresh_channel 1) text_PING (Some 5%nat)))
      text_PING [] (quiet_world 0).
Proof.
  apply registration_keeps_other_commands.
  - repeat constructor; lia.
  - discriminate.
Defined.

(** X14. When a registration is refused: [comm_register_callback] returns
    false exactly when the callback is [NULL], or the command has 16 bytes
    or more, or the command has no slot yet and each of the eight slots
    holds a callback; and a refused registration leaves the instance
    unchanged. *)
Theorem registration_refused_iff (instance : comm_instance_t) (cmd : list Z)
    (callback : option comm_callback_t) :
  (fst (comm_register_callback instance cmd callback) = false
   <-> (callback = None \/ COMM_MAX_CMD_LENGTH <= strlen cmd
        \/ (comm_find_callback_index instance cmd = None
            /\ Forall (fun h => is_Some (handler_callback h))
                 (take (Z.to_nat COMM_MAX_CALLBACKS) (handlers instance)))))
  /\ (fst (comm_register_callback instance cmd callback) = false ->
      snd (comm_register_callback instance cmd callback) = instance).
Proof.
  destruct (comm_register_callback_cases instance cmd callback)
    as [[Hfail Hwhy] | [(i & h & Hcb & Hlen & Hfind & Hrun)
                       | (i & h & Hcb & Hlen & Hnone & Hfree & Hrun)]].
  - rewrite Hfail. split; [split; [intros _; exact Hwhy | reflexivity] | reflexivity].
  - rewrite Hrun. split; [split; [discriminate|] | discriminate].
    intros [Hc | [Hl | [Hno _]]]; [contradiction | lia |].
    unfold comm_find_callback_index in Hno. rewrite Hfind in Hno. discriminate.
  - rewrite Hrun. split; [split; [discriminate|] | discriminate].
    intros [Hc | [Hl | [_ Hfull]]]; [contradiction | lia |].
    apply list_find_Some in Hfree as (Hi & Hfree & _).
    apply (Forall_lookup_1 _ _ _ _ Hfull) in Hi as [c Hc]. congruence.
Qed.

Lemma length_cstr_app_nul (a b : list Z) :
  (length (cstr (a ++ 0%Z :: b)) <= length a)%nat.
Proof.
  induction a as [|x a IH]; simpl; [lia|].
  destruct (x =? 0); simpl; lia.
Qed.

Lemma first_callback_none_long cmd hs :
  Forall (fun h => (length (cstr (handler_cmd h)) <= 15)%nat) hs ->
  COMM_MAX_CMD_LENGTH <= strlen cmd ->
  first_callback hs cmd = None.
Proof.
  intros Hshort Hlong.
  induction Hshort as [|h hs Hh _ IH]; [reflexivity|].
  cbn [first_callback].
  destruct (decide (is_Some (handler_callback h) /\ cstr (handler_cmd h) = cmd))
    as [[_ Heq]|_]; [|exact IH].
  rewrite Heq in Hh. unfold strlen, COMM_MAX_CMD_LENGTH in Hlong. lia.
Qed.

(** X15. No command of 16 bytes or more is ever dispatched: when every
    command in the table reads as at most 15 bytes, as after
    [comm_instance_init], every registration keeps it so, and
    [comm_call_callback] with a longer command invokes nothing and returns
    false, although the parser accepts commands of 16 bytes. *)
Theorem long_command_never_dispatched (instance : comm_instance_t)
    (cmd : list Z) :
  handlers_short instance ->
  (forall registered callback,
      handlers_short (snd (comm_register_callback instance registered callback)))
  /\ (COMM_MAX_CMD_LENGTH <= strlen cmd ->
      forall data w, comm_call_callback instance cmd data w = (false, w)).
Proof.
  intros Hshort. split.
  - intros registered callback.
    destruct (comm_register_callback_cases instance registered callback)
      as [[Hfail _] | [(i & h & _ & _ & _ & Hrun) | (i & h & _ & _ & _ & _ & Hrun)]];
      rewrite ?Hfail, ?Hrun; [exact Hshort | |];
      unfold handlers_short; cbn [snd handlers set_handlers];
      apply Forall_alter; try exact Hshort; intros x _ Hx.
    + exact Hx.
    + unfold handler_install, strncpy_term. cbn [handler_cmd].
      rewrite !app_assoc, <- app_assoc. cbn [app].
      etransitivity; [apply length_cstr_app_nul|].
      rewrite length_app, length_take, length_replicate. lia.
  - intros Hlong data w. rewrite comm_call_callback_first.
    rewrite first_callback_none_long; [reflexivity | | exact Hlong].
    apply Forall_take. exact Hshort.
Qed.

Lemma long_command_never_dispatched_witness :
  comm_call_callback
    (snd (comm_register_callback (fresh_channel 1) text_PING (Some 5%nat)))
    sixteen_bytes [] (quiet_world 0)
  = (false, quiet_world 0).
Proof.
  refine (proj2 (long_command_never_dispatched
                   (snd (comm_register_callback (fresh_channel 1) text_PING (Some 5%nat)))
                   sixteen_bytes _) _ [] (quiet_world 0)).
  - vm_compute. repeat (apply List.Forall_cons; [lia|]). apply List.Forall_nil.
  - vm_compute. discriminate.
Defined.

(* ===================================================================== *)
(** ** The instance array *)
(* ===================================================================== *)

Lemma list_find_snoc {A} (P : A -> Prop) `{forall x, Decision (P x)} l x :
  list_find P (l ++ [x])
  = match list_find P l with
    | Some found => Some found
    | None => if decide (P x) then Some (length l, x) else None
    end.
Proof.
  induction l as [|y l IH]; cbn [app list_find length].
  - destruct (decide (P x)); reflexivity.
  - destruct (decide (P y)); [reflexivity|]. rewrite IH.
    destruct (list_find P l) as [[i z]|]; [reflexivity|].
    destruct (decide (P x)); reflexivity.
Qed.

(** The three ways [comm_add_uart] ends. *)
Lemma comm_add_uart_cases manager uart :
  (uart = 0 /\ comm_add_uart manager uart = (false, manager, []))
  \/ (uart <> 0 /\ is_Some (comm_find_instance manager uart)
      /\ comm_add_uart manager uart = (true, manager, []))
  \/ (uart <> 0 /\ comm_find_instance manager uart = None
      /\ COMM_MAX_INSTANCES <= instance_count manager
      /\ comm_add_uart manager uart
         = (false, manager, [SetupErrorCapacity COMM_MAX_INSTANCES]))
  \/ (uart <> 0 /\ comm_find_instance manager uart = None
      /\ instance_count manager < COMM_MAX_INSTANCES
      /\ comm_add_uart manager uart
         = (true,
            mk_manager
              (<[Z.to_nat (instance_count manager)
                 := comm_instance_init uart 1000 3]> (instances manager))
              ((instance_count manager + 1) mod 256),
            [SetupReceiveIT uart])).
Proof.
  unfold comm_add_uart, comm_create_uart_instance, comm_create_instance.
  destruct (Z.eqb_spec uart 0) as [Hz|Hnz]; [left; split; [exact Hz | reflexivity]|].
  right.
  destruct (comm_find_instance manager uart) as [found|] eqn:Hfind.
  - left. repeat split; [exact Hnz | eexists; reflexivity].
  - right.
    destruct (Z.geb_spec (instance_count manager) COMM_MAX_INSTANCES) as [Hfull|Hroom].
    + left. repeat split; assumption.
    + right. repeat split; assumption.
Qed.

Lemma comm_find_instance_handles manager uart :
  uart <> 0 ->
  (comm_find_instance manager uart = None <-> ~ In uart (manager_handles manager)).
Proof.
  intros Hnz. unfold comm_find_instance, manager_handles.
  destruct (Z.eqb_spec uart 0) as [|_]; [contradiction|].
  generalize (take (Z.to_nat (instance_count manager)) (instances manager)).
  intros l. destruct (list_find (fun i => huart i = uart) l) as [[i x]|] eqn:Hfind; simpl.
  - apply list_find_Some in Hfind as (Hi & Hx & _).
    split; [discriminate|]. intros Hnot. exfalso. apply Hnot.
    rewrite <- Hx. apply in_map. apply list_elem_of_In.
    eapply list_elem_of_lookup_2. exact Hi.
  - apply list_find_None in Hfind. split; [|reflexivity]. intros _ Hin.
    apply in_map_iff in Hin as (x & Hx & Hin).
    rewrite List.Forall_forall in Hfind. exact (Hfind x Hin Hx).
Qed.

(** The array once a new channel has taken the next slot. *)
Lemma take_added_channel manager new :
  length (instances manager) = Z.to_nat COMM_MAX_INSTANCES ->
  0 <= instance_count manager < COMM_MAX_INSTANCES ->
  Z.to_nat ((instance_count manager + 1) mod 256)
  = S (Z.to_nat (instance_count manager))
  /\ take (S (Z.to_nat (instance_count manager)))
       (<[Z.to_nat (instance_count manager) := new]> (instances manager))
     = take (Z.to_nat (instance_count manager)) (instances manager) ++ [new].
Proof.
  intros Hlen Hcount. unfold COMM_MAX_INSTANCES in *. split.
  - rewrite Z.mod_small by lia. lia.
  - rewrite (take_S_r _ _ new) by (apply list_lookup_insert_eq; lia).
    rewrite take_insert_ge by lia. reflexivity.
Qed.

Lemma manager_handles_added manager uart :
  length (instances manager) = Z.to_nat COMM_MAX_INSTANCES ->
  0 <= instance_count manager < COMM_MAX_INSTANCES ->
  manager_handles
    (mk_manager
       (<[Z.to_nat (instance_count manager) := comm_instance_init uart 1000 3]>
          (instances manager))
       ((instance_count manager + 1) mod 256))
  = manager_handles manager ++ [uart].
Proof.
  intros Hlen Hcount. unfold manager_handles. cbn [instance_count instances].
  destruct (take_added_channel manager (comm_instance_init uart 1000 3) Hlen Hcount)
    as [-> ->].
  rewrite map_app. reflexivity.
Qed.

Lemma comm_find_instance_added manager uart other :
  length (instances manager) = Z.to_nat COMM_MAX_INSTANCES ->
  0 <= instance_count manager < COMM_MAX_INSTANCES ->
  uart <> 0 ->
  comm_find_instance
    (mk_manager
       (<[Z.to_nat (instance_count manager) := comm_instance_init uart 1000 3]>
          (instances manager))
       ((instance_count manager + 1) mod 256)) other
  = match comm_find_instance manager other with
    | Some found => Some found
    | None => if decide (other = uart)
              then Some (Z.to_nat (instance_count manager)) else None
    end.
Proof.
  intros Hlen Hcount Hnz. unfold comm_find_instance.
  cbn [instance_count instances].
  destruct (Z.eqb_spec other 0) as [Hz|_].
  - destruct (decide (other = uart)); [congruence | reflexivity].
  - destruct (take_added_channel manager (comm_instance_init uart 1000 3) Hlen Hcount)
      as [-> ->].
    rewrite list_find_snoc.
    destruct (list_find _ (take _ (instances manager))) as [[i x]|]; [reflexivity|].
    cbn [huart comm_instance_init]. rewrite length_take.
    replace (Z.to_nat (instance_count manager) `min` length (instances manager))%nat
      with (Z.to_nat (instance_count manager))
      by (unfold COMM_MAX_INSTANCES in *; lia).
    destruct (decide (uart = other)), (decide (other = uart)); try congruence;
      reflexivity.
Qed.

Lemma manager_ok_added manager uart :
  manager_ok manager -> uart <> 0 ->
  comm_find_instance manager uart = None ->
  instance_count manager < COMM_MAX_INSTANCES ->
  manager_ok
    (mk_manager
       (<[Z.to_nat (instance_count manager) := comm_instance_init uart 1000 3]>
          (instances manager))
       ((instance_count manager + 1) mod 256)).
Proof.
  intros (Hlen & Hcount & Hdup & Hnz) Huart Hnew Hroom.
  unfold manager_ok.
  rewrite manager_handles_added by (assumption || lia).
  cbn [instance_count instances]. rewrite length_insert.
  unfold COMM_MAX_INSTANCES in *. rewrite Z.mod_small by lia.
  repeat split; try assumption; try lia.
  - apply list.NoDup_app.
    split; [exact Hdup|]. split; [|apply list.NoDup_singleton].
    intros x Hx Hin. apply list_elem_of_singleton in Hin as ->.
    apply comm_find_instance_handles in Hnew; [|exact Huart].
    apply Hnew. apply list_elem_of_In. exact Hx.
  - apply Forall_app. split; [exact Hnz | repeat constructor; exact Huart].
Qed.

(** X16. Adding a channel: for a handle that is not [NULL] and has no
    channel yet, with a slot free, [comm_add_uart] succeeds, arms the
    receive interrupt once, and puts an instance initialised with a
    timeout of 1000 ms and 3 retries into the next slot; afterwards the
    handle is found there, the channel is ready, every other handle is
    found where it was, and every other slot is untouched. *)
Theorem added_channel_is_found (manager : comm_manager_t) (uart : Z) :
  manager_ok manager -> uart <> 0 ->
  comm_find_instance manager uart = None ->
  instance_count manager < COMM_MAX_INSTANCES ->
  let slot := Z.to_nat (instance_count manager) in
  let '(added, after, evs) := comm_add_uart manager uart in
  added = true
  /\ evs = [SetupReceiveIT uart]
  /\ comm_get_instance_count after = comm_get_instance_count manager + 1
  /\ comm_find_instance after uart = Some slot
  /\ instances after !! slot = Some (comm_instance_init uart 1000 3)
  /\ comm_is_ready after uart = true
  /\ (forall other, other <> uart ->
        comm_find_instance after other = comm_find_instance manager other)
  /\ (forall j, j <> slot -> instances after !! j = instances manager !! j).
Proof.
  intros Hok Huart Hnew Hroom slot. subst slot.
  pose proof Hok as (Hlen & Hcount & _).
  destruct (comm_add_uart_cases manager uart)
    as [[Hz _] | [(_ & [i Hi] & _) | [(_ & _ & Hfull & _) | (_ & _ & _ & ->)]]];
    [contradiction | congruence | lia |].
  assert (Hslot : <[Z.to_nat (instance_count manager)
                    := comm_instance_init uart 1000 3]> (instances manager)
                  !! Z.to_nat (instance_count manager)
                  = Some (comm_instance_init uart 1000 3)).
  { apply list_lookup_insert_eq. unfold COMM_MAX_INSTANCES in *. lia. }
  assert (Hfound : comm_find_instance
                     (mk_manager
                        (<[Z.to_nat (instance_count manager)
                           := comm_instance_init uart 1000 3]> (instances manager))
                        ((instance_count manager + 1) mod 256)) uart
                   = Some (Z.to_nat (instance_count manager))).
  { rewrite comm_find_instance_added by (assumption || lia).
    rewrite Hnew. destruct (decide (uart = uart)); [reflexivity | contradiction]. }
  split; [reflexivity|]. split; [reflexivity|]. split.
  { unfold comm_get_instance_count. cbn [instance_count].
    unfold COMM_MAX_INSTANCES in *. apply Z.mod_small. lia. }
  split; [exact Hfound|]. split; [exact Hslot|]. split.
  { unfold comm_is_ready. rewrite Hfound. cbn [mbind option_bind instances].
    rewrite Hslot. reflexivity. }
  split.
  - intros other Hother.
    rewrite comm_find_instance_added by (assumption || lia).
    destruct (comm_find_instance manager other); [reflexivity|].
    destruct (decide (other = uart)); [contradiction | reflexivity].
  - intros j Hj. cbn [instances]. apply list_lookup_insert_ne. congruence.
Qed.

Lemma added_channel_is_found_witness :
  comm_find_instance (comm_add_uart comm_manager_init 7).1.2 7 = Some 0%nat.
Proof.
  pose proof (added_channel_is_found comm_manager_init 7) as H.
  destruct (comm_add_uart comm_manager_init 7) as [[added after] evs].
  refine (proj1 (proj2 (proj2 (proj2 (H _ _ _ _))))).
  - unfold manager_ok. vm_compute.
    repeat split; try discriminate; constructor.
  - discriminate.
  - reflexivity.
  - vm_compute. reflexivity.
Defined.

(** X17. When [comm_add_uart] succeeds and when it changes anything: it
    returns true exactly for a handle that is not [NULL] and either has a
    channel already or finds one of the eight slots free; for a handle
    that has a channel it changes nothing (the instance is not initialised
    again and no receive is armed); it reports the capacity error exactly
    when a new handle finds all slots taken; and whenever it returns false
    the manager is as before. *)
Theorem add_uart_result (manager : comm_manager_t) (uart : Z) :
  let '(added, after, evs) := comm_add_uart manager uart in
  (added = true
   <-> uart <> 0
       /\ (is_Some (comm_find_instance manager uart)
           \/ instance_count manager < COMM_MAX_INSTANCES))
  /\ (is_Some (comm_find_instance manager uart) -> after = manager /\ evs = [])
  /\ (evs = [SetupErrorCapacity COMM_MAX_INSTANCES]
      <-> uart <> 0 /\ comm_find_instance manager uart = None
          /\ COMM_MAX_INSTANCES <= instance_count manager)
  /\ (added = false -> after = manager).
Proof.
  assert (Hnull : comm_find_instance manager 0 = None) by reflexivity.
  destruct (comm_add_uart_cases manager uart)
    as [[Hz ->] | [(Hnz & [i Hi] & ->) | [(Hnz & Hnone & Hfull & ->)
                                         | (Hnz & Hnone & Hroom & ->)]]].
  - subst uart. rewrite Hnull.
    split; [split; [discriminate | intros [Hc _]; contradiction]|].
    split; [intros [? ?]; discriminate|].
    split; [split; [discriminate | intros [Hc _]; contradiction]|].
    reflexivity.
  - rewrite Hi.
    split; [split; [intros _; split; [exact Hnz | left; eexists; reflexivity]
                   | reflexivity]|].
    split; [intros _; split; reflexivity|].
    split; [split; [discriminate | intros (_ & ? & _); discriminate]|].
    discriminate.
  - rewrite Hnone.
    split; [split; [discriminate|]|].
    { intros (_ & [[? ?] | ?]); [discriminate | lia]. }
    split; [intros [? ?]; discriminate|].
    split; [split; [intros _; repeat split; assumption | reflexivity]|].
    reflexivity.
  - rewrite Hnone.
    split; [split; [intros _; split; [exact Hnz | right; exact Hroom]
                   | reflexivity]|].
    split; [intros [? ?]; discriminate|].
    split; [split; [discriminate | intros (_ & _ & ?); lia]|].
    discriminate.
Qed.

Lemma manager_ok_add_uart manager uart :
  manager_ok manager -> manager_ok (comm_add_uart manager uart).1.2.
Proof.
  intros Hok.
  destruct (comm_add_uart_cases manager uart)
    as [[Hz ->] | [(Hnz & _ & ->) | [(Hnz & Hnone & Hfull & ->)
                                    | (Hnz & Hnone & Hroom & ->)]]];
    try exact Hok.
  apply manager_ok_added; assumption.
Qed.

(** X18. The channels stay distinct: after [comm_init] and any sequence of
    [comm_add_uart] calls the array has its eight slots, at most eight are
    in use, no two channels in use share a handle and none has the [NULL]
    handle, and [comm_find_instance] finds a channel exactly for the
    handles of the channels in use. *)
Theorem channels_stay_distinct (uarts : list Z) :
  manager_ok (comm_add_uarts uarts comm_manager_init)
  /\ forall uart,
       In uart (manager_handles (comm_add_uarts uarts comm_manager_init))
       <-> is_Some (comm_find_instance (comm_add_uarts uarts comm_manager_init) uart).
Proof.
  assert (Hinit : manager_ok comm_manager_init).
  { unfold manager_ok. vm_compute. repeat split; try discriminate; constructor. }
  assert (Hok : manager_ok (comm_add_uarts uarts comm_manager_init)).
  { unfold comm_add_uarts. generalize comm_manager_init Hinit.
    induction uarts as [|u uarts IH]; intros manager Hm; [exact Hm|].
    cbn [fold_left]. apply IH, manager_ok_add_uart, Hm. }
  split; [exact Hok|]. intros uart.
  destruct Hok as (_ & _ & _ & Hnz).
  destruct (Z.eq_dec uart 0) as [->|Huart].
  - split.
    + intros Hin. rewrite List.Forall_forall in Hnz. now apply Hnz in Hin.
    + intros [i Hi]. discriminate.
  - pose proof (comm_find_instance_handles
                  (comm_add_uarts uarts comm_manager_init) uart Huart) as Hiff.
    destruct (comm_find_instance _ uart) as [i|].
    + split; [eexists; reflexivity|]. intros _.
      destruct (in_dec Z.eq_dec uart
                  (manager_handles (comm_add_uarts uarts comm_manager_init)))
        as [Hin|Hnot]; [exact Hin|].
      apply Hiff in Hnot. discriminate.
    + split; [|intros [? ?]; discriminate].
      intros Hin. exfalso. apply (proj1 Hiff eq_refl). exact Hin.
Qed.

(* ===================================================================== *)
(** ** From the wire to the application and back *)
(* ===================================================================== *)

Lemma parser_keeps_send_side now instance b :
  send_side (comm_process_byte_in_interrupt now instance b) = send_side instance.
Proof.
  unfold comm_process_byte_in_interrupt.
  destruct (new_frame_available instance); [reflexivity|].
  destruct (parse_state instance);
    repeat match goal with
           | |- context [if ?c then _ else _] => destruct c
           end; reflexivity.
Qed.

Lemma receive_bytes_send_side clock bytes : forall k instance,
  send_side (receive_bytes clock k instance bytes) = send_side instance.
Proof.
  induction bytes as [|b bytes IH]; intros k instance; [reflexivity|].
  cbn [receive_bytes]. rewrite IH. apply parser_keeps_send_side.
Qed.

Lemma send_side_fields a b :
  send_side a = send_side b ->
  huart a = huart b /\ state a = state b /\ rx_sequence a = rx_sequence b
  /\ expected_ack_seq a = expected_ack_seq b /\ handlers a = handlers b
  /\ retry_count a = retry_count b /\ max_retry a = max_retry b.
Proof. unfold send_side. intros [=]. repeat split; assumption. Qed.

(** A valid data frame inside the window, taken by a channel that does not
    wait for the acknowledgement of the same number: acknowledged, then
    dispatched. *)
Lemma comm_handle_complete_frame_delivers instance frame w :
  data_frame frame ->
  comm_is_valid_rx_sequence instance (frame_sequence frame) = true ->
  state instance <> COMM_STATE_WAIT_ACK ->
  comm_handle_complete_frame instance frame w
  = (comm_update_rx_sequence instance (frame_sequence frame),
     mk_world (w_tick w) (w_hal w)
       (w_trace w
        ++ delivery_events instance (cstr (frame_cmd frame))
             (cstr (frame_data frame)) (frame_sequence frame))).
Proof.
  intros (Hvalid & Hack & Hnak) Hwin Hstate.
  unfold comm_handle_complete_frame. rewrite Hvalid. cbn [negb].
  destruct (decide (cstr (frame_cmd frame) = COMM_CMD_ACK)); [contradiction|].
  destruct (decide (cstr (frame_cmd frame) = COMM_CMD_NAK)); [contradiction|].
  rewrite Hwin. rewrite bool_decide_eq_false_2 by exact Hstate. cbn [andb].
  munfold.
  destruct (comm_send_ack_run
              (comm_update_rx_sequence instance (frame_sequence frame))
              (frame_sequence frame) w) as (sent & ->).
  rewrite comm_call_callback_first. unfold delivery_events.
  cbn [handlers comm_update_rx_sequence set_rx_sequence huart].
  destruct (first_callback _ _); unfold after_event; cbn [w_tick w_hal w_trace];
    rewrite <- ?app_assoc; reflexivity.
Qed.

(** X19. Delivery end to end: the bytes of a well-formed frame with a
    correct CRC and a sequence number inside the window, received by a
    channel that is not waiting for an acknowledgement, are turned by the
    next tick into exactly one acknowledgement for that number followed by
    one invocation of the callback registered for the command (none when
    no callback is registered); the receive sequence becomes that number
    and the slot for the next frame is free again. *)
Theorem frame_from_wire_is_delivered (clock : nat -> Z) (k : nat)
    (receiver : comm_instance_t) (cmd data : list Z) (seq : Z) (w : World) :
  new_frame_available receiver = false ->
  parse_state receiver = FRAME_STATE_IDLE ->
  (3 <= length (rx_buffer receiver))%nat ->
  state receiver <> COMM_STATE_WAIT_ACK ->
  is_cstring cmd -> is_cstring data ->
  (length cmd <= 16)%nat -> (length data <= 64)%nat ->
  Forall (fun b => b <> COMM_CMD_DATA_SEPARATOR) cmd ->
  Forall (fun b => b <> COMM_FIELD_SEPARATOR) data ->
  is_byte seq ->
  cmd <> COMM_CMD_ACK -> cmd <> COMM_CMD_NAK ->
  comm_is_valid_rx_sequence receiver seq = true ->
  let body := frame_body cmd data seq in
  let frame := wire_frame cmd data seq (comm_crc8_calculate (Some body) (strlen body)) in
  let '(after, w') := comm_tick_instance (receive_bytes clock k receiver frame) w in
  emitted w w' = delivery_events receiver cmd data seq
  /\ rx_sequence after = seq
  /\ new_frame_available after = false
  /\ pending_frame after = frame_zero
  /\ parse_state after = FRAME_STATE_IDLE
  /\ state after = state receiver.
Proof.
  intros Hflag Hps Hrx Hstate Hcmd Hdata Hlc Hld Hnc Hnd Hseq Hack Hnak Hwin body frame.
  destruct (receive_wire_frame clock k receiver cmd data seq
              (comm_crc8_calculate (Some body) (strlen body))
              Hflag Hps Hrx Hcmd Hdata Hlc Hld Hnc Hnd Hseq
              (comm_crc8_calculate_is_byte _ _))
    as (Hps1 & Hflag1 & Hvalid1 & Hcmd1 & Hdata1 & Hseq1 & _).
  fold body in Hflag1, Hvalid1. rewrite Z.eqb_refl in Hflag1, Hvalid1.
  fold frame in Hps1, Hflag1, Hvalid1, Hcmd1, Hdata1, Hseq1.
  destruct (send_side_fields _ _ (receive_bytes_send_side clock frame k receiver))
    as (Hhu & Hst & Hrs & _ & Hhs & _).
  set (received := receive_bytes clock k receiver frame) in *.
  clearbody received.
  unfold comm_tick_instance, comm_is_timeout. munfold.
  destruct (decide (state received <> COMM_STATE_WAIT_ACK)) as [_|Hw];
    [|exfalso; apply Hw; congruence].
  rewrite comm_is_frame_timeout_idle by exact Hps1. rewrite Hflag1.
  rewrite comm_handle_complete_frame_delivers.
  - rewrite Hcmd1, Hdata1, Hseq1.
    unfold delivery_events. rewrite Hhu, Hhs.
    split; [apply emitted_extends; repeat split; reflexivity|].
    repeat split; try reflexivity; simpl; assumption.
  - repeat split; [exact Hvalid1 | congruence | congruence].
  - rewrite Hseq1. unfold comm_is_valid_rx_sequence, rx_sequence_diff in *.
    rewrite Hrs. exact Hwin.
  - congruence.
Qed.

Lemma frame_from_wire_is_delivered_witness :
  rx_sequence
    (fst (comm_tick_instance
            (receive_bytes (fun _ => 0) 0 (fresh_channel 1)
               (wire_frame text_PING text_TEST 4
                  (comm_crc8_calculate (Some (frame_body text_PING text_TEST 4))
                     (strlen (frame_body text_PING text_TEST 4)))))
            (quiet_world 0))) = 4.
Proof.
  pose proof (frame_from_wire_is_delivered (fun _ => 0) 0 (fresh_channel 1)
                text_PING text_TEST 4 (quiet_world 0)) as H.
  cbv zeta in H.
  destruct (comm_tick_instance _ _) as [after w'].
  refine (proj1 (proj2 (H _ _ _ _ _ _ _ _ _ _ _ _ _ _)));
    try reflexivity; try discriminate;
    try (simpl; lia); try (unfold is_byte; lia);
    try (repeat constructor; unfold COMM_CMD_DATA_SEPARATOR, COMM_FIELD_SEPARATOR; lia).
Defined.

Lemma comm_is_timeout_send_side a b w :
  send_side a = send_side b -> comm_is_timeout a w = comm_is_timeout b w.
Proof.
  unfold send_side. intros Hs.
  assert (H : state a = state b /\ last_send_time a = last_send_time b
              /\ timeout_ms a = timeout_ms b)
    by (injection Hs; intros; repeat split; assumption).
  destruct H as (H1 & H2 & H3).
  unfold comm_is_timeout. rewrite H1, H2, H3. reflexivity.
Qed.

(** An acknowledgement or a rejection, as [comm_send_ack] and
    [comm_send_nak] put it on the wire, once the bytes went through the
    parser of an idle channel. *)
Lemma receive_control_frame clock k instance name seq :
  new_frame_available instance = false ->
  parse_state instance = FRAME_STATE_IDLE ->
  (3 <= length (rx_buffer instance))%nat ->
  name = COMM_CMD_ACK \/ name = COMM_CMD_NAK ->
  is_byte seq ->
  let body := frame_body name (hex2 seq) 0 in
  let received :=
    receive_bytes clock k instance
      (wire_frame name (hex2 seq) 0 (comm_crc8_calculate (Some body) (strlen body))) in
  parse_state received = FRAME_STATE_IDLE
  /\ new_frame_available received = true
  /\ frame_is_valid (pending_frame received) = true
  /\ cstr (frame_cmd (pending_frame received)) = name
  /\ strtol16_u8 (cstr (frame_data (pending_frame received))) = seq
  /\ send_side received = send_side instance.
Proof.
  intros Hflag Hps Hrx Hname Hseq body received.
  destruct (hex2_facts seq Hseq) as (Hs1 & Hs2 & _ & Hs4).
  assert (Hn : is_cstring name /\ (length name <= 16)%nat
               /\ Forall (fun b => b <> COMM_CMD_DATA_SEPARATOR) name).
  { destruct Hname as [-> | ->]; repeat split; try (simpl; lia);
      repeat constructor; unfold COMM_CMD_DATA_SEPARATOR; lia. }
  destruct Hn as (Hn1 & Hn2 & Hn3).
  destruct (receive_wire_frame clock k instance name (hex2 seq) 0
              (comm_crc8_calculate (Some body) (strlen body))
              Hflag Hps Hrx Hn1 Hs1 Hn2 ltac:(simpl; lia) Hn3 Hs2
              ltac:(unfold is_byte; lia) (comm_crc8_calculate_is_byte _ _))
    as (H1 & H2 & H3 & H4 & H5 & _).
  fold body in H2, H3. rewrite Z.eqb_refl in H2, H3.
  fold received in H1, H2, H3, H4, H5.
  repeat split; try assumption.
  - rewrite H5. exact Hs4.
  - apply receive_bytes_send_side.
Qed.

(** X20. The handshake closes: when the acknowledgement for the expected
    sequence number arrives on the wire before the send timeout, the next
    tick returns the waiting channel to IDLE with the retry count at 0, so
    that it is ready for the next send; nothing is transmitted, no
    handler and no failure callback is invoked, and the receive sequence is
    not touched. *)
Theorem ack_from_wire_completes_send (clock : nat -> Z) (k : nat)
    (sender : comm_instance_t) (w : World) :
  state sender = COMM_STATE_WAIT_ACK ->
  new_frame_available sender = false ->
  parse_state sender = FRAME_STATE_IDLE ->
  (3 <= length (rx_buffer sender))%nat ->
  is_byte (expected_ack_seq sender) ->
  fst (comm_is_timeout sender w) = false ->
  let '(after, w') :=
    comm_tick_instance
      (receive_bytes clock k sender (ack_frame (expected_ack_seq sender))) w in
  state after = COMM_STATE_IDLE
  /\ retry_count after = 0
  /\ comm_instance_is_ready after = true
  /\ new_frame_available after = false
  /\ rx_sequence after = rx_sequence sender
  /\ List.filter is_transmit (emitted w w') = []
  /\ List.filter is_command (emitted w w') = []
  /\ List.filter is_fail (emitted w w') = [].
Proof.
  intros Hstate Hflag Hps Hrx Hseq Hnot.
  destruct (receive_control_frame clock k sender COMM_CMD_ACK
              (expected_ack_seq sender) Hflag Hps Hrx (or_introl eq_refl) Hseq)
    as (Hps1 & Hflag1 & Hvalid & Hcmd & Hdata & Hside).
  cbv zeta in Hps1, Hflag1, Hvalid, Hcmd, Hdata, Hside.
  fold (ack_frame (expected_ack_seq sender)) in Hps1, Hflag1, Hvalid, Hcmd, Hdata, Hside.
  set (received := receive_bytes clock k sender (ack_frame (expected_ack_seq sender))) in *.
  clearbody received.
  destruct (send_side_fields _ _ Hside) as (_ & Hst & Hrs & Hexp & _).
  unfold comm_tick_instance. munfold.
  rewrite (comm_is_timeout_send_side _ _ w Hside).
  pose proof (comm_is_timeout_world sender w) as Hw.
  destruct (comm_is_timeout sender w) as [timed_out w0].
  simpl in Hnot, Hw. subst timed_out w0.
  rewrite comm_is_frame_timeout_idle by exact Hps1. rewrite Hflag1.
  unfold comm_handle_complete_frame. rewrite Hvalid. cbn [negb].
  destruct (decide (cstr (frame_cmd (pending_frame received)) = COMM_CMD_ACK));
    [|contradiction].
  rewrite Hdata, Hexp, Z.eqb_refl.
  rewrite bool_decide_eq_true_2 by congruence. cbn [andb]. munfold.
  destruct (comm_set_state_run received COMM_STATE_IDLE w)
    as (evs & -> & Hf & Ht & Hc & _).
  assert (Hem : emitted w (mk_world (w_tick w) (w_hal w) (w_trace w ++ evs)) = evs)
    by (apply emitted_extends; repeat split; reflexivity).
  rewrite Hem. repeat split; try assumption; reflexivity.
Qed.

Lemma ack_from_wire_completes_send_witness :
  state
    (fst (comm_tick_instance
            (receive_bytes (fun _ => 0) 0 waiting_channel
               (ack_frame (expected_ack_seq waiting_channel)))
            (quiet_world 0))) = COMM_STATE_IDLE.
Proof.
  pose proof (ack_from_wire_completes_send (fun _ => 0) 0 waiting_channel
                (quiet_world 0)) as H.
  destruct (comm_tick_instance _ _) as [after w'].
  refine (proj1 (H _ _ _ _ _ _)); try reflexivity;
    try (simpl; lia); unfold is_byte; simpl; lia.
Defined.

(** X21. A rejection is a retry at once: when the NAK for the expected
    sequence number arrives on the wire before the send timeout, the next
    tick of a waiting channel with retries left counts one more retry and
    puts the stored frame on the wire again, staying in WAIT_ACK, without
    waiting for the timeout; with no retries left it gives up: the failure
    callback gets the retained command and data, and the channel is IDLE
    with the retry count at 0. *)
Theorem nak_from_wire_retries (clock : nat -> Z) (k : nat)
    (sender : comm_instance_t) (w : World) :
  state sender = COMM_STATE_WAIT_ACK ->
  new_frame_available sender = false ->
  parse_state sender = FRAME_STATE_IDLE ->
  (3 <= length (rx_buffer sender))%nat ->
  is_byte (expected_ack_seq sender) ->
  fst (comm_is_timeout sender w) = false ->
  let frame := take (Z.to_nat (tx_length sender)) (tx_buffer sender) in
  let '(after, w') :=
    comm_tick_instance
      (receive_bytes clock k sender (nak_frame (expected_ack_seq sender))) w in
  (retry_count sender < max_retry sender ->
   state after = COMM_STATE_WAIT_ACK
   /\ retry_count after = (retry_count sender + 1) mod 256
   /\ expected_ack_seq after = expected_ack_seq sender
   /\ hd_error (List.filter is_transmit (emitted w w'))
      = Some (EvTransmitIT (huart sender) frame)
   /\ List.filter is_fail (emitted w w') = [])
  /\ (max_retry sender <= retry_count sender ->
      state after = COMM_STATE_IDLE
      /\ retry_count after = 0
      /\ List.filter is_transmit (emitted w w') = []
      /\ List.filter is_fail (emitted w w')
         = match fail_callback sender with
           | Some callback =>
               [EvFail callback (cstr (current_cmd sender))
                  (cstr (current_data sender)) retry_failed_reason]
           | None => []
           end)
  /\ new_frame_available after = false
  /\ List.filter is_command (emitted w w') = [].
Proof.
  intros Hstate Hflag Hps Hrx Hseq Hnot frame. subst frame.
  destruct (receive_control_frame clock k sender COMM_CMD_NAK
              (expected_ack_seq sender) Hflag Hps Hrx (or_intror eq_refl) Hseq)
    as (Hps1 & Hflag1 & Hvalid & Hcmd & Hdata & Hside).
  cbv zeta in Hps1, Hflag1, Hvalid, Hcmd, Hdata, Hside.
  fold (nak_frame (expected_ack_seq sender)) in Hps1, Hflag1, Hvalid, Hcmd, Hdata, Hside.
  set (received := receive_bytes clock k sender (nak_frame (expected_ack_seq sender))) in *.
  clearbody received.
  assert (Hs : huart received = huart sender /\ state received = state sender
               /\ expected_ack_seq received = expected_ack_seq sender
               /\ tx_buffer received = tx_buffer sender
               /\ tx_length received = tx_length sender
               /\ max_retry received = max_retry sender
               /\ retry_count received = retry_count sender
               /\ current_cmd received = current_cmd sender
               /\ current_data received = current_data sender
               /\ fail_callback received = fail_callback sender)
    by (unfold send_side in Hside; injection Hside; intros;
        repeat split; assumption).
  destruct Hs as (Hhu & Hst & Hexp & Hbuf & Hlen & Hmax & Hretry & Hcc & Hcd & Hfc).
  unfold comm_tick_instance. munfold.
  rewrite (comm_is_timeout_send_side _ _ w Hside).
  pose proof (comm_is_timeout_world sender w) as Hw.
  destruct (comm_is_timeout sender w) as [timed_out w0].
  simpl in Hnot, Hw. subst timed_out w0.
  rewrite comm_is_frame_timeout_idle by exact Hps1. rewrite Hflag1.
  unfold comm_handle_complete_frame. rewrite Hvalid. cbn [negb].
  destruct (decide (cstr (frame_cmd (pending_frame received)) = COMM_CMD_ACK))
    as [Hbad|_]; [rewrite Hcmd in Hbad; discriminate|].
  destruct (decide (cstr (frame_cmd (pending_frame received)) = COMM_CMD_NAK));
    [|contradiction].
  rewrite Hdata, Hexp, Z.eqb_refl.
  rewrite bool_decide_eq_true_2 by congruence. cbn [andb].
  pose proof (comm_handle_timeout_retransmits received w) as Hre.
  pose proof (comm_handle_timeout_retry received w) as Hretry1.
  pose proof (comm_handle_timeout_exhausted received w) as Hgive.
  destruct (comm_handle_timeout received w) as [i2 w2].
  cbn [fst snd] in Hre.
  split; [|split].
  - intros Hlt.
    destruct (Hre ltac:(lia)) as (Htr & _ & Hfail & Hrc & Hex & _).
    destruct (Hretry1 ltac:(lia) ltac:(congruence)) as (t & evs & [= -> ->] & _).
    rewrite Htr, Hfail. cbn [hd_error].
    repeat split; try reflexivity; simpl; congruence.
  - intros Hge.
    destruct (Hgive ltac:(lia)) as (evs & [= -> ->] & Hfail & Htr & _).
    rewrite emitted_app, Hfail, Htr, Hcc, Hcd, Hfc.
    repeat split; reflexivity.
  - split; [reflexivity|].
    destruct (Z.lt_ge_cases (retry_count received) (max_retry received)) as [Hlt|Hge].
    + destruct (Hretry1 Hlt ltac:(congruence)) as (t & evs & [= -> ->] & _ & Hcm).
      rewrite emitted_app. exact Hcm.
    + destruct (Hgive ltac:(lia)) as (evs & [= -> ->] & _ & _ & Hcm).
      rewrite emitted_app. exact Hcm.
Qed.

Lemma nak_from_wire_retries_witness :
  retry_count
    (fst (comm_tick_instance
            (receive_bytes (fun _ => 0) 0 waiting_channel
               (nak_frame (expected_ack_seq waiting_channel)))
            (quiet_world 0))) = 1.
Proof.
  pose proof (nak_from_wire_retries (fun _ => 0) 0 waiting_channel
                (quiet_world 0)) as H.
  cbv zeta in H.
  destruct (comm_tick_instance _ _) as [after w'].
  refine (proj1 (proj2 (proj1 (H _ _ _ _ _ _) _))); try reflexivity;
    try (simpl; lia); unfold is_byte; simpl; lia.
Defined.

(** X22. A retry repeats the frame byte for byte: after a send the
    transport took, the transmit buffer holds the frame that went out, and
    a timeout with retries left hands exactly those bytes, with the same
    sequence number, to the transport again; the sequence counter does not
    advance and the acknowledgement awaited is the same. *)
Theorem retry_resends_same_frame (instance : comm_instance_t)
    (cmd data : list Z) (w w2 : World) :
  state instance = COMM_STATE_IDLE ->
  strlen cmd < COMM_MAX_CMD_LENGTH ->
  strlen data < COMM_MAX_DATA_LENGTH ->
  length (tx_buffer instance) = Z.to_nat COMM_TX_BUFFER_SIZE ->
  0 < max_retry instance ->
  w_hal w (length (w_trace w)) = HAL_OK ->
  let frame := sent_frame instance cmd data in
  let '(sent, waiting, w1) := comm_send_command_on instance cmd data w in
  let '(after, w3) := comm_handle_timeout waiting w2 in
  sent = true
  /\ List.filter is_transmit (emitted w w1)
     = [EvTransmit (huart instance) frame 1000]
  /\ hd_error (List.filter is_transmit (emitted w2 w3))
     = Some (EvTransmitIT (huart instance) frame)
  /\ retry_count after = 1
  /\ expected_ack_seq after = expected_ack_seq waiting
  /\ tx_sequence after = tx_sequence waiting
  /\ expected_ack_seq waiting = fst (comm_get_next_tx_sequence instance).
Proof.
  intros Hidle Hc Hd Hbuf Hmax Hok frame.
  destruct (comm_send_command_on_run instance cmd data w Hidle Hc Hd)
    as (waiting & evs & Hrun & Htr & _ & _ & _ & _ & _ & Htb & Htl & _ & Hexp & _
        & Hretry & Hhu & Hmr & _).
  rewrite Hrun. fold frame in Hrun, Htb, Htl |- *.
  rewrite bool_decide_eq_true_2 by exact Hok.
  assert (Hframe : take (Z.to_nat (strlen frame))
                     (snprintf_into (tx_buffer instance) frame) = frame).
  { apply take_snprintf_into. rewrite Hbuf.
    assert (Hlen : strlen frame = strlen cmd + strlen data + 9)
      by apply strlen_wire_frame.
    unfold strlen, COMM_TX_BUFFER_SIZE, COMM_MAX_CMD_LENGTH, COMM_MAX_DATA_LENGTH in *.
    lia. }
  pose proof (comm_handle_timeout_retransmits waiting w2
                ltac:(rewrite Hretry, Hmr; exact Hmax)) as Hre.
  cbv zeta in Hre.
  destruct (comm_handle_timeout waiting w2) as [after w3]. cbn [fst snd] in Hre.
  destruct Hre as (Htr2 & _ & _ & Hrc & Hex & _ & Hts & _).
  rewrite emitted_app, Hframe. cbn [List.filter is_transmit]. rewrite Htr.
  rewrite Htr2, Htb, Htl, Hframe, Hhu, Hrc, Hretry.
  repeat split; try reflexivity; assumption.
Qed.

Lemma retry_resends_same_frame_witness :
  retry_count
    (fst (comm_handle_timeout
            (snd (fst (comm_send_command_on (fresh_channel 1) text_PING text_TEST
                         (quiet_world 0))))
            (quiet_world 1000))) = 1.
Proof.
  pose proof (retry_resends_same_frame (fresh_channel 1) text_PING text_TEST
                (quiet_world 0) (quiet_world 1000)) as H.
  cbv zeta in H.
  destruct (comm_send_command_on _ _ _ _) as [[sent waiting] w1].
  cbn [fst snd].
  destruct (comm_handle_timeout waiting _) as [after w3].
  refine (proj1 (proj2 (proj2 (proj2 (H _ _ _ _ _ _))))); try reflexivity;
    simpl; lia.
Defined.

(** X23. A send the transport refuses costs a sequence number: from IDLE,
    with strings of accepted length, when [HAL_UART_Transmit] does not
    return [HAL_OK] the call reports failure after the one transmit
    attempt and the channel is still IDLE and ready, but the sequence
    counter has moved on, so the next send carries the number after the
    one that was never delivered. *)
Theorem refused_transport_consumes_sequence (instance : comm_instance_t)
    (cmd data : list Z) (w : World) :
  state instance = COMM_STATE_IDLE ->
  strlen cmd < COMM_MAX_CMD_LENGTH ->
  strlen data < COMM_MAX_DATA_LENGTH ->
  w_hal w (length (w_trace w)) <> HAL_OK ->
  let '(sent, after, w') := comm_send_command_on instance cmd data w in
  sent = false
  /\ comm_instance_is_ready after = true
  /\ length (emitted w w') = 1%nat
  /\ List.filter is_fail (emitted w w') = []
  /\ tx_sequence after = tx_successor (tx_sequence instance)
  /\ fst (comm_get_next_tx_sequence after)
     = tx_successor (tx_successor (tx_sequence instance)).
Proof.
  intros Hidle Hc Hd Hko.
  destruct (comm_send_command_on_run instance cmd data w Hidle Hc Hd)
    as (after & evs & Hrun & _ & _ & _ & Hevs & Hst & _ & _ & _ & Htx & _).
  rewrite Hrun. rewrite bool_decide_eq_false_2 in * by exact Hko.
  rewrite (Hevs eq_refl), emitted_app.
  unfold comm_instance_is_ready. rewrite Hst.
  change (fst (comm_get_next_tx_sequence after)) with (tx_successor (tx_sequence after)).
  rewrite Htx.
  repeat split; reflexivity.
Qed.

Lemma refused_transport_consumes_sequence_witness :
  tx_sequence
    (snd (fst (comm_send_command_on (fresh_channel 1) text_PING text_TEST
                 (mk_world 0 (fun _ => HAL_ERROR) [])))) = 1.
Proof.
  pose proof (refused_transport_consumes_sequence (fresh_channel 1)
                text_PING text_TEST (mk_world 0 (fun _ => HAL_ERROR) [])) as H.
  destruct (comm_send_command_on _ _ _ _) as [[sent after] w'].
  refine (proj1 (proj2 (proj2 (proj2 (proj2 (H _ _ _ _)))))); try reflexivity;
    try (simpl; lia); discriminate.
Defined.

(** X24. A send discards a received frame that has not been handled yet:
    when [comm_send_command] is accepted while a published frame with a
    non-empty command waits for the next tick, the pending frame is zeroed
    while the flag stays set, so that tick (the send timeout not having
    expired) handles an invalid frame: no acknowledgement, no rejection and
    no handler call, and the receive sequence stays where it was. *)
Theorem send_discards_unprocessed_frame (instance : comm_instance_t)
    (cmd data : list Z) (w w2 : World) :
  state instance = COMM_STATE_IDLE ->
  strlen cmd < COMM_MAX_CMD_LENGTH ->
  strlen data < COMM_MAX_DATA_LENGTH ->
  new_frame_available instance = true ->
  parse_state instance = FRAME_STATE_IDLE ->
  cstr (frame_cmd (pending_frame instance)) <> [] ->
  let '(sent, waiting, w1) := comm_send_command_on instance cmd data w in
  let '(after, w3) := comm_tick_instance waiting w2 in
  pending_frame waiting = frame_zero
  /\ new_frame_available waiting = true
  /\ (fst (comm_is_timeout waiting w2) = false ->
      emitted w2 w3 = []
      /\ rx_sequence after = rx_sequence instance
      /\ new_frame_available after = false).
Proof.
  intros Hidle Hc Hd Hflag Hps Hcmd.
  destruct (comm_send_command_on_run instance cmd data w Hidle Hc Hd)
    as (waiting & evs & Hrun & _ & _ & _ & _ & _ & _ & _ & _ & _ & _ & _ & _ & _
        & _ & Hflag1 & Hps1 & Hpf & Hrs).
  rewrite Hrun.
  assert (Hwipe : pending_frame waiting = frame_zero).
  { rewrite Hpf. unfold strlen.
    destruct (cstr (frame_cmd (pending_frame instance))); [contradiction|].
    reflexivity. }
  unfold comm_tick_instance. munfold.
  pose proof (comm_is_timeout_world waiting w2) as Hw.
  destruct (comm_is_timeout waiting w2) as [timed_out w0].
  cbn [fst snd] in Hw |- *. subst w0.
  destruct timed_out.
  - destruct (comm_handle_timeout waiting w2) as [i1 w3'].
    repeat match goal with
           | |- context [let '(_, _) := ?e in _] => destruct e as [? ?]
           end.
    split; [exact Hwipe|]. split; [congruence|]. discriminate.
  - rewrite comm_is_frame_timeout_idle by congruence.
    rewrite Hflag1, Hflag, Hwipe.
    unfold comm_handle_complete_frame. cbn [frame_is_valid frame_zero negb].
    split; [reflexivity|]. split; [reflexivity|]. intros _.
    unfold emitted. rewrite drop_all.
    repeat split; try reflexivity. simpl. exact Hrs.
Qed.

Lemma send_discards_unprocessed_frame_witness :
  pending_frame
    (snd (fst (comm_send_command_on channel_with_frame text_TEST []
                 (quiet_world 0))))
  = frame_zero.
Proof.
  pose proof (send_discards_unprocessed_frame channel_with_frame text_TEST []
                (quiet_world 0) (quiet_world 0)) as H.
  destruct (comm_send_command_on channel_with_frame text_TEST [] (quiet_world 0))
    as [[sent waiting] w1].
  destruct (comm_tick_instance waiting (quiet_world 0)) as [after w3].
  refine (proj1 (H _ _ _ _ _ _)).
  - vm_compute. reflexivity.
  - vm_compute. reflexivity.
  - vm_compute. reflexivity.
  - vm_compute. reflexivity.
  - vm_compute. reflexivity.
  - vm_compute. discriminate.
Defined.

(** X25. The parser stays on the receive side: whatever bytes arrive, the
    interrupt routine changes nothing of the handle, the send state, the
    sequence counters, the transmit buffer and its length, the callback
    table, the timeout settings, the retry count, the send time, the
    retained command and data, and the two callbacks. *)
Theorem parser_leaves_send_side (clock : nat -> Z) (k : nat)
    (instance : comm_instance_t) (bytes : list Z) :
  send_side (receive_bytes clock k instance bytes) = send_side instance.
Proof. apply receive_bytes_send_side. Qed.

(** X26. An API call for a handle that has no channel does nothing but
    report it: [comm_send_command] and [comm_register_command_callback]
    return false, leave the manager as it is and emit the one error line
    for the handle, and [comm_is_ready] answers false. *)
Theorem unknown_handle_is_refused (manager : comm_manager_t) (uart : Z)
    (cmd data : list Z) (callback : option comm_callback_t) (w : World) :
  comm_find_instance manager uart = None ->
  comm_send_command manager uart cmd data w
  = (false, manager, after_event w (EvErrorNoInstance uart))
  /\ comm_register_command_callback manager uart cmd callback w
     = (false, manager, after_event w (EvErrorNoInstance uart))
  /\ comm_is_ready manager uart = false.
Proof.
  intros Hnone.
  unfold comm_send_command, comm_register_command_callback, comm_is_ready.
  rewrite Hnone. repeat split; reflexivity.
Qed.

Lemma unknown_handle_is_refused_witness :
  comm_is_ready comm_manager_init 5 = false.
Proof.
  refine (proj2 (proj2 (unknown_handle_is_refused comm_manager_init 5 [] []
                          None (quiet_world 0) _))).
  reflexivity.
Defined.

(** X27. The first send after set-up: on the manager of [comm_init]
    followed by [comm_add_uart] for a handle, [comm_send_command] for that
    handle with strings of accepted length puts exactly one frame on the
    wire, [{CMD:DATA#01#CC}] with sequence number 1 and the CRC of
    [CMD:DATA#01], and the channel is busy until the acknowledgement
    arrives. *)
Theorem first_send_after_setup (uart : Z) (cmd data : list Z) (w : World) :
  uart <> 0 ->
  strlen cmd < COMM_MAX_CMD_LENGTH ->
  strlen data < COMM_MAX_DATA_LENGTH ->
  w_hal w (length (w_trace w)) = HAL_OK ->
  let body := frame_body cmd data 1 in
  let frame := wire_frame cmd data 1 (comm_crc8_calculate (Some body) (strlen body)) in
  let '(sent, after, w') :=
    comm_send_command (comm_add_uart comm_manager_init uart).1.2 uart cmd data w in
  sent = true
  /\ List.filter is_transmit (emitted w w') = [EvTransmit uart frame 1000]
  /\ List.filter is_fail (emitted w w') = []
  /\ comm_is_ready after uart = false
  /\ comm_find_instance after uart = Some 0%nat.
Proof.
  intros Huart Hc Hd Hok body frame.
  assert (Hadd : (comm_add_uart comm_manager_init uart).1.2
                 = mk_manager (fresh_channel uart :: replicate 7 zero_instance) 1).
  { unfold comm_add_uart, comm_create_uart_instance, comm_create_instance,
      comm_find_instance.
    destruct (Z.eqb_spec uart 0); [contradiction | reflexivity]. }
  rewrite Hadd.
  assert (Hfind : forall i,
             huart i = uart ->
             comm_find_instance (mk_manager (i :: replicate 7 zero_instance) 1) uart
             = Some 0%nat).
  { intros i Hi. unfold comm_find_instance.
    destruct (Z.eqb_spec uart 0); [contradiction|].
    cbn [instance_count instances Z.to_nat Pos.to_nat Pos.iter_op take list_find].
    simpl take. cbn [list_find].
    destruct (decide (huart i = uart)); [reflexivity | contradiction]. }
  rewrite (comm_send_command_found _ uart 0 (fresh_channel uart) cmd data w
             (Hfind (fresh_channel uart) eq_refl) eq_refl).
  destruct (comm_send_command_on_run (fresh_channel uart) cmd data w eq_refl Hc Hd)
    as (after & evs & Hrun & Htr & _ & Hfail & _ & Hst & _ & _ & _ & _ & _ & _ & _
        & Hhu & _).
  rewrite Hrun. rewrite bool_decide_eq_true_2 in * by exact Hok.
  assert (Hframe : take (Z.to_nat (strlen frame))
                     (snprintf_into (tx_buffer (fresh_channel uart)) frame) = frame).
  { apply take_snprintf_into.
    assert (Hlen : strlen frame = strlen cmd + strlen data + 9)
      by apply strlen_wire_frame.
    change (length (tx_buffer (fresh_channel uart))) with 128%nat.
    unfold strlen, COMM_MAX_CMD_LENGTH, COMM_MAX_DATA_LENGTH in *. lia. }
  change (sent_frame (fresh_channel uart) cmd data) with frame in *.
  rewrite Hframe, emitted_app.
  cbn [List.filter is_transmit is_fail huart fresh_channel comm_instance_init].
  rewrite Htr, Hfail.
  assert (Hfound : comm_find_instance
                     (mk_manager
                        (<[0%nat := after]> (fresh_channel uart :: replicate 7 zero_instance))
                        1) uart = Some 0%nat)
    by (apply Hfind; exact Hhu).
  repeat split; try reflexivity; try exact Hfound.
  unfold comm_is_ready. cbn [instances instance_count] in *. rewrite Hfound.
  cbn [mbind option_bind insert list_insert lookup list_lookup].
  unfold comm_instance_is_ready. rewrite Hst. reflexivity.
Qed.

Lemma first_send_after_setup_witness :
  comm_find_instance
    (snd (fst (comm_send_command (comm_add_uart comm_manager_init 7).1.2 7
                 text_PING text_TEST (quiet_world 0)))) 7 = Some 0%nat.
Proof.
  pose proof (first_send_after_setup 7 text_PING text_TEST (quiet_world 0)) as H.
  cbv zeta in H.
  destruct (comm_send_command _ _ _ _ _) as [[sent after] w'].
  refine (proj2 (proj2 (proj2 (proj2 (H _ _ _ _))))); try reflexivity;
    try (simpl; lia); discriminate.
Defined.

(** X28. A data frame that carries the sequence number whose
    acknowledgement the channel awaits is never taken for a command of the
    peer: no handler and no failure callback is invoked, and the channel
    still waits, with its receive sequence, retry count and awaited
    number as they were; when the receive window accepts the number the
    frame is ignored altogether, instance and world staying as they
    are. *)
Theorem awaited_sequence_frame_never_dispatched (instance : comm_instance_t)
    (frame : comm_frame_t) (w : World) :
  state instance = COMM_STATE_WAIT_ACK ->
  data_frame frame ->
  frame_sequence frame = expected_ack_seq instance ->
  let '(after, w') := comm_handle_complete_frame instance frame w in
  List.filter is_command (emitted w w') = []
  /\ List.filter is_fail (emitted w w') = []
  /\ state after = COMM_STATE_WAIT_ACK
  /\ rx_sequence after = rx_sequence instance
  /\ retry_count after = retry_count instance
  /\ expected_ack_seq after = expected_ack_seq instance
  /\ (comm_is_valid_rx_sequence instance (frame_sequence frame) = true ->
      after = instance /\ w' = w).
Proof.
  intros Hst Hdata Hseq.
  destruct (comm_handle_complete_frame_awaited instance frame w Hst Hdata Hseq)
    as [[Hwin ->] | (Hwin & after & e & -> & He & Hafter)].
  - unfold emitted. rewrite drop_all.
    repeat split; try reflexivity; exact Hst.
  - rewrite emitted_app. cbn [List.filter].
    assert (Hc : is_command e = false) by (destruct e; try discriminate; reflexivity).
    assert (Hf : is_fail e = false) by (destruct e; try discriminate; reflexivity).
    rewrite Hc, Hf, Hwin.
    destruct Hafter as [-> | [t ->]];
      repeat split; try reflexivity; try exact Hst; discriminate.
Qed.

Lemma awaited_sequence_frame_never_dispatched_witness :
  comm_handle_complete_frame (set_rx_sequence 6 waiting_channel) looped_frame
    (quiet_world 5)
  = (set_rx_sequence 6 waiting_channel, quiet_world 5).
Proof.
  pose proof (awaited_sequence_frame_never_dispatched
                (set_rx_sequence 6 waiting_channel) looped_frame
                (quiet_world 5)) as H.
  destruct (comm_handle_complete_frame _ _ _) as [after w'].
  destruct H as (_ & _ & _ & _ & _ & _ & H).
  - reflexivity.
  - split; [reflexivity | split; vm_compute; discriminate].
  - reflexivity.
  - destruct (H eq_refl) as [-> ->]. reflexivity.
Defined.
